(** * zendit: bank-statement parsing and enrichment

    A shallow embedding of the statement parser of the zendit repository
    (src/lib/parsers/icici.ts, src/lib/parsers/helpers.ts and its lenient
    sibling, src/lib/ml/base.ts, merchant-extractor.ts, pipeline.ts, the
    classifier, the features of preprocessor.ts, and the worker that runs
    the parser), followed by the properties established about it.

    Conventions of the embedding:
    - a JavaScript string is a [string]; the text is read as 7-bit ASCII
      (code units above 127 have no case and are not white space);
    - a JavaScript number is a rational [Q]: the arithmetic that the code
      performs on amounts, coordinates and scores is exact here, the
      rounding of IEEE doubles is not modelled; what [Number] reads from a
      text is a [jsnum], which adds NaN and the infinities;
    - a Date is its time value, the milliseconds since the epoch, or
      [None] when it is invalid;
    - a regular expression literal is a value of [regex], run by a
      backtracking matcher with the priorities of the ECMAScript one
      (leftmost start, greedy and lazy quantifiers, ordered alternatives);
    - a function that may throw returns a [result]. *)

From Stdlib Require Import Bool Arith List ZArith Lia.
From Stdlib Require Import QArith Qabs Qround Qminmax Lqa.
From Stdlib Require Import Ascii String DecimalString Permutation.
From Stdlib Require DecimalNat DecimalFacts.
Import ListNotations.

Close Scope Q_scope.
Local Open Scope string_scope.
Local Open Scope list_scope.
Local Open Scope nat_scope.

(** ** JavaScript strings *)

Module JS.

Definition chars (s : string) : list ascii := list_ascii_of_string s.
Definition str (l : list ascii) : string := string_of_list_ascii l.

Definition code (c : ascii) : nat := nat_of_ascii c.

Definition isUpper (c : ascii) : bool := (65 <=? code c) && (code c <=? 90).
Definition isLower (c : ascii) : bool := (97 <=? code c) && (code c <=? 122).
Definition isDigit (c : ascii) : bool := (48 <=? code c) && (code c <=? 57).
Definition isWordChar (c : ascii) : bool :=
  isUpper c || isLower c || isDigit c || (code c =? 95).

(** White space and line terminators below 128: TAB, LF, VT, FF, CR, SP. *)
Definition isSpace (c : ascii) : bool :=
  ((9 <=? code c) && (code c <=? 13)) || (code c =? 32).

Definition lowerChar (c : ascii) : ascii :=
  if isUpper c then ascii_of_nat (code c + 32) else c.
Definition upperChar (c : ascii) : ascii :=
  if isLower c then ascii_of_nat (code c - 32) else c.

Definition toLowerCase (s : string) : string := str (map lowerChar (chars s)).
Definition toUpperCase (s : string) : string := str (map upperChar (chars s)).

Fixpoint dropSpaces (l : list ascii) : list ascii :=
  match l with
  | c :: t => if isSpace c then dropSpaces t else l
  | [] => []
  end.

Definition trimChars (l : list ascii) : list ascii :=
  rev (dropSpaces (rev (dropSpaces l))).

Definition trim (s : string) : string := str (trimChars (chars s)).

Fixpoint startsWithChars (p l : list ascii) : bool :=
  match p, l with
  | [], _ => true
  | a :: p', b :: l' => Ascii.eqb a b && startsWithChars p' l'
  | _ :: _, [] => false
  end.

Fixpoint includesChars (l p : list ascii) : bool :=
  startsWithChars p l ||
  match l with
  | [] => false
  | _ :: t => includesChars t p
  end.

(** [s.includes(p)] *)
Definition includes (s p : string) : bool := includesChars (chars s) (chars p).

(** [s.endsWith(p)] *)
Definition endsWith (s p : string) : bool :=
  startsWithChars (rev (chars p)) (rev (chars s)).

(** [parts.join(sep)] *)
Fixpoint join (sep : string) (parts : list string) : string :=
  match parts with
  | [] => ""
  | [p] => p
  | p :: rest => (p ++ sep ++ join sep rest)%string
  end.

(** [s.split(/[...]/)] for a class of single separator characters: every
    separator ends a part, so adjacent separators give empty parts and the
    empty string gives one empty part. *)
Fixpoint splitCharsAcc (sep : ascii -> bool) (cur : list ascii)
    (l : list ascii) : list string :=
  match l with
  | [] => [str (rev cur)]
  | c :: t =>
      if sep c then str (rev cur) :: splitCharsAcc sep [] t
      else splitCharsAcc sep (c :: cur) t
  end.

Definition splitOn (sep : ascii -> bool) (s : string) : list string :=
  splitCharsAcc sep [] (chars s).

(** Truthiness of a string: the empty string is falsy. *)
Definition truthyStr (s : string) : bool := negb (String.eqb s "").

(** Truthiness of a number: zero is falsy (NaN does not occur in [Q]). *)
Definition truthyNum (q : Q) : bool := negb (Qeq_bool q 0).

End JS.

(** ** Regular expressions

    The syntax covers what the patterns of the parser use.  [Rep] is a
    quantifier with its bounds ([None]: no upper bound) and its greediness;
    [Grp n] is the capturing group number [n]; a group written [(?: )] in the
    source is plain nesting here. *)

Module Regex.

Inductive citem : Type :=
| CChar (c : ascii)
| CRange (lo hi : ascii)
| CDigit
| CSpace
| CWord.

Inductive regex : Type :=
| Eps
| Chr (c : ascii)
| Dot
| Cls (negated : bool) (items : list citem)
| Seq (r1 r2 : regex)
| Alt (r1 r2 : regex)
| Rep (greedy : bool) (lo : nat) (hi : option nat) (r : regex)
| Grp (n : nat) (r : regex)
| Bol
| Eol
| WordB.

(** A literal run of characters. *)
Definition lit (s : string) : regex :=
  fold_right (fun c r => Seq (Chr c) r) Eps (JS.chars s).

(** A sequence of parts. *)
Definition cat (rs : list regex) : regex := fold_right Seq Eps rs.

Definition Star (r : regex) : regex := Rep true 0 None r.
Definition Plus (r : regex) : regex := Rep true 1 None r.
Definition PlusLazy (r : regex) : regex := Rep false 1 None r.
Definition Opt (r : regex) : regex := Rep true 0 (Some 1) r.
Definition Times (n : nat) (r : regex) : regex := Rep true n (Some n) r.
Definition AtLeast (n : nat) (r : regex) : regex := Rep true n None r.
Definition Between (n k : nat) (r : regex) : regex := Rep true n (Some k) r.

Definition digit : regex := Cls false [CDigit].
Definition space : regex := Cls false [CSpace].
Definition oneOf (s : string) : list citem := map CChar (JS.chars s).

(** The matcher's state: the character before the position ([None] at the
    start of the input), the input from the position on, and the captures. *)
Record mstate : Type := MState {
  ms_prev : option ascii;
  ms_rest : list ascii;
  ms_caps : list (nat * list ascii)
}.

Definition itemHas (c : ascii) (i : citem) : bool :=
  match i with
  | CChar x => Ascii.eqb x c
  | CRange lo hi => (JS.code lo <=? JS.code c) && (JS.code c <=? JS.code hi)
  | CDigit => JS.isDigit c
  | CSpace => JS.isSpace c
  | CWord => JS.isWordChar c
  end.

Definition charEq (icase : bool) (a b : ascii) : bool :=
  if icase then Ascii.eqb (JS.upperChar a) (JS.upperChar b) else Ascii.eqb a b.

(** With the [i] flag a character is in a class when one of its two cases is. *)
Definition inClass (icase : bool) (items : list citem) (c : ascii) : bool :=
  existsb (itemHas c) items ||
  (icase && (existsb (itemHas (JS.upperChar c)) items ||
             existsb (itemHas (JS.lowerChar c)) items)).

Definition isLineTerminator (c : ascii) : bool :=
  (JS.code c =? 10) || (JS.code c =? 13).

Definition step1 (ok : ascii -> bool) (k : mstate -> option mstate)
    (st : mstate) : option mstate :=
  match ms_rest st with
  | c :: t => if ok c then k (MState (Some c) t (ms_caps st)) else None
  | [] => None
  end.

Definition wordBefore (st : mstate) : bool :=
  match ms_prev st with Some c => JS.isWordChar c | None => false end.
Definition wordAfter (st : mstate) : bool :=
  match ms_rest st with c :: _ => JS.isWordChar c | [] => false end.

Definition consumed (st st' : mstate) : list ascii :=
  firstn (List.length (ms_rest st) - List.length (ms_rest st')) (ms_rest st).

Definition setCap (n : nat) (v : list ascii) (st : mstate) : mstate :=
  MState (ms_prev st) (ms_rest st)
         ((n, v) :: filter (fun p => negb (fst p =? n)) (ms_caps st)).

Definition orElse (a : option mstate) (b : unit -> option mstate)
    : option mstate :=
  match a with Some r => Some r | None => b tt end.

(** The loop of a quantifier over [body], the matcher of the quantified
    pattern: [cnt] iterations are done, [fuel] bounds the iterations left.
    An iteration that consumed nothing once the lower bound is met is given
    up, as the ECMAScript RepeatMatcher does. *)
Fixpoint repLoop (body : (mstate -> option mstate) -> mstate -> option mstate)
    (greedy : bool) (lo : nat) (hi : option nat)
    (k : mstate -> option mstate) (fuel cnt : nat) (st : mstate)
    {struct fuel} : option mstate :=
  match fuel with
  | O => None
  | S fuel' =>
      let again (_ : unit) :=
        body (fun st' =>
                if (lo <=? cnt) &&
                   (List.length (ms_rest st') =? List.length (ms_rest st))
                then None
                else repLoop body greedy lo hi k fuel' (S cnt) st') st in
      if cnt <? lo then again tt
      else if match hi with Some h => h <=? cnt | None => false end
      then k st
      else if greedy then orElse (again tt) (fun _ => k st)
      else orElse (k st) again
  end.

(** The iterations that a quantifier can still need: those up to its lower
    bound, one for each character left, and the last turn that stops. *)
Definition repFuel (lo cnt : nat) (st : mstate) : nat :=
  (lo - cnt) + List.length (ms_rest st) + 1.

(** [run icase r k st]: match [r] at [st], then continue with [k]; the first
    success in priority order is the answer. *)
Fixpoint run (icase : bool) (r : regex) (k : mstate -> option mstate)
    (st : mstate) {struct r} : option mstate :=
  match r with
  | Eps => k st
  | Chr c => step1 (charEq icase c) k st
  | Dot => step1 (fun c => negb (isLineTerminator c)) k st
  | Cls neg items => step1 (fun c => xorb neg (inClass icase items c)) k st
  | Seq r1 r2 => run icase r1 (run icase r2 k) st
  | Alt r1 r2 => orElse (run icase r1 k st) (fun _ => run icase r2 k st)
  | Rep greedy lo hi r1 =>
      repLoop (run icase r1) greedy lo hi k (repFuel lo 0 st) 0 st
  | Grp n r1 => run icase r1 (fun st' => k (setCap n (consumed st st') st')) st
  | Bol => match ms_prev st with None => k st | Some _ => None end
  | Eol => match ms_rest st with [] => k st | _ :: _ => None end
  | WordB => if xorb (wordBefore st) (wordAfter st) then k st else None
  end.

(** A match: the text before it, the matched text, the captures and the
    text after it. *)
Record found : Type := Found {
  f_before : list ascii;
  f_text : list ascii;
  f_caps : list (nat * list ascii);
  f_after : list ascii
}.

(** The leftmost match from a position on; [before] is the text already
    passed, in reverse. *)
Fixpoint search (icase : bool) (r : regex) (prev : option ascii)
    (before : list ascii) (rest : list ascii) : option found :=
  let st := MState prev rest [] in
  match run icase r (fun s => Some s) st with
  | Some st' =>
      Some (Found (rev before) (consumed st st') (ms_caps st') (ms_rest st'))
  | None =>
      match rest with
      | [] => None
      | c :: t => search icase r (Some c) (c :: before) t
      end
  end.

(** A regular expression object: the literal as the source writes it (kept
    for the reader, the matcher never looks at it), its pattern and its [i]
    flag.  The [g] flag shows in the operation used, [replaceAll] or
    [replaceFirst]. *)
Record RegExp : Type := {
  source : string;
  pattern : regex;
  ignoreCase : bool
}.

(** A literal without the [i] flag. *)
Definition re (src : string) (r : regex) : RegExp :=
  {| source := src; pattern := r; ignoreCase := false |}.
(** A literal with the [i] flag. *)
Definition rei (src : string) (r : regex) : RegExp :=
  {| source := src; pattern := r; ignoreCase := true |}.

(** [s.match(re)] for a pattern without the [g] flag. *)
Definition exec (e : RegExp) (s : string) : option found :=
  search (ignoreCase e) (pattern e) None [] (JS.chars s).

(** [re.test(s)] *)
Definition test (e : RegExp) (s : string) : bool :=
  match exec e s with Some _ => true | None => false end.

(** [match[n]]: the capture of group [n], [None] when it took no part. *)
Definition group (n : nat) (f : found) : option string :=
  match n with
  | O => Some (JS.str (f_text f))
  | _ =>
      match find (fun p => fst p =? n) (f_caps f) with
      | Some p => Some (JS.str (snd p))
      | None => None
      end
  end.

(** [s.replace(re, by_)] without the [g] flag: the first match only. *)
Definition replaceFirst (e : RegExp) (by_ : string) (s : string) : string :=
  match exec e s with
  | Some f => JS.str (f_before f ++ JS.chars by_ ++ f_after f)
  | None => s
  end.

Definition lastOr (prev : option ascii) (l : list ascii) : option ascii :=
  match rev l with c :: _ => Some c | [] => prev end.

(** [s.replace(re, by_)] with the [g] flag: every match from left to right;
    after an empty match the scan moves one character on. *)
Fixpoint replaceFrom (fuel : nat) (icase : bool) (r : regex)
    (by_ : list ascii) (prev : option ascii) (rest : list ascii)
    : list ascii :=
  match fuel with
  | O => rest
  | S fuel' =>
      match search icase r prev [] rest with
      | None => rest
      | Some f =>
          let seen := lastOr prev (f_before f ++ f_text f) in
          match f_text f, f_after f with
          | [], c :: t =>
              f_before f ++ by_ ++ c :: replaceFrom fuel' icase r by_ (Some c) t
          | [], [] => f_before f ++ by_
          | _ :: _, _ =>
              f_before f ++ by_ ++ replaceFrom fuel' icase r by_ seen (f_after f)
          end
      end
  end.

Definition replaceAll (e : RegExp) (by_ : string) (s : string) : string :=
  JS.str (replaceFrom (S (String.length s)) (ignoreCase e) (pattern e)
                      (JS.chars by_) None (JS.chars s)).

End Regex.

(** ** JavaScript numbers read from text, and dates *)

Module JSNum.

(** The result of [Number(s)]: not a number, an infinity, or a finite value. *)
Inductive jsnum : Type :=
| NaN
| Inf (negative : bool)
| Fin (q : Q).

Definition Qlt_bool (x y : Q) : bool := negb (Qle_bool y x).

(** [a < b]; a comparison with NaN is false. *)
Definition lt (a b : jsnum) : bool :=
  match a, b with
  | NaN, _ | _, NaN => false
  | Fin x, Fin y => Qlt_bool x y
  | Inf true, Inf true => false
  | Inf true, _ => true
  | _, Inf false => match a with Inf false => false | _ => true end
  | _, _ => false
  end.

Definition gt (a b : jsnum) : bool := lt b a.

(** [!a]: NaN and zero are falsy. *)
Definition falsy (a : jsnum) : bool :=
  match a with
  | NaN => true
  | Inf _ => false
  | Fin q => Qeq_bool q 0
  end.

Definition ofZ (z : Z) : jsnum := Fin (inject_Z z).

(** [a !== n] for an integer [n] that a Date getter returned. *)
Definition differsFromZ (a : jsnum) (n : Z) : bool :=
  match a with
  | Fin q => negb (Qeq_bool q (inject_Z n))
  | _ => true
  end.

(** ToIntegerOrInfinity on a finite value: truncation towards zero. *)
Definition truncate (q : Q) : Z := Z.quot (Qnum q) (Zpos (Qden q)).

Fixpoint spanChars (p : ascii -> bool) (l : list ascii)
    : list ascii * list ascii :=
  match l with
  | c :: t =>
      if p c then let (a, b) := spanChars p t in (c :: a, b) else ([], l)
  | [] => ([], [])
  end.

Definition digitValue (c : ascii) : Z :=
  if JS.isDigit c then Z.of_nat (JS.code c - 48)
  else if JS.isLower c then Z.of_nat (JS.code c - 87)
  else Z.of_nat (JS.code c - 55).

Definition isHexDigit (c : ascii) : bool :=
  JS.isDigit c ||
  ((97 <=? JS.code c) && (JS.code c <=? 102)) ||
  ((65 <=? JS.code c) && (JS.code c <=? 70)).
Definition isOctDigit (c : ascii) : bool :=
  (48 <=? JS.code c) && (JS.code c <=? 55).
Definition isBinDigit (c : ascii) : bool :=
  (48 <=? JS.code c) && (JS.code c <=? 49).

(** The value of a run of digits in a base. *)
Definition digitsValue (base : Z) (l : list ascii) : Z :=
  fold_left (fun acc c => (acc * base + digitValue c)%Z) l 0%Z.

Definition allOf (p : ascii -> bool) (l : list ascii) : bool :=
  match l with [] => false | _ => forallb p l end.

(** [0x..], [0o..] and [0b..] literals. *)
Definition nonDecimal (l : list ascii) : option Z :=
  match l with
  | "0"%char :: m :: ds =>
      match JS.lowerChar m with
      | "x"%char =>
          if allOf isHexDigit ds then Some (digitsValue 16 ds) else None
      | "o"%char =>
          if allOf isOctDigit ds then Some (digitsValue 8 ds) else None
      | "b"%char =>
          if allOf isBinDigit ds then Some (digitsValue 2 ds) else None
      | _ => None
      end
  | _ => None
  end.

(** The exponent part [e], [e+] or [e-] followed by digits, up to the end. *)
Definition exponentPart (l : list ascii) : option Z :=
  match l with
  | [] => Some 0%Z
  | e :: t =>
      if Ascii.eqb (JS.lowerChar e) "e" then
        match t with
        | "-"%char :: ds =>
            if allOf JS.isDigit ds then Some (- digitsValue 10 ds)%Z else None
        | "+"%char :: ds =>
            if allOf JS.isDigit ds then Some (digitsValue 10 ds) else None
        | ds => if allOf JS.isDigit ds then Some (digitsValue 10 ds) else None
        end
      else None
  end.

Definition pow10 (e : Z) : Q := Qpower (10 # 1) e.

(** An unsigned decimal literal: digits, an optional fraction, an optional
    exponent; at least one digit before the exponent. *)
Definition unsignedDecimal (l : list ascii) : option Q :=
  let (ip, r1) := spanChars JS.isDigit l in
  let (fp, r2) :=
    match r1 with
    | "."%char :: t => spanChars JS.isDigit t
    | _ => ([], r1)
    end in
  match ip, fp with
  | [], [] => None
  | _, _ =>
      match exponentPart r2 with
      | Some e =>
          Some (Qred ((inject_Z (digitsValue 10 ip) +
                       inject_Z (digitsValue 10 fp) *
                       pow10 (- Z.of_nat (List.length fp))) * pow10 e)%Q)
      | None => None
      end
  end.

Definition infinityWord : list ascii := JS.chars "Infinity".

Definition strDecimal (l : list ascii) : jsnum :=
  let (neg, body) :=
    match l with
    | "-"%char :: t => (true, t)
    | "+"%char :: t => (false, t)
    | _ => (false, l)
    end in
  if list_eq_dec ascii_dec body infinityWord then Inf neg
  else match unsignedDecimal body with
       | Some q => Fin (if neg then Qopp q else q)
       | None => NaN
       end.

(** [Number(s)]: white space is trimmed, the empty string is 0, text that
    is no numeric literal is NaN. *)
Definition Number (s : string) : jsnum :=
  match JS.trimChars (JS.chars s) with
  | [] => Fin 0
  | l =>
      match nonDecimal l with
      | Some z => ofZ z
      | None => strDecimal l
      end
  end.

(** The exponent that [parseFloat] accepts after the digits: [e], an
    optional sign and at least one digit; anything else is left unread. *)
Definition exponentPrefix (l : list ascii) : Z :=
  match l with
  | e :: t =>
      if Ascii.eqb (JS.lowerChar e) "e" then
        match t with
        | "-"%char :: ds =>
            match fst (spanChars JS.isDigit ds) with
            | [] => 0%Z
            | run => (- digitsValue 10 run)%Z
            end
        | "+"%char :: ds => digitsValue 10 (fst (spanChars JS.isDigit ds))
        | ds => digitsValue 10 (fst (spanChars JS.isDigit ds))
        end
      else 0%Z
  | [] => 0%Z
  end.

(** [parseFloat(s)]: the longest prefix that is a decimal literal, after
    leading white space; [None] stands for NaN.  (The word Infinity, which
    [Q] cannot hold, is read as NaN; no amount of the statement is one.) *)
Definition parseFloat (s : string) : option Q :=
  let l := JS.dropSpaces (JS.chars s) in
  let (neg, body) :=
    match l with
    | "-"%char :: t => (true, t)
    | "+"%char :: t => (false, t)
    | _ => (false, l)
    end in
  let (ip, r1) := spanChars JS.isDigit body in
  let (fp, r2) :=
    match r1 with
    | "."%char :: t => spanChars JS.isDigit t
    | _ => ([], r1)
    end in
  match ip, fp with
  | [], [] => None
  | _, _ =>
      let q := Qred ((inject_Z (digitsValue 10 ip) +
                      inject_Z (digitsValue 10 fp) *
                      pow10 (- Z.of_nat (List.length fp))) *
                     pow10 (exponentPrefix r2))%Q in
      Some (if neg then Qopp q else q)
  end.

End JSNum.

Module JSDate.

Import JSNum.
Local Open Scope Z_scope.

(** A Date's time value: milliseconds since the epoch, [None] when invalid. *)
Definition Date : Type := option Z.

Definition msPerDay : Z := 86400000.

(** DayFromYear of ECMA-262. *)
Definition dayFromYear (y : Z) : Z :=
  365 * (y - 1970) + (y - 1969) / 4 - (y - 1901) / 100 + (y - 1601) / 400.

Definition inLeapYear (y : Z) : bool :=
  ((y mod 4 =? 0) && negb (y mod 100 =? 0)) || (y mod 400 =? 0).

(** The first day of month [m] (0 to 11) within a year. *)
Definition monthStart (leap : bool) (m : Z) : Z :=
  let l := if leap then 1 else 0 in
  nth (Z.to_nat m) [0; 31; 59 + l; 90 + l; 120 + l; 151 + l; 181 + l;
                    212 + l; 243 + l; 273 + l; 304 + l; 334 + l] 0.

(** MakeDay on finite arguments. *)
Definition makeDay (year month date : Q) : Z :=
  let y := truncate year in
  let m := truncate month in
  let dt := truncate date in
  let ym := y + m / 12 in
  let mn := m mod 12 in
  dayFromYear ym + monthStart (inLeapYear ym) mn + dt - 1.

Definition makeTime (h mi s ms : Z) : Z :=
  h * 3600000 + mi * 60000 + s * 1000 + ms.

(** TimeClip: a time value beyond 8.64e15 in magnitude is invalid. *)
Definition timeClip (t : Z) : Date :=
  if Z.abs t <=? 8640000000000000 then Some t else None.

(** [new Date(Date.UTC(year, month, date, h, mi, s, ms))]; a year whose
    integer part is between 0 and 99 stands for 1900 plus it. *)
Definition UTC (year month date : jsnum) (h mi s ms : Z) : Date :=
  match year, month, date with
  | Fin y, Fin m, Fin d =>
      let yi := truncate y in
      let yr := if (0 <=? yi) && (yi <=? 99)
                then inject_Z (1900 + yi) else y in
      timeClip (makeDay yr m d * msPerDay + makeTime h mi s ms)
  | _, _, _ => None
  end.

(** The civil date of a day number: year, month (0 to 11), day of month. *)
Definition civil (day : Z) : Z * Z * Z :=
  let z := day + 719468 in
  let era := z / 146097 in
  let doe := z - era * 146097 in
  let yoe := (doe - doe / 1460 + doe / 36524 - doe / 146096) / 365 in
  let doy := doe - (365 * yoe + yoe / 4 - yoe / 100) in
  let mp := (5 * doy + 2) / 153 in
  let d := doy - (153 * mp + 2) / 5 + 1 in
  let m := if mp <? 10 then mp + 3 else mp - 9 in
  let y := yoe + era * 400 + (if m <=? 2 then 1 else 0) in
  (y, m - 1, d).

Definition getUTCFullYear (t : Z) : Z := fst (fst (civil (t / msPerDay))).
Definition getUTCMonth (t : Z) : Z := snd (fst (civil (t / msPerDay))).
Definition getUTCDate (t : Z) : Z := snd (civil (t / msPerDay)).
Definition getUTCHours (t : Z) : Z := (t mod msPerDay) / 3600000.
Definition msWithinHour (t : Z) : Z := (t mod msPerDay) mod 3600000.

End JSDate.

(** ** Results of code that may throw *)

Inductive result (A : Type) : Type :=
| Ok (a : A)
| Throw (msg : string).

Arguments Ok {A} a.
Arguments Throw {A} msg.

Definition bind {A B : Type} (r : result A) (f : A -> result B) : result B :=
  match r with
  | Ok a => f a
  | Throw m => Throw m
  end.

Notation "x <- c ;; k" := (bind c (fun x => k))
  (at level 61, c at next level, right associativity).

(** [xs.map((x, index) => f(x, index))] where [f] may throw: the first
    exception ends the whole map. *)
Fixpoint mapIdx {A B : Type} (f : A -> nat -> result B) (i : nat)
    (xs : list A) : result (list B) :=
  match xs with
  | [] => Ok []
  | x :: t =>
      y <- f x i ;;
      ys <- mapIdx f (S i) t ;;
      Ok (y :: ys)
  end.

(** [try { body } catch { handler }] *)
Definition tryCatch {A : Type} (body : result A) (handler : string -> result A)
    : result A :=
  match body with
  | Ok a => Ok a
  | Throw m => handler m
  end.

(** A [Set] of strings in insertion order: [add] keeps the first occurrence. *)
Definition setAdd (x : string) (s : list string) : list string :=
  if existsb (String.eqb x) s then s else s ++ [x].

(** [if (c) tags.add(x)] *)
Definition addIf (c : bool) (x : string) (s : list string) : list string :=
  if c then setAdd x s else s.

(** [a % b] on exact values: the remainder of the truncated division. *)
Definition remQ (a b : Q) : Q :=
  (a - b * inject_Z (JSNum.truncate (a / b)))%Q.

Definition Qge_bool (a b : Q) : bool := Qle_bool b a.
Definition Qgt_bool (a b : Q) : bool := JSNum.Qlt_bool b a.

(** ** The rule-based helpers (src/lib/parsers/helpers.ts) *)

Module Helpers.

Import Regex.

Record MerchantPattern : Type := {
  regex_ : RegExp;
  extractGroup : nat;
  cleanup : option (string -> string)
}.

Definition notSlash : regex := Cls true (oneOf "/").

Definition UPI_MERCHANT_PATTERNS : list MerchantPattern :=
  [ {| regex_ := rei "/UPI\/([^\/]+)(?:\/.*)?$/i"
                      (cat [lit "UPI/"; Grp 1 (Plus notSlash);
                           Opt (cat [lit "/"; Star Dot]); Eol]);
       extractGroup := 1; cleanup := None |};
    {| regex_ := rei "/IMPS\/([^\/]+)\/([^\/]+)/i"
                      (cat [lit "IMPS/"; Grp 1 (Plus notSlash); lit "/";
                           Grp 2 (Plus notSlash)]);
       extractGroup := 2; cleanup := None |};
    {| regex_ := rei "/NEFT\/([^\/]+)\/([^\/]+)/i"
                      (cat [lit "NEFT/"; Grp 1 (Plus notSlash); lit "/";
                           Grp 2 (Plus notSlash)]);
       extractGroup := 2; cleanup := None |};
    {| regex_ := rei "/RTGS\/([^\/]+)\/([^\/]+)/i"
                      (cat [lit "RTGS/"; Grp 1 (Plus notSlash); lit "/";
                           Grp 2 (Plus notSlash)]);
       extractGroup := 2; cleanup := None |};
    {| regex_ := rei "/BIL\/([^\/]+)(?:\/.*)?$/i"
                      (cat [lit "BIL/"; Grp 1 (Plus notSlash);
                           Opt (cat [lit "/"; Star Dot]); Eol]);
       extractGroup := 1; cleanup := None |} ].

Definition MERCHANT_NORMALIZATIONS : list (string * string) :=
  [ ("SWIGGY", "Swiggy");
    ("SWIGGYINST", "Swiggy Instamart");
    ("SWIGGYINSTAMAR", "Swiggy Instamart");
    ("ZOMATO", "Zomato");
    ("NETFLIX", "Netflix");
    ("NETFLIX CO", "Netflix");
    ("AMAZON", "Amazon");
    ("FLIPKART", "Flipkart");
    ("MYNTRA", "Myntra");
    ("AJIO", "Ajio");
    ("PAYTM", "Paytm");
    ("PHONEPE", "PhonePe");
    ("GPAY", "Google Pay");
    ("GOOGLE IND", "Google");
    ("GOOGLE INDIA", "Google");
    ("UBER", "Uber");
    ("OLA", "Ola");
    ("PVR INOX", "PVR Inox");
    ("PVR INOX L", "PVR Inox") ].

(** [table[key]]: the value of an own property. *)
Definition lookup (table : list (string * string)) (key : string)
    : option string :=
  match find (fun p => String.eqb (fst p) key) table with
  | Some p => Some (snd p)
  | None => None
  end.

Definition normalizeMerchantName (name : string)
    (normalizations : list (string * string)) : string :=
  let upperName := JS.toUpperCase name in
  match lookup normalizations upperName with
  | Some v => if JS.truthyStr v then v else JS.trim name
  | None => JS.trim name
  end.

Fixpoint extractMerchantFrom (cleanDesc : string)
    (patterns : list MerchantPattern) : string :=
  match patterns with
  | [] => "Unknown"
  | pat :: rest =>
      match exec (regex_ pat) cleanDesc with
      | Some m =>
          match group (extractGroup pat) m with
          | Some g =>
              let merchant := JS.trim g in
              if JS.truthyStr g && JS.truthyStr merchant &&
                 (2 <? String.length merchant)
              then normalizeMerchantName merchant MERCHANT_NORMALIZATIONS
              else extractMerchantFrom cleanDesc rest
          | None => extractMerchantFrom cleanDesc rest
          end
      | None => extractMerchantFrom cleanDesc rest
      end
  end.

Definition extractMerchantWith (description : string)
    (patterns : list MerchantPattern) : string :=
  extractMerchantFrom (JS.trim description) patterns.

Definition extractMerchant (description : string) : string :=
  extractMerchantWith description UPI_MERCHANT_PATTERNS.

Record CategoryRule : Type := {
  keywords : list string;
  merchantKeywords : option (list string);
  category : string;
  subcategory : option string;
  isRecurring : option bool;
  amountThreshold : option (option Q * option Q)
}.

Definition rule (kw : list string) (mkw : option (list string))
    (cat_ : string) (sub : option string) (rec : bool) : CategoryRule :=
  {| keywords := kw; merchantKeywords := mkw; category := cat_;
     subcategory := sub; isRecurring := Some rec; amountThreshold := None |}.

Definition DEFAULT_CATEGORY_RULES : list CategoryRule :=
  [ rule [] (Some ["swiggy"; "swiggy instamart"; "zomato"])
         "Food & Dining" (Some "Food Delivery") false;
    rule [] (Some ["netflix"])
         "Entertainment" (Some "Streaming Services") true;
    rule [] (Some ["pvr inox"])
         "Entertainment" (Some "Movies") false;
    rule [] (Some ["amazon"; "flipkart"; "myntra"; "ajio"])
         "Shopping" (Some "Online Shopping") false;
    rule [] (Some ["uber"; "ola"])
         "Transportation" None false;
    rule [] (Some ["paytm"; "phonepe"; "google pay"])
         "Transfer" (Some "Digital Wallet") false;
    rule ["atm withdrawal"; "cash withdrawal"] (Some [])
         "Cash & ATM" None false;
    rule ["emi"; "loan emi"; "personal loan"] (Some [])
         "Finance" (Some "Loans & EMI") true ].

Definition determinePaymentMethod (description : string) : string :=
  let desc := JS.toLowerCase description in
  if JS.includes desc "bhqr" || JS.includes desc "qr" then "QR Code"
  else if JS.includes desc "gpay" then "Google Pay"
  else if JS.includes desc "paytm" then "Paytm"
  else if JS.includes desc "phonepe" then "PhonePe"
  else if JS.includes desc "upi" then "UPI"
  else if JS.includes desc "card" then "Card"
  else if JS.includes desc "neft" || JS.includes desc "rtgs"
       then "Bank Transfer"
  else if JS.includes desc "bil/" then "Bill Payment"
  else if JS.includes desc "imps" then "IMPS"
  else "UPI".

Record Categorization : Type := {
  c_category : string;
  c_subcategory : option string;
  c_paymentMethod : string;
  c_isRecurring : bool
}.

(** [!bound || cmp]: an absent or zero bound does not constrain. *)
Definition boundOk (bound : option Q) (cmp : Q -> bool) : bool :=
  match bound with
  | None => true
  | Some b => negb (JS.truthyNum b) || cmp b
  end.

Definition matchesAmount (r : CategoryRule) (amount : Q) : bool :=
  match amountThreshold r with
  | None => true
  | Some (mn, mx) =>
      boundOk mn (fun b => Qge_bool amount b) &&
      boundOk mx (fun b => Qle_bool amount b)
  end.

Definition matchesMerchantKeywords (r : CategoryRule) (merch : string)
    : bool :=
  match merchantKeywords r with
  | Some ks =>
      existsb (fun keyword =>
                 String.eqb merch (JS.toLowerCase keyword) ||
                 JS.includes merch (JS.toLowerCase keyword)) ks
  | None => false
  end.

Definition matchesKeywords (r : CategoryRule) (desc : string) : bool :=
  existsb (fun keyword => JS.includes desc (JS.toLowerCase keyword))
          (keywords r).

Definition ruleMatches (r : CategoryRule) (desc merch : string) (amount : Q)
    : bool :=
  (matchesMerchantKeywords r merch || matchesKeywords r desc) &&
  matchesAmount r amount.

Definition orFalse (b : option bool) : bool :=
  match b with Some x => x | None => false end.

Fixpoint categorizeLoop (description desc merch : string) (amount : Q)
    (rules : list CategoryRule) : Categorization :=
  match rules with
  | r :: rest =>
      if ruleMatches r desc merch amount then
        {| c_category := category r;
           c_subcategory := subcategory r;
           c_paymentMethod := determinePaymentMethod description;
           c_isRecurring := orFalse (isRecurring r) |}
      else categorizeLoop description desc merch amount rest
  | [] =>
      {| c_category := "Others";
         c_subcategory := None;
         c_paymentMethod := determinePaymentMethod description;
         c_isRecurring := false |}
  end.

Definition categorizeTransactionWith (description merchant : string)
    (amount : Q) (rules : list CategoryRule) : Categorization :=
  categorizeLoop description (JS.toLowerCase description)
                 (JS.toLowerCase merchant) amount rules.

Definition categorizeTransaction (description merchant : string) (amount : Q)
    : Categorization :=
  categorizeTransactionWith description merchant amount DEFAULT_CATEGORY_RULES.

Definition hexOrDigit : regex := Cls false [CRange "a" "f"; CRange "0" "9"].
Definition upperOrDigit : regex := Cls false [CRange "A" "Z"; CRange "0" "9"].

Definition extractNotes (description : string) : option string :=
  match exec (rei "/(ICI[a-f0-9]+)/i"
                   (Grp 1 (cat [lit "ICI"; Plus hexOrDigit]))) description with
  | Some m =>
      Some ("Transaction ID: " ++
            match group 1 m with Some g => g | None => "undefined" end)%string
  | None =>
      match exec (re "/(\b[A-Z0-9]{10,}\b)/"
                     (Grp 1 (cat [WordB; AtLeast 10 upperOrDigit; WordB])))
                 description with
      | Some m =>
          Some ("Reference: " ++
                match group 1 m with Some g => g | None => "undefined" end)%string
      | None => None
      end
  end.

Definition dateSeparator (c : ascii) : bool :=
  Ascii.eqb c "-" || Ascii.eqb c "/".

(** [n - 1] *)
Definition minusOne (n : JSNum.jsnum) : JSNum.jsnum :=
  match n with
  | JSNum.Fin q => JSNum.Fin (q - 1)%Q
  | other => other
  end.

(** [getter(date) !== n]; the getters of an invalid date return NaN. *)
Definition getterDiffers (date : JSDate.Date) (getter : Z -> Z)
    (n : JSNum.jsnum) : bool :=
  match date with
  | Some t => JSNum.differsFromZ n (getter t)
  | None => true
  end.

(** The body of the [try] block of [parseDate]; what it throws is logged by
    the [catch] block and replaced there. *)
Definition parseDateBody (dateStr : string) : result JSDate.Date :=
  (* "dateStr.split(/[-\/]/).map(Number)" *)
  let parts := map JSNum.Number (JS.splitOn dateSeparator dateStr) in
  match parts with
  | [day; month; year] =>
      if JSNum.falsy day || JSNum.falsy month || JSNum.falsy year ||
         JSNum.lt day (JSNum.ofZ 1) || JSNum.gt day (JSNum.ofZ 31) ||
         JSNum.lt month (JSNum.ofZ 1) || JSNum.gt month (JSNum.ofZ 12) ||
         JSNum.lt year (JSNum.ofZ 1900)
      then Throw "Invalid date values"
      else
        let date := JSDate.UTC year (minusOne month) day 12 0 0 0 in
        if getterDiffers date JSDate.getUTCDate day ||
           getterDiffers date JSDate.getUTCMonth (minusOne month) ||
           getterDiffers date JSDate.getUTCFullYear year
        then Throw ("Date validation failed: " ++ dateStr)
        else Ok date
  | _ => Throw ("Date must have 3 parts: " ++ dateStr)
  end.

Definition parseDate (dateStr : string) : result JSDate.Date :=
  tryCatch (parseDateBody dateStr)
           (fun _ => Throw ("Invalid date format: " ++ dateStr)).

Definition cleanDescription (description : string) : string :=
  let s1 := replaceAll
    (rei "/This is a system-generated statement\.?\s*/gi"
         (cat [lit "This is a system-generated statement";
               Opt (Chr "."); Star space])) "" description in
  let s2 := replaceAll
    (rei "/Hence,?\s*it does not require any signature\.?\s*/gi"
         (cat [lit "Hence"; Opt (Chr ","); Star space;
               lit "it does not require any signature";
               Opt (Chr "."); Star space])) "" s1 in
  let s3 := replaceAll
    (rei "/\s*Page \d+\s*/gi"
         (cat [Star space; lit "Page "; Plus digit; Star space])) "" s2 in
  let s4 := replaceAll
    (rei "/signature\.\s*Page\s*\d+/gi"
         (cat [lit "signature."; Star space; lit "Page"; Star space;
               Plus digit])) "" s3 in
  let s5 := replaceFirst
    (re "/\/+$/" (cat [Plus (Chr "/"); Eol])) "" s4 in
  let s6 := replaceAll (re "/\s+/g" (Plus space)) " " s5 in
  JS.trim s6.

Definition systemPatterns : list RegExp :=
  [ rei "/^This is a system-generated/i"
        (cat [Bol; lit "This is a system-generated"]);
    rei "/Hence, it does not require/i" (lit "Hence, it does not require");
    rei "/any signature/i" (lit "any signature");
    rei "/Page \d+$/i" (cat [lit "Page "; Plus digit; Eol]);
    rei "/signature\.\s*Page/i"
        (cat [lit "signature."; Star space; lit "Page"]);
    rei "/Account Number/i" (lit "Account Number");
    rei "/Transaction date/i" (lit "Transaction date");
    rei "/Date\s*Description\s*Amount\s*Type/i"
        (cat [lit "Date"; Star space; lit "Description"; Star space;
              lit "Amount"; Star space; lit "Type"]);
    rei "/From \d{2}\/\d{2}\/\d{4} To \d{2}\/\d{2}\/\d{4}/i"
        (cat [lit "From "; Times 2 digit; lit "/"; Times 2 digit; lit "/";
              Times 4 digit; lit " To "; Times 2 digit; lit "/";
              Times 2 digit; lit "/"; Times 4 digit]) ].

Definition isSystemText (text : string) : bool :=
  existsb (fun pattern => test pattern text) systemPatterns.

(** [category.toLowerCase().replace(/[\s&]/g, "-")] *)
Definition categoryTag (category_ : string) : string :=
  replaceAll (re "/[\s&]/g" (Cls false [CSpace; CChar "&"])) "-"
             (JS.toLowerCase category_).

(** The tags that depend on the amount. *)
Definition amountTags (amount : option Q) (tags : list string) : list string :=
  match amount with
  | Some a =>
      if JS.truthyNum a then
        addIf (Qeq_bool (remQ a 100) 0 && Qge_bool a 1000) "round-amount"
          (addIf (JSNum.Qlt_bool a 100) "small-amount"
             (addIf (Qge_bool a 10000) "high-amount" tags))
      else tags
  | None => tags
  end.

Definition collectTags (description category_ : string) (amount : option Q)
    : list string :=
  let desc := JS.toLowerCase description in
  let t0 := setAdd (categoryTag category_) [] in
  let t1 := addIf (JS.includes desc "upi") "upi" t0 in
  let t2 := addIf (JS.includes desc "neft") "neft" t1 in
  let t3 := addIf (JS.includes desc "imps") "imps" t2 in
  let t4 := addIf (JS.includes desc "rtgs") "rtgs" t3 in
  let t5 := addIf (JS.includes desc "atm") "atm" t4 in
  let t6 := addIf (JS.includes desc "hdfc") "hdfc-bank" t5 in
  let t7 := addIf (JS.includes desc "icici") "icici-bank" t6 in
  let t8 := addIf (JS.includes desc "axis") "axis-bank" t7 in
  let t9 := addIf (JS.includes desc "sbi") "sbi-bank" t8 in
  let t10 := addIf (JS.includes desc "withdrawal") "withdrawal" t9 in
  let t11 := addIf (JS.includes desc "transfer") "transfer" t10 in
  let t12 := addIf (JS.includes desc "payment") "payment" t11 in
  amountTags amount t12.

Definition generateTags (description _merchant category_ : string)
    (amount : option Q) : list string :=
  filter (fun tag => 0 <? String.length tag)
         (collectTags description category_ amount).

Inductive RawType : Type := DR | CR.

Record ParsedTransaction : Type := {
  pt_date : string;
  pt_description : string;
  pt_amount : Q;
  pt_type : RawType
}.

Inductive TxType : Type := debit | credit.

Record Transaction : Type := {
  tx_id : string;
  tx_date : JSDate.Date;
  tx_amount : Q;
  tx_description : string;
  tx_type : TxType;
  tx_category : string;
  tx_subcategory : option string;
  tx_merchant : option string;
  tx_account : string;
  tx_paymentMethod : string;
  tx_isRecurring : bool;
  tx_tags : list string;
  tx_notes : option string;
  tx_isVerified : bool;
  tx_createdAt : JSDate.Date;
  tx_updatedAt : JSDate.Date
}.

Definition indexText (index : nat) : string :=
  NilZero.string_of_uint (Nat.to_uint index).

(** The callback of the [map] in [convertToTransactionInterface]; [now] is
    what [new Date()] reads in this call. *)
Definition convertOne (now : JSDate.Date) (accountNumber bankName : string)
    (tx : ParsedTransaction) (index : nat) : result Transaction :=
  let merchant := extractMerchant (pt_description tx) in
  let categorization :=
    categorizeTransaction (pt_description tx) merchant (pt_amount tx) in
  let dateKey :=
    replaceAll (re "/[-\/]/g" (Cls false (oneOf "-/"))) "" (pt_date tx) in
  let id := (JS.toLowerCase bankName ++ "_" ++ accountNumber ++ "_" ++
             dateKey ++ "_" ++ indexText index)%string in
  date <- parseDate (pt_date tx) ;;
  Ok {| tx_id := id;
        tx_date := date;
        tx_amount := pt_amount tx;
        tx_description := pt_description tx;
        tx_type := match pt_type tx with DR => debit | CR => credit end;
        tx_category := c_category categorization;
        tx_subcategory := c_subcategory categorization;
        tx_merchant := Some merchant;
        tx_account := accountNumber;
        tx_paymentMethod := c_paymentMethod categorization;
        tx_isRecurring := c_isRecurring categorization;
        tx_tags := generateTags (pt_description tx) merchant
                                (c_category categorization)
                                (Some (pt_amount tx));
        tx_notes := extractNotes (pt_description tx);
        tx_isVerified := false;
        tx_createdAt := now;
        tx_updatedAt := now |}.

(** [clock i] is the time that the callback reads for the element at
    index [i]. *)
Definition convertToTransactionInterface (clock : nat -> JSDate.Date)
    (parsedTransactions : list ParsedTransaction)
    (accountNumber bankName : string) : result (list Transaction) :=
  mapIdx (fun tx index => convertOne (clock index) accountNumber bankName
                                     tx index)
         0 parsedTransactions.

End Helpers.

(** ** The lenient sibling of the helpers (the second helpers file)

    It shares the record types of the strict file; its rule table, its
    categorisation with the personal-transfer heuristic and its tag
    generation differ. *)

Module Lenient.

Import Regex.
Import Helpers.

Definition DEFAULT_CATEGORY_RULES : list CategoryRule :=
  [ rule ["pvr"; "inox"; "cinema"; "movie"; "theatre"; "theater"]
          (Some ["pvr inox"; "pvr"; "inox"])
          "Entertainment" (Some "Movies") false;
    rule ["netflix"; "prime"; "spotify"; "youtube"; "hotstar"; "zee5"; "voot"]
          (Some ["netflix"])
          "Entertainment" (Some "Streaming Services") true;
    rule ["swiggy"; "zomato"; "uber eats"; "food delivery"; "instamart"]
          (Some ["swiggy"; "swiggy instamart"; "zomato"])
          "Food & Dining" (Some "Food Delivery") false;
    rule ["restaurant"; "cafe"; "dining"; "hotel"; "bar"; "rest"; "anbarasi";
           "lords"; "malabar"; "baawrchi"]
          (Some ["lords restaurant"; "anbarasi restaurant"; "d cafe";
                 "malabar restaurant"; "baawrchi"])
          "Food & Dining" (Some "Restaurant") false;
    rule ["supermarket"; "grocery"; "haven"; "lulu"; "hypermarket"]
          (Some ["the haven supermarket"; "lulu hypermarket"])
          "Shopping" (Some "Groceries") false;
    rule ["amazon"; "flipkart"; "myntra"; "ajio"; "shopping"; "mall"; "store";
           "looks"]
          (Some ["my looks"])
          "Shopping" (Some "Online Shopping") false;
    rule ["uber"; "ola"; "rapido"; "taxi"; "auto"; "metro"; "bus"; "train";
           "ixigo"]
          (Some ["ixigo"])
          "Transportation" (Some "Travel Booking") false;
    rule ["pest control"; "goodcare"; "skynet"]
          (Some ["good care pest control"; "skynet solutions"])
          "Home & Services" (Some "Pest Control") false;
    rule ["electricity"; "water"; "gas"; "internet"; "mobile"; "phone";
           "broadband"]
          None
          "Utilities" (Some "Bills") true;
    rule ["medical"; "hospital"; "pharmacy"; "doctor"; "clinic"; "health"]
          None
          "Healthcare" None false;
    rule ["petrol"; "diesel"; "fuel"; "hp"; "bharat petroleum"; "indian oil"]
          None
          "Transportation" (Some "Fuel") false;
    rule ["parking"; "parkingboo"]
          (Some ["parking booking"])
          "Transportation" (Some "Parking") false;
    rule ["atm"; "cash"; "withdrawal"]
          None
          "Cash & ATM" None false;
    rule ["loan"; "emi"; "credit card"; "personal loan"]
          None
          "Finance" (Some "Loans & EMI") true ].

(** The same text as in the strict file. *)
Definition determinePaymentMethod (description : string) : string :=
  let desc := JS.toLowerCase description in
  if JS.includes desc "bhqr" || JS.includes desc "qr" then "QR Code"
  else if JS.includes desc "gpay" then "Google Pay"
  else if JS.includes desc "paytm" then "Paytm"
  else if JS.includes desc "phonepe" then "PhonePe"
  else if JS.includes desc "upi" then "UPI"
  else if JS.includes desc "card" then "Card"
  else if JS.includes desc "neft" || JS.includes desc "rtgs"
       then "Bank Transfer"
  else if JS.includes desc "bil/" then "Bill Payment"
  else if JS.includes desc "imps" then "IMPS"
  else "UPI".

Definition businessKeywords : list string :=
  [ "pvt"; "ltd"; "co"; "inc"; "corp"; "bank"; "services"; "solutions";
    "restaurant"; "supermarket"; "store"; "cafe"; "mall"; "shop" ].

Definition isPersonalTransfer (description merchant : string) : bool :=
  let desc := JS.toLowerCase description in
  let merch := JS.toLowerCase merchant in
  if JS.includes desc "paytm-" || JS.includes desc "gpay-" ||
     JS.includes desc "phonepe"
  then true
  else
    let hasBusinessKeyword :=
      existsb (fun keyword => JS.includes merch keyword) businessKeywords in
    negb hasBusinessKeyword &&
    (String.length merch <? 25) &&
    negb (JS.includes merch "@") &&
    negb (JS.includes merch "www") &&
    negb (test (re "/\d{4,}/" (AtLeast 4 digit)) merch).

Definition matchesKeywords (r : CategoryRule) (combinedText : string) : bool :=
  existsb (fun keyword => JS.includes combinedText (JS.toLowerCase keyword))
          (keywords r).

Definition matchesMerchantKeywords (r : CategoryRule) (desc merch : string)
    : bool :=
  match merchantKeywords r with
  | Some ks =>
      existsb (fun keyword =>
                 JS.includes merch (JS.toLowerCase keyword) ||
                 JS.includes desc (JS.toLowerCase keyword)) ks
  | None => false
  end.

Definition ruleMatches (r : CategoryRule) (desc merch : string) (amount : Q)
    : bool :=
  (matchesKeywords r (desc ++ " " ++ merch)%string ||
   matchesMerchantKeywords r desc merch) &&
  matchesAmount r amount.

Fixpoint categorizeLoop (description merchant desc merch : string)
    (amount : Q) (rules : list CategoryRule) : Categorization :=
  match rules with
  | r :: rest =>
      if ruleMatches r desc merch amount then
        {| c_category := category r;
           c_subcategory := subcategory r;
           c_paymentMethod := determinePaymentMethod description;
           c_isRecurring := orFalse (isRecurring r) |}
      else categorizeLoop description merchant desc merch amount rest
  | [] =>
      if isPersonalTransfer description merchant then
        {| c_category := "Transfer";
           c_subcategory := Some "Personal";
           c_paymentMethod := determinePaymentMethod description;
           c_isRecurring := false |}
      else
        {| c_category := "Others";
           c_subcategory := None;
           c_paymentMethod := determinePaymentMethod description;
           c_isRecurring := false |}
  end.

Definition categorizeTransactionWith (description merchant : string)
    (amount : Q) (rules : list CategoryRule) : Categorization :=
  categorizeLoop description merchant (JS.toLowerCase description)
                 (JS.toLowerCase merchant) amount rules.

Definition categorizeTransaction (description merchant : string) (amount : Q)
    : Categorization :=
  categorizeTransactionWith description merchant amount DEFAULT_CATEGORY_RULES.

(** The tag made of the merchant's name. *)
Definition merchantTag (merchant : string) : string :=
  let a := replaceAll
    (re "/[^a-z0-9]/g" (Cls true [CRange "a" "z"; CRange "0" "9"])) "-"
    (JS.toLowerCase merchant) in
  let b := replaceAll (re "/-+/g" (Plus (Chr "-"))) "-" a in
  replaceAll (re "/^-|-$/g" (Alt (cat [Bol; lit "-"]) (cat [lit "-"; Eol])))
             "" b.

Definition serviceTags (desc merch : string) (tags : list string)
    : list string :=
  let t1 :=
    if test (rei "/swiggy/i" (lit "swiggy")) merch then
      addIf (test (rei "/instamart/i" (lit "instamart")) merch)
            "grocery-delivery" (setAdd "food-delivery" tags)
    else tags in
  let t2 :=
    if test (rei "/netflix|prime|spotify/i"
                 (Alt (lit "netflix") (Alt (lit "prime") (lit "spotify"))))
            merch
    then setAdd "monthly-bill" (setAdd "subscription" t1)
    else t1 in
  if test (rei "/emi|loan/i" (Alt (lit "emi") (lit "loan"))) desc
  then setAdd "loan-payment" (setAdd "recurring" t2)
  else t2.

Definition amountTags (amount : option Q) (tags : list string) : list string :=
  match amount with
  | Some a =>
      if JS.truthyNum a then
        addIf (JSNum.Qlt_bool a 100) "small-amount"
          (addIf (Qgt_bool a 10000) "high-amount" tags)
      else tags
  | None => tags
  end.

Definition merchantNameTag (merchant : string) (tags : list string)
    : list string :=
  if negb (String.eqb merchant "Unknown") && (2 <? String.length merchant)
  then
    let tag := merchantTag merchant in
    addIf (1 <? String.length tag) ("merchant-" ++ tag)%string tags
  else tags.

Definition collectTags (description merchant category_ : string)
    (amount : option Q) : list string :=
  let desc := JS.toLowerCase description in
  let merch := JS.toLowerCase merchant in
  let t0 := setAdd (categoryTag category_) [] in
  let t1 := addIf (JS.includes desc "bhqr") "qr-payment" t0 in
  let t2 := addIf (JS.includes desc "upi") "upi" t1 in
  let t3 := addIf (JS.includes desc "gpay") "google-pay" t2 in
  let t4 := addIf (JS.includes desc "paytm") "paytm" t3 in
  let t5 := addIf (JS.includes desc "neft") "neft" t4 in
  let t6 := addIf (JS.includes desc "imps") "imps" t5 in
  let t7 := addIf (JS.includes desc "rtgs") "rtgs" t6 in
  let t8 := addIf (JS.includes desc "hdfc") "hdfc-bank" t7 in
  let t9 := addIf (JS.includes desc "icici") "icici-bank" t8 in
  let t10 := addIf (JS.includes desc "axis") "axis-bank" t9 in
  let t11 := addIf (JS.includes desc "sbi" || JS.includes desc "state bank")
                   "sbi-bank" t10 in
  let t12 := addIf (JS.includes desc "yes bank") "yes-bank" t11 in
  let t13 := serviceTags desc merch t12 in
  let t14 := amountTags amount t13 in
  merchantNameTag merchant t14.

Definition generateTags (description merchant category_ : string)
    (amount : option Q) : list string :=
  filter (fun tag => 0 <? String.length tag)
         (collectTags description merchant category_ amount).

End Lenient.

(** ** The statement adapter (src/lib/parsers/icici.ts) *)

Module Icici.

Import Regex.
Import Helpers.
Local Open Scope Z_scope.

(** An item of a page's text content: its text and, from its transform,
    the horizontal ([transform[4]]) and vertical ([transform[5]]) position. *)
Record TextItem : Type := {
  str_ : string;
  x : Q;
  y : Q
}.

Definition Row : Type := list TextItem.

(** The comparator given to [items.sort]. *)
Definition compareItems (a b : TextItem) : Q :=
  let yDiff := Qabs (y a - y b) in
  if Qgt_bool yDiff 3 then (y b - y a)%Q else (x a - x b)%Q.

(** [Array.prototype.sort] as a stable insertion sort.  Where the
    comparator orders the items consistently every sorting algorithm
    returns this sequence; where it does not, ECMAScript leaves the order
    to the engine, and the sequence below is one of the possible ones: what
    is to hold of every engine is stated with [reconstructRowsWith]. *)
Fixpoint insertItem (a : TextItem) (sorted : list TextItem) : list TextItem :=
  match sorted with
  | [] => [a]
  | b :: rest =>
      if Qle_bool (compareItems a b) 0 then a :: b :: rest
      else b :: insertItem a rest
  end.

Definition sortItems (items : list TextItem) : list TextItem :=
  fold_right insertItem [] items.

(** [Math.round]: the nearest integer, halves upwards. *)
Definition round (q : Q) : Z := Qfloor (q + (1 # 2)).

Definition Y_TOLERANCE : Z := 5.

(** The sweep that groups the sorted items into rows: the loop's state is the
    rows closed so far, the row being filled and the last rounded y seen
    (-1 before the first item). *)
Fixpoint groupLoop (items : list TextItem) (rows : list Row)
    (currentRow : Row) (lastY : Z) : list Row :=
  match items with
  | [] =>
      match currentRow with
      | [] => rows
      | _ => rows ++ [currentRow]
      end
  | item :: rest =>
      let y_ := round (y item) in
      if (lastY =? -1) || (Z.abs (y_ - lastY) <=? Y_TOLERANCE) then
        groupLoop rest rows (currentRow ++ [item]) y_
      else
        groupLoop rest
                  (match currentRow with
                   | [] => rows
                   | _ => rows ++ [currentRow]
                   end)
                  [item] y_
  end.

Definition groupRows (sortedItems : list TextItem) : list Row :=
  groupLoop sortedItems [] [] (-1).

(** The row reconstruction of [extractTransactionsFromPage]. *)
Definition reconstructRows (items : list TextItem) : list Row :=
  groupRows (sortItems items).

(** The row reconstruction with the sort of the engine as a parameter:
    [sort compare items] is the sequence that [items.sort(compare)] leaves.
    The comparator above does not order every page consistently (heights
    100, 97 and 94 with x growing with the height form a cycle), and on
    such a page the sequence is the engine's choice. *)
Definition reconstructRowsWith
    (sort : (TextItem -> TextItem -> Q) -> list TextItem -> list TextItem)
    (items : list TextItem) : list Row :=
  groupRows (sort compareItems items).

Definition dateSep : regex := Cls false (oneOf "-/").

Definition datePattern : RegExp :=
  re "/^(\d{2}[-\/]\d{2}[-\/]\d{4})$/"
     (cat [Bol; Grp 1 (cat [Times 2 digit; dateSep; Times 2 digit; dateSep;
                            Times 4 digit]); Eol]).

Definition amountPattern : RegExp :=
  re "/^(\d{1,3}(?:,\d{3})*(?:\.\d{2})?)$|^(\d+\.?\d*)$/"
     (Alt (cat [Bol;
                Grp 1 (cat [Between 1 3 digit;
                            Star (cat [lit ","; Times 3 digit]);
                            Opt (cat [lit "."; Times 2 digit])]);
                Eol])
          (cat [Bol; Grp 2 (cat [Plus digit; Opt (Chr "."); Star digit]);
                Eol])).

Definition typePattern : RegExp :=
  re "/^(DR|CR)$/" (cat [Bol; Grp 1 (Alt (lit "DR") (lit "CR")); Eol]).

(** The transaction being assembled. *)
Record OpenTransaction : Type := {
  date : option string;
  descriptionParts : list string;
  amount : option Q;
  type_ : option RawType
}.

(** [text as "DR" | "CR"] for a text that the type pattern accepts. *)
Definition asType (text : string) : RawType :=
  if String.eqb text "DR" then DR else CR.

(** [parseFloat(text.replace(/,/g, ""))] *)
Definition parseAmount (text : string) : option Q :=
  JSNum.parseFloat (replaceAll (re "/,/g" (lit ",")) "" text).

(** [!amount]: not set, or zero. *)
Definition noAmount (a : option Q) : bool :=
  match a with
  | Some q => negb (JS.truthyNum q)
  | None => true
  end.

(** [!type] *)
Definition noType (t : option RawType) : bool :=
  match t with Some _ => false | None => true end.

(** The texts of a row that the segmenter sees. *)
Definition rowTexts (row : Row) : list string :=
  filter (fun s => (0 <? String.length s)%nat && negb (isSystemText s))
         (map (fun item => JS.trim (str_ item)) row).

(** [rowText.findIndex(text => datePattern.test(text))] *)
Fixpoint findDateIndex (i : nat) (texts : list string) : option nat :=
  match texts with
  | [] => None
  | t :: rest =>
      if test datePattern t then Some i else findDateIndex (S i) rest
  end.

(** The record that a finished transaction gives, if it is complete. *)
Definition finalize (cur : option OpenTransaction) : list ParsedTransaction :=
  match cur with
  | Some c =>
      match date c, amount c with
      | Some d, Some a =>
          if JS.truthyStr d && JS.truthyNum a then
            let description :=
              cleanDescription
                (JS.trim (replaceAll (re "/\s+/g" (Plus space)) " "
                                     (JS.join " " (descriptionParts c)))) in
            if (0 <? String.length description)%nat then
              [ {| pt_date := d;
                   pt_description := description;
                   pt_amount := a;
                   pt_type := match type_ c with Some t => t | None => DR end
                |} ]
            else []
          else []
      | _, _ => []
      end
  | None => []
  end.

(** One token of the row that holds the date. *)
Definition headerToken (c : OpenTransaction) (text : string)
    : OpenTransaction :=
  if test typePattern text then
    {| date := date c; descriptionParts := descriptionParts c;
       amount := amount c; type_ := Some (asType text) |}
  else if test amountPattern text && noAmount (amount c) then
    {| date := date c; descriptionParts := descriptionParts c;
       amount := parseAmount text; type_ := type_ c |}
  else if JS.truthyStr text && (1 <? String.length text)%nat then
    {| date := date c; descriptionParts := descriptionParts c ++ [text];
       amount := amount c; type_ := type_ c |}
  else c.

(** The loop over the row that holds the date; the date's own token is
    passed over. *)
Fixpoint headerLoop (dateIndex i : nat) (texts : list string)
    (c : OpenTransaction) : OpenTransaction :=
  match texts with
  | [] => c
  | text :: rest =>
      if (i =? dateIndex)%nat then headerLoop dateIndex (S i) rest c
      else headerLoop dateIndex (S i) rest (headerToken c text)
  end.

Definition startTransaction (dateIndex : nat) (texts : list string)
    : OpenTransaction :=
  headerLoop dateIndex 0 texts
    {| date := Some (nth dateIndex texts "");
       descriptionParts := []; amount := None; type_ := None |}.

(** One token of a continuation row. *)
Definition continuationToken (c : OpenTransaction) (text : string)
    : OpenTransaction :=
  if test typePattern text && noType (type_ c) then
    {| date := date c; descriptionParts := descriptionParts c;
       amount := amount c; type_ := Some (asType text) |}
  else if test amountPattern text && noAmount (amount c) then
    {| date := date c; descriptionParts := descriptionParts c;
       amount := parseAmount text; type_ := type_ c |}
  else if JS.truthyStr text && (1 <? String.length text)%nat &&
          negb (test typePattern text) && negb (test amountPattern text) then
    {| date := date c; descriptionParts := descriptionParts c ++ [text];
       amount := amount c; type_ := type_ c |}
  else c.

(** The state of the loop over the rows: the transactions pushed so far and
    the transaction being assembled. *)
Record Segmenter : Type := {
  transactions : list ParsedTransaction;
  currentTransaction : option OpenTransaction
}.

(** One turn of the loop over the rows, on the texts of a row. *)
Definition stepTexts (s : Segmenter) (texts : list string) : Segmenter :=
  match texts with
  | [] => s
  | _ =>
      match findDateIndex 0 texts with
      | Some dateIndex =>
          {| transactions :=
               transactions s ++ finalize (currentTransaction s);
             currentTransaction := Some (startTransaction dateIndex texts) |}
      | None =>
          match currentTransaction s with
          | Some c =>
              {| transactions := transactions s;
                 currentTransaction :=
                   Some (fold_left continuationToken texts c) |}
          | None => s
          end
      end
  end.

Definition stepRow (s : Segmenter) (row : Row) : Segmenter :=
  stepTexts s (rowTexts row).

(** The segmentation of the rows, with the last transaction flushed. *)
Definition segmentRows (rows : list Row) : list ParsedTransaction :=
  let s := fold_left stepRow rows
                     {| transactions := []; currentTransaction := None |} in
  transactions s ++ finalize (currentTransaction s).

Definition extractTransactionsFromPage (items : list TextItem)
    : list ParsedTransaction :=
  segmentRows (reconstructRows items).

(** What [parse] does with one page: segmentation, then conversion. *)
Definition parsePage (clock : nat -> JSDate.Date) (items : list TextItem)
    (accountNumber : string) : result (list Transaction) :=
  convertToTransactionInterface clock (extractTransactionsFromPage items)
                                accountNumber "ICICI".

End Icici.

(** ** The classification pipeline (src/lib/ml) *)

Module ML.

Import Regex.
Import Helpers.
Local Open Scope Q_scope.

(** *** base.ts *)

Inductive Source : Type := ml | rules | hybrid.

Record MLConfidence : Type := {
  score : Q;
  source_ : Source
}.

Record MLServiceConfig : Type := {
  useML : bool;
  confidenceThreshold : Q;
  fallbackToRules_ : bool
}.

Definition DEFAULT_ML_CONFIG : MLServiceConfig :=
  {| useML := true; confidenceThreshold := 7 # 10; fallbackToRules_ := true |}.

(** [Math.max(0, Math.min(1, score))] *)
Definition clamp01 (s : Q) : Q := Qmax 0 (Qmin 1 s).

Definition createMLConfidence (s : Q) (src : Source) : MLConfidence :=
  {| score := clamp01 s; source_ := src |}.

Definition shouldUseMlResult (confidence : MLConfidence) (threshold : Q)
    : bool :=
  Qge_bool (score confidence) threshold.

(** *** The results of the services *)

Inductive ExtractionMethod : Type := byPattern | byMl | byFallback.

(** What the merchant extractor returns. *)
Record MerchantResult : Type := {
  mr_merchant : string;
  mr_normalizedMerchant : string;
  mr_confidence : Q;
  mr_extractionMethod : ExtractionMethod
}.

Record Alternative : Type := {
  alt_category : string;
  alt_subcategory : option string;
  alt_confidence : Q
}.

(** What the classifier returns. *)
Record ClassifyResult : Type := {
  cr_category : string;
  cr_subcategory : option string;
  cr_confidence : Q;
  cr_alternatives : option (list Alternative)
}.

Record MLPreprocessedTransaction : Type := {
  originalDescription : string;
  cleanedDescription : string;
  tokens : list string;
  features : list (string * Q);
  pp_amount : Q;
  pp_type : TxType
}.

Record MLCategoryPrediction : Type := {
  cp_category : string;
  cp_subcategory : option string;
  cp_confidence : MLConfidence;
  cp_alternativeCategories : option (list Alternative)
}.

Record MLMerchantPrediction : Type := {
  mp_merchant : string;
  mp_normalizedMerchant : string;
  mp_confidence : MLConfidence;
  mp_extractionMethod : ExtractionMethod
}.

Record MLTransactionEnrichment : Type := {
  e_category : MLCategoryPrediction;
  e_merchant : MLMerchantPrediction;
  e_paymentMethod : string;
  e_isRecurring : bool;
  e_tags : list string;
  e_notes : option string;
  e_confidence : MLConfidence
}.

(** *** merchant-extractor.ts: the pattern path *)

Definition notSlashOrSpace : regex := Cls true [CChar "/"; CSpace].
Definition notSlashOrNewline : regex :=
  Cls true [CChar "/"; CChar (ascii_of_nat 10)].
Definition cleanupSuffix (name : string) : string :=
  JS.trim (replaceFirst
    (rei "/\s*(REST|H|CO|PVT|LTD|SOLUTIONS?|SOL|INDIA|IND)$/i"
         (cat [Star space;
               Grp 1 (Alt (lit "REST") (Alt (lit "H") (Alt (lit "CO")
                     (Alt (lit "PVT") (Alt (lit "LTD")
                     (Alt (cat [lit "SOLUTION"; Opt (Chr "S")])
                     (Alt (lit "SOL") (Alt (lit "INDIA") (lit "IND")))))))));
               Eol])) "" name).

Definition cleanupBill (name : string) : string :=
  JS.trim (replaceFirst
    (rei "/\s*(BILL|PAYMENT|PAY).*$/i"
         (cat [Star space;
               Grp 1 (Alt (lit "BILL") (Alt (lit "PAYMENT") (lit "PAY")));
               Star Dot; Eol])) "" name).

Definition enhancedPatterns : list MerchantPattern :=
  UPI_MERCHANT_PATTERNS ++
  [ {| regex_ := rei "/(?:UPI\/|BHQR\/|GPAY-|PAYTM-)([^\/\s]+)(?:[\/\s].*)?$/i"
         (cat [Alt (lit "UPI/") (Alt (lit "BHQR/")
                    (Alt (lit "GPAY-") (lit "PAYTM-")));
               Grp 1 (Plus notSlashOrSpace);
               Opt (cat [Cls false [CChar "/"; CSpace]; Star Dot]); Eol]);
       extractGroup := 1; cleanup := Some cleanupSuffix |};
    {| regex_ := rei "/CARD\s+PAYMENT\s+(?:TO\s+)?([^\/\n]+)(?:\/.*)?$/i"
         (cat [lit "CARD"; Plus space; lit "PAYMENT"; Plus space;
               Opt (cat [lit "TO"; Plus space]);
               Grp 1 (Plus notSlashOrNewline);
               Opt (cat [lit "/"; Star Dot]); Eol]);
       extractGroup := 1; cleanup := None |};
    {| regex_ := rei "/BIL\/([^\/]+)\/([^\/]+)/i"
         (cat [lit "BIL/"; Grp 1 (Plus notSlash); lit "/";
               Grp 2 (Plus notSlash)]);
       extractGroup := 2; cleanup := Some cleanupBill |};
    {| regex_ := rei
         "/(?:ONLINE\s+)?PAYMENT\s+(?:TO\s+)?([A-Za-z][^\/\n]+?)(?:\s+(?:VIA|THROUGH).*)?$/i"
         (cat [Opt (cat [lit "ONLINE"; Plus space]);
               lit "PAYMENT"; Plus space;
               Opt (cat [lit "TO"; Plus space]);
               Grp 1 (cat [Cls false [CRange "A" "Z"; CRange "a" "z"];
                           PlusLazy notSlashOrNewline]);
               Opt (cat [Plus space; Alt (lit "VIA") (lit "THROUGH");
                         Star Dot]);
               Eol]);
       extractGroup := 1; cleanup := None |};
    {| regex_ := rei
         "/(?:TRANSFER\s+)?TO\s+([^\/\n]+?)(?:\s+(?:A\/C|ACCOUNT).*)?$/i"
         (cat [Opt (cat [lit "TRANSFER"; Plus space]);
               lit "TO"; Plus space;
               Grp 1 (PlusLazy notSlashOrNewline);
               Opt (cat [Plus space; Alt (lit "A/C") (lit "ACCOUNT");
                         Star Dot]);
               Eol]);
       extractGroup := 1; cleanup := None |} ].

Record MerchantTypePattern : Type := {
  mt_type : string;
  mt_keywords : list string;
  mt_suffixes : list string;
  mt_confidence : Q
}.

Definition merchantTypePatterns : list MerchantTypePattern :=
  [ {| mt_type := "restaurant";
       mt_keywords := ["restaurant"; "cafe"; "hotel"; "dining"; "food";
                       "kitchen"; "canteen"];
       mt_suffixes := ["rest"; "hotel"; "cafe"; "kitchen"];
       mt_confidence := 8 # 10 |};
    {| mt_type := "retail";
       mt_keywords := ["store"; "shop"; "mart"; "market"; "supermarket";
                       "hypermarket"];
       mt_suffixes := ["store"; "mart"; "market"];
       mt_confidence := 75 # 100 |};
    {| mt_type := "service";
       mt_keywords := ["services"; "solutions"; "consulting"; "tech";
                       "software"];
       mt_suffixes := ["services"; "solutions"; "tech"; "sol"];
       mt_confidence := 7 # 10 |};
    {| mt_type := "entertainment";
       mt_keywords := ["cinema"; "movie"; "entertainment"; "games"; "sports"];
       mt_suffixes := ["cinema"; "movies"; "entertainment"];
       mt_confidence := 8 # 10 |};
    {| mt_type := "healthcare";
       mt_keywords := ["hospital"; "clinic"; "medical"; "pharmacy"; "health"];
       mt_suffixes := ["hospital"; "clinic"; "medical"; "pharmacy"];
       mt_confidence := 9 # 10 |} ].

(** The confidence of the first merchant type whose keywords or suffixes
    fit, [None] for no type. *)
Fixpoint identifyMerchantTypeIn (patterns : list MerchantTypePattern)
    (merchant : string) : option (string * Q) :=
  match patterns with
  | [] => None
  | p :: rest =>
      if existsb (fun keyword => JS.includes merchant keyword) (mt_keywords p)
      then Some (mt_type p, mt_confidence p)
      else if existsb (fun suffix => JS.endsWith merchant suffix)
                      (mt_suffixes p)
      then Some (mt_type p, mt_confidence p * (8 # 10))
      else identifyMerchantTypeIn rest merchant
  end.

Definition identifyMerchantType (merchant : string) : option (string * Q) :=
  identifyMerchantTypeIn merchantTypePatterns merchant.

Definition addWhen (c : bool) (d : Q) (x : Q) : Q := if c then x + d else x.

Definition calculatePatternConfidence (merchant : string) : Q :=
  let c0 := 7 # 10 in
  let c1 := addWhen (5 <? String.length merchant)%nat (1 # 10) c0 in
  let c2 := addWhen
    (test (re "/^[A-Z][a-z]/" (cat [Bol; Cls false [CRange "A" "Z"];
                                    Cls false [CRange "a" "z"]])) merchant)
    (5 # 100) c1 in
  let c3 := addWhen (JS.includes merchant " ") (1 # 10) c2 in
  let c4 := match identifyMerchantType (JS.toLowerCase merchant) with
            | Some (_, conf) => c3 + conf * (2 # 10)
            | None => c3
            end in
  let normalized := normalizeMerchantName merchant MERCHANT_NORMALIZATIONS in
  let c5 := addWhen (negb (String.eqb normalized merchant)) (15 # 100) c4 in
  Qmin 1 c5.

Definition unknownMerchant (conf : Q) (how : ExtractionMethod)
    : MerchantResult :=
  {| mr_merchant := "Unknown"; mr_normalizedMerchant := "Unknown";
     mr_confidence := conf; mr_extractionMethod := how |}.

Fixpoint extractWithPatternsFrom (description cleanDesc : string)
    (patterns : list MerchantPattern) : MerchantResult :=
  match patterns with
  | pat :: rest =>
      let next := extractWithPatternsFrom description cleanDesc rest in
      match exec (regex_ pat) cleanDesc with
      | Some m =>
          match group (extractGroup pat) m with
          | Some g =>
              if JS.truthyStr g then
                let merchant0 := JS.trim g in
                let merchant :=
                  match cleanup pat with
                  | Some f => if JS.truthyStr merchant0 then f merchant0
                              else merchant0
                  | None => merchant0
                  end in
                if JS.truthyStr merchant && (1 <? String.length merchant)%nat
                then
                  {| mr_merchant := merchant;
                     mr_normalizedMerchant :=
                       normalizeMerchantName merchant MERCHANT_NORMALIZATIONS;
                     mr_confidence := calculatePatternConfidence merchant;
                     mr_extractionMethod := byPattern |}
                else next
              else next
          | None => next
          end
      | None => next
      end
  | [] =>
      let rulesMerchant := extractMerchant description in
      if JS.truthyStr rulesMerchant &&
         negb (String.eqb rulesMerchant "Unknown")
      then
        {| mr_merchant := rulesMerchant;
           mr_normalizedMerchant :=
             normalizeMerchantName rulesMerchant MERCHANT_NORMALIZATIONS;
           mr_confidence := 6 # 10;
           mr_extractionMethod := byPattern |}
      else unknownMerchant (1 # 10) byFallback
  end.

Definition extractWithPatterns (description : string) : MerchantResult :=
  extractWithPatternsFrom description (JS.trim description) enhancedPatterns.

Definition extractWithFallback (_description : string) : MerchantResult :=
  unknownMerchant (1 # 10) byFallback.

Section Extractor.

(** The path of the extractor that asks the language-processing library
    for entities; the library is no part of the repository, and the path
    may throw. *)
Variable extractWithML : string -> option Q -> result MerchantResult.

(** [EnhancedMerchantExtractor.extractMerchant]; the extractor's own
    [isReady] is set by its constructor. *)
Definition extractMerchantEnhanced (description : string) (amount : option Q)
    : result MerchantResult :=
  tryCatch
    (let patternResult := extractWithPatterns description in
     if Qgt_bool (mr_confidence patternResult) (7 # 10) then Ok patternResult
     else
       mlResult <- extractWithML description amount ;;
       if Qgt_bool (mr_confidence mlResult) (6 # 10) then Ok mlResult
       else Ok (extractWithFallback description))
    (fun m => Throw ("[EnhancedMerchantExtractor:extractMerchant] " ++
                     "Failed to extract merchant: " ++ m)%string).

End Extractor.

(** *** pipeline.ts *)

(** The three services of the pipeline, as the pipeline sees them: whether
    each is ready, and its operation, which may throw. *)
Record Services : Type := {
  preprocessorReady : bool;
  preprocess : string -> Q -> TxType -> result MLPreprocessedTransaction;
  classifierReady : bool;
  classify : MLPreprocessedTransaction -> result ClassifyResult;
  merchantExtractorReady : bool;
  extractMerchantML : string -> option Q -> result MerchantResult
}.

(** [features.name] as a condition: absent and zero are falsy. *)
Definition feature (features_ : list (string * Q)) (name : string) : bool :=
  match find (fun p => String.eqb (fst p) name) features_ with
  | Some p => JS.truthyNum (snd p)
  | None => false
  end.

Definition inList (x : string) (l : list string) : bool :=
  existsb (String.eqb x) l.

Definition optionIs (o : option string) (v : string) : bool :=
  match o with Some x => String.eqb x v | None => false end.

Definition fallbackMerchantExtraction (description : string)
    : MLMerchantPrediction :=
  let merchant := extractMerchant description in
  let normalizedMerchant :=
    normalizeMerchantName merchant MERCHANT_NORMALIZATIONS in
  {| mp_merchant := merchant;
     mp_normalizedMerchant := normalizedMerchant;
     mp_confidence :=
       createMLConfidence
         (if String.eqb merchant "Unknown" then 3 # 10 else 6 # 10) rules;
     mp_extractionMethod :=
       if String.eqb merchant "Unknown" then byFallback else byPattern |}.

Definition fallbackClassification (description : string) (amount : Q)
    : MLCategoryPrediction :=
  let merchant := mp_merchant (fallbackMerchantExtraction description) in
  let result_ := categorizeTransaction description merchant amount in
  {| cp_category := c_category result_;
     cp_subcategory := c_subcategory result_;
     cp_confidence :=
       createMLConfidence
         (if String.eqb (c_category result_) "Others" then 4 # 10 else 7 # 10)
         rules;
     cp_alternativeCategories := None |}.

Definition determineRecurring (preprocessed : MLPreprocessedTransaction)
    (categoryResult : MLCategoryPrediction) : bool :=
  let f := features preprocessed in
  if feature f "has_entertainment_keywords" && feature f "is_round_amount"
  then true
  else if feature f "has_service_keywords" && feature f "is_medium_amount"
  then true
  else if inList (cp_category categoryResult) ["Utilities"; "Finance"]
  then true
  else if String.eqb (cp_category categoryResult) "Entertainment" &&
          optionIs (cp_subcategory categoryResult) "Streaming Services"
  then true
  else false.

Definition isTransactionRecurring (description category_ : string) : bool :=
  let recurringKeywords :=
    ["monthly"; "subscription"; "emi"; "loan"; "netflix"; "prime"] in
  let desc := JS.toLowerCase description in
  existsb (fun keyword => JS.includes desc keyword) recurringKeywords ||
  inList category_ ["Utilities"; "Finance"].

Definition generateEnhancedTags (description merchant category_ : string)
    (amount : Q) (paymentMethod : string) : list string :=
  let baseTags := generateTags description merchant category_ (Some amount) in
  let t0 := fold_left (fun s t => setAdd t s) baseTags [] in
  let t1 := setAdd "ml-enhanced" t0 in
  let t2 := addIf (String.eqb paymentMethod "UPI") "digital-payment" t1 in
  let t3 := addIf (String.eqb paymentMethod "Card") "card-payment" t2 in
  let t4 := addIf (Qgt_bool amount 10000) "high-value" t3 in
  let t5 := addIf (Qeq_bool (remQ amount 100) 0 && Qge_bool amount 1000)
                  "round-amount-large" t4 in
  addIf (negb (String.eqb merchant "Unknown") &&
         (2 <? String.length merchant)%nat)
        "merchant-identified" t5.

Definition calculateOverallConfidence
    (merchantConfidence categoryConfidence : MLConfidence) : MLConfidence :=
  let merchantWeight := 4 # 10 in
  let categoryWeight := 6 # 10 in
  let overallScore :=
    score merchantConfidence * merchantWeight +
    score categoryConfidence * categoryWeight in
  let src :=
    match source_ merchantConfidence, source_ categoryConfidence with
    | ml, ml => ml
    | rules, rules => rules
    | _, _ => hybrid
    end in
  createMLConfidence overallScore src.

(** The complete rule-based pass. *)
Definition fallbackToRules (description : string) (amount : Q) (_type : TxType)
    : MLTransactionEnrichment :=
  let merchantResult := fallbackMerchantExtraction description in
  let categoryResult := fallbackClassification description amount in
  let paymentMethod := determinePaymentMethod description in
  {| e_category := categoryResult;
     e_merchant := merchantResult;
     e_paymentMethod := paymentMethod;
     e_isRecurring :=
       isTransactionRecurring description (cp_category categoryResult);
     e_tags := generateTags description (mp_merchant merchantResult)
                            (cp_category categoryResult) (Some amount);
     e_notes := extractNotes description;
     e_confidence := createMLConfidence (6 # 10) rules |}.

Section Pipeline.

Variable config : MLServiceConfig.
Variable services : Services.

Definition isReady : bool :=
  preprocessorReady services && classifierReady services &&
  merchantExtractorReady services.

(** The [try] block of [extractMerchantWithFallback]: [Ok (Some p)] when it
    returns the prediction [p], [Ok None] when it falls through. *)
Definition merchantAttempt (description : string) (amount : Q)
    : result (option MLMerchantPrediction) :=
  if useML config && merchantExtractorReady services then
    r <- extractMerchantML services description (Some amount) ;;
    if shouldUseMlResult {| score := mr_confidence r; source_ := ml |}
                         (confidenceThreshold config)
    then Ok (Some {| mp_merchant := mr_merchant r;
                     mp_normalizedMerchant := mr_normalizedMerchant r;
                     mp_confidence := createMLConfidence (mr_confidence r) ml;
                     mp_extractionMethod := mr_extractionMethod r |})
    else Ok None
  else Ok None.

Definition extractMerchantWithFallback (description : string) (amount : Q)
    : MLMerchantPrediction :=
  match merchantAttempt description amount with
  | Ok (Some p) => p
  | Ok None | Throw _ =>
      if fallbackToRules_ config then fallbackMerchantExtraction description
      else {| mp_merchant := "Unknown";
              mp_normalizedMerchant := "Unknown";
              mp_confidence := createMLConfidence (1 # 10) rules;
              mp_extractionMethod := byFallback |}
  end.

(** The [try] block of [classifyWithFallback]. *)
Definition classifyAttempt (preprocessed : MLPreprocessedTransaction)
    : result (option MLCategoryPrediction) :=
  if useML config && classifierReady services then
    r <- classify services preprocessed ;;
    if shouldUseMlResult {| score := cr_confidence r; source_ := ml |}
                         (confidenceThreshold config)
    then Ok (Some {| cp_category := cr_category r;
                     cp_subcategory := cr_subcategory r;
                     cp_confidence := createMLConfidence (cr_confidence r) ml;
                     cp_alternativeCategories := cr_alternatives r |})
    else Ok None
  else Ok None.

Definition classifyWithFallback (preprocessed : MLPreprocessedTransaction)
    (description : string) (amount : Q) : MLCategoryPrediction :=
  match classifyAttempt preprocessed with
  | Ok (Some p) => p
  | Ok None | Throw _ =>
      if fallbackToRules_ config then fallbackClassification description amount
      else {| cp_category := "Others";
              cp_subcategory := None;
              cp_confidence := createMLConfidence (3 # 10) rules;
              cp_alternativeCategories := None |}
  end.

(** The [try] block of [enrichTransaction]. *)
Definition enrichBody (description : string) (amount : Q) (type_ : TxType)
    : result MLTransactionEnrichment :=
  if negb isReady then Ok (fallbackToRules description amount type_)
  else
    preprocessed <- preprocess services description amount type_ ;;
    let mlMerchantResult := extractMerchantWithFallback description amount in
    let mlCategoryResult :=
      classifyWithFallback preprocessed description amount in
    let paymentMethod := determinePaymentMethod description in
    Ok {| e_category := mlCategoryResult;
          e_merchant := mlMerchantResult;
          e_paymentMethod := paymentMethod;
          e_isRecurring := determineRecurring preprocessed mlCategoryResult;
          e_tags := generateEnhancedTags description
                      (mp_merchant mlMerchantResult)
                      (cp_category mlCategoryResult) amount paymentMethod;
          e_notes := extractNotes description;
          e_confidence :=
            calculateOverallConfidence (mp_confidence mlMerchantResult)
                                       (cp_confidence mlCategoryResult) |}.

Definition enrichTransaction (description : string) (amount : Q)
    (type_ : TxType) : result MLTransactionEnrichment :=
  tryCatch (enrichBody description amount type_)
           (fun _ => Ok (fallbackToRules description amount type_)).

End Pipeline.

End ML.

(** ** The whole document (src/lib/parsers/icici.ts, parse and canParse) *)

Module Adapter.

Import Regex.
Import Helpers.
Local Open Scope Q_scope.

(** What the PDF library gives for a file: the text items of each page, or
    the error that loading threw. *)
Definition Document : Type := result (list (list Icici.TextItem)).

Record PdfParseResult : Type := {
  bank : string;
  transactions_ : list Transaction;
  warnings : list string
}.

(** One call of [emitProgress]. *)
Record Progress : Type := {
  fraction : Q;
  message : string
}.

(** [textContent.items.map(item => item.str).join(" ")] *)
Definition pageText (items : list Icici.TextItem) : string :=
  JS.join " " (map Icici.str_ items).

(** The account number that the first page declares, else the one so far. *)
Definition accountNumberOf (text current : string) : string :=
  match exec (rei "/Account Number:\s*(\d+)/i"
                  (cat [lit "Account Number:"; Star space;
                        Grp 1 (Plus digit)])) text with
  | Some m =>
      match group 1 m with
      | Some g => if JS.truthyStr g then g else ""
      | None => ""
      end
  | None => current
  end.

(** The fraction reported when page [pageNum] of [numPages] starts. *)
Definition pageFraction (pageNum numPages : nat) : Q :=
  (2 # 10) + (inject_Z (Z.of_nat pageNum) / inject_Z (Z.of_nat numPages))
             * (7 # 10).

(** The state of the loop over the pages: what was emitted, the
    transactions so far and the account number. *)
Record Pages : Type := {
  emitted : list Progress;
  collected : list Transaction;
  accountNumber : string
}.

(** The loop over the pages; [clock pageNum index] is the time read for the
    transaction at [index] of page [pageNum].  A page whose conversion
    throws ends the loop: the emitted progress stays, the exception goes
    on. *)
Fixpoint pagesLoop (clock : nat -> nat -> JSDate.Date) (numPages pageNum : nat)
    (pages : list (list Icici.TextItem)) (s : Pages)
    : list Progress * result Pages :=
  match pages with
  | [] => (emitted s, Ok s)
  | items :: rest =>
      let emitted' :=
        emitted s ++
        [ {| fraction := pageFraction pageNum numPages;
             message := ("Processing page " ++ indexText pageNum)%string |} ] in
      let account :=
        if (pageNum =? 1)%nat
        then accountNumberOf (pageText items) (accountNumber s)
        else accountNumber s in
      match convertToTransactionInterface (clock pageNum)
              (Icici.extractTransactionsFromPage items) account "ICICI" with
      | Ok converted =>
          pagesLoop clock numPages (S pageNum) rest
            {| emitted := emitted';
               collected := collected s ++ converted;
               accountNumber := account |}
      | Throw m => (emitted', Throw m)
      end
  end.

Definition failedToParse (m : string) : string :=
  ("Failed to parse ICICI PDF: " ++ m)%string.

(** [parse]: the progress it emits and what it returns or throws. *)
Definition parse (clock : nat -> nat -> JSDate.Date) (pdf : Document)
    : list Progress * result PdfParseResult :=
  let start := [ {| fraction := 1 # 10; message := "Loading PDF document" |} ] in
  match pdf with
  | Throw m => (start, Throw (failedToParse m))
  | Ok pages =>
      let numPages := List.length pages in
      let loaded :=
        start ++
        [ {| fraction := 2 # 10;
             message := ("Loaded PDF with " ++ indexText numPages ++
                         " pages")%string |} ] in
      match pagesLoop clock numPages 1 pages
              {| emitted := loaded; collected := []; accountNumber := "" |} with
      | (progress, Ok s) =>
          (progress ++ [ {| fraction := 1; message := "Parsing complete" |} ],
           Ok {| bank := "ICICI";
                 transactions_ := collected s;
                 warnings := [] |})
      | (progress, Throw m) => (progress, Throw (failedToParse m))
      end
  end.

(** [canParse]: the file name first, then the text of the first page. *)
Definition canParse (pdf : Document) (fileName : string) : bool :=
  if JS.includes (JS.toLowerCase fileName) "icici" then true
  else
    match pdf with
    | Throw _ => false
    | Ok [] => false
    | Ok (items :: _) =>
        let text := JS.toLowerCase (pageText items) in
        JS.includes text "icici bank" ||
        JS.includes text "icici" ||
        JS.includes text "industrial credit and investment corporation"
    end.

End Adapter.

(** ** The worker (the pdf-worker file) *)

Module Worker.

Local Open Scope Z_scope.

(** A message that the worker posts. *)
Inductive Outbound : Type :=
| progress (progressPercent : Q) (message : option string)
| complete (result_ : Adapter.PdfParseResult)
| error (message : string).

(** [Math.min(10 + Math.floor(p * 0.9), 99)]: what the worker reports for the
    progress [p] that the parser emits. *)
Definition scaled (p : Q) : Z :=
  Z.min (10 + Qfloor (p * (9 # 10))%Q) 99.

(** [handleParse] with the one parser of the registry; a document that
    [canParse] refuses has no parser. *)
Definition handleParse (clock : nat -> nat -> JSDate.Date)
    (pdf : Adapter.Document) (fileName : string) : list Outbound :=
  let opening :=
    [ progress 2 (Some "Loading parsers");
      progress 5 (Some "Selecting parser") ] in
  if Adapter.canParse pdf fileName then
    let (emitted, outcome) := Adapter.parse clock pdf in
    let during :=
      map (fun e => progress (inject_Z (scaled (Adapter.fraction e)))
                             (Some (Adapter.message e))) emitted in
    opening ++ [ progress 10 (Some "Parsing with ICICI") ] ++ during ++
    match outcome with
    | Ok r => [ progress 100 (Some "Done"); complete r ]
    | Throw m => [ error m ]
    end
  else
    opening ++
    [ progress 100 None; error "No suitable parser found for this PDF." ].

End Worker.

(** ** The classifier (the classifier file of src/lib/ml) *)

Module Classifier.

Import Helpers.
Import ML.
Local Open Scope Q_scope.

Definition featureWeights : list (string * Q) :=
  [ ("amount_log", 1 # 10);
    ("is_small_amount", 5 # 100);
    ("is_medium_amount", 3 # 100);
    ("is_large_amount", 8 # 100);
    ("is_round_amount", 2 # 100);
    ("has_upi", 15 # 100);
    ("has_card", 12 # 100);
    ("has_neft", 10 # 100);
    ("has_imps", 8 # 100);
    ("has_restaurant_keywords", 25 # 100);
    ("has_shopping_keywords", 22 # 100);
    ("has_service_keywords", 18 # 100);
    ("has_entertainment_keywords", 20 # 100);
    ("has_merchant_indicators", 15 # 100);
    ("has_person_name_pattern", 12 # 100);
    ("token_count", 5 # 100);
    ("text_length", 3 # 100) ].

Record CategoryPattern : Type := {
  requiredFeatures : list string;
  bonusFeatures : list string;
  penaltyFeatures : list string;
  amountRange : option (option Q * option Q);
  keywords_ : list string;
  baseScore : Q
}.

Definition pat (bonus penalty kw : list string) (base : Q) : CategoryPattern :=
  {| requiredFeatures := []; bonusFeatures := bonus;
     penaltyFeatures := penalty; amountRange := None;
     keywords_ := kw; baseScore := base |}.

Definition categoryPatterns : list (string * CategoryPattern) :=
  [ ("Food & Dining",
     pat ["has_restaurant_keywords"; "has_upi"; "is_small_amount"]
         ["is_large_amount"; "has_neft"]
         ["swiggy"; "zomato"; "restaurant"; "cafe"; "food"; "dining"; "hotel"]
         (6 # 10));
    ("Entertainment",
     pat ["has_entertainment_keywords"; "is_round_amount"]
         ["has_person_name_pattern"]
         ["netflix"; "prime"; "movie"; "cinema"; "pvr"; "inox"; "spotify"]
         (7 # 10));
    ("Shopping",
     pat ["has_shopping_keywords"; "has_upi"]
         ["has_person_name_pattern"]
         ["amazon"; "flipkart"; "myntra"; "shopping"; "store"; "mall"]
         (65 # 100));
    ("Transportation",
     pat ["has_upi"; "is_small_amount"]
         ["is_large_amount"]
         ["uber"; "ola"; "taxi"; "auto"; "bus"; "train"; "metro"; "parking"]
         (6 # 10));
    ("Transfer",
     pat ["has_person_name_pattern"; "has_neft"; "has_imps"]
         ["has_merchant_indicators"; "has_shopping_keywords"]
         ["transfer"; "paytm-"; "gpay-"; "phonepe"]
         (5 # 10));
    ("Utilities",
     pat ["is_round_amount"; "is_medium_amount"]
         ["is_small_amount"; "has_person_name_pattern"]
         ["electricity"; "water"; "gas"; "internet"; "mobile"; "phone"]
         (7 # 10));
    ("Healthcare",
     pat ["is_large_amount"]
         ["is_small_amount"]
         ["medical"; "hospital"; "pharmacy"; "doctor"; "clinic"; "health"]
         (6 # 10));
    ("Home & Services",
     pat ["has_service_keywords"]
         ["is_small_amount"]
         ["pest"; "control"; "repair"; "cleaning"; "maintenance"]
         (65 # 100)) ].

(** [record[key]] *)
Definition lookupQ (table : list (string * Q)) (key : string) : option Q :=
  match find (fun p => String.eqb (fst p) key) table with
  | Some p => Some (snd p)
  | None => None
  end.

(** [features[feature] && features[feature] > 0] *)
Definition featureSet (features_ : list (string * Q)) (name : string) : bool :=
  match lookupQ features_ name with
  | Some v => JS.truthyNum v && Qgt_bool v 0
  | None => false
  end.

(** [this.featureWeights[feature] || 0.1] *)
Definition weightOf (name : string) : Q :=
  match lookupQ featureWeights name with
  | Some w => if JS.truthyNum w then w else 1 # 10
  | None => 1 # 10
  end.

(** The text that keywords and rules are searched in. *)
Definition matchingText (t : MLPreprocessedTransaction) : string :=
  JS.toLowerCase (cleanedDescription t ++ " " ++ JS.join " " (tokens t))%string.

Fixpoint findMatchingRuleIn (rules : list CategoryRule) (combinedText : string)
    (amount : Q) : option (string * option string) :=
  match rules with
  | [] => None
  | r :: rest =>
      let matchesKeywords :=
        existsb (fun keyword =>
                   JS.includes combinedText (JS.toLowerCase keyword))
                (keywords r) in
      let matchesMerchantKeywords :=
        match merchantKeywords r with
        | Some ks =>
            existsb (fun keyword =>
                       JS.includes combinedText (JS.toLowerCase keyword)) ks
        | None => false
        end in
      if (matchesKeywords || matchesMerchantKeywords) &&
         matchesAmount r amount
      then Some (category r, subcategory r)
      else findMatchingRuleIn rest combinedText amount
  end.

Definition findMatchingRule (t : MLPreprocessedTransaction)
    : option (string * option string) :=
  findMatchingRuleIn DEFAULT_CATEGORY_RULES (matchingText t) (pp_amount t).

(** The score after the bonus features. *)
Definition addBonuses (features_ : list (string * Q)) (names : list string)
    (score0 : Q) : Q :=
  fold_left (fun s f => if featureSet features_ f then s + weightOf f else s)
            names score0.

(** The score after the penalty features. *)
Definition subPenalties (features_ : list (string * Q)) (names : list string)
    (score0 : Q) : Q :=
  fold_left (fun s f => if featureSet features_ f then s - weightOf f else s)
            names score0.

(** [(min && amount < min) || (max && amount > max)] *)
Definition outOfRange (range : option Q * option Q) (amount : Q) : bool :=
  (match fst range with
   | Some mn => JS.truthyNum mn && JSNum.Qlt_bool amount mn
   | None => false
   end) ||
  (match snd range with
   | Some mx => JS.truthyNum mx && Qgt_bool amount mx
   | None => false
   end).

Record Scored : Type := {
  sc_category : string;
  sc_confidence : Q;
  sc_subcategory : option string
}.

(** The score of one category before it is kept or dropped. *)
Definition scoreOf (t : MLPreprocessedTransaction) (categoryName : string)
    (p : CategoryPattern) : Scored :=
  let text := matchingText t in
  let keywordMatches :=
    List.length (filter (fun keyword =>
                      JS.includes text (JS.toLowerCase keyword))
                   (keywords_ p)) in
  let s1 := if (0 <? keywordMatches)%nat
            then baseScore p + inject_Z (Z.of_nat keywordMatches) * (3 # 10)
            else baseScore p in
  let s2 := addBonuses (features t) (bonusFeatures p) s1 in
  let s3 := subPenalties (features t) (penaltyFeatures p) s2 in
  let s4 := match amountRange p with
            | Some range =>
                if outOfRange range (pp_amount t) then s3 * (5 # 10)
                else s3 + (1 # 10)
            | None => s3
            end in
  let agrees :=
    match findMatchingRule t with
    | Some (c, _) => String.eqb c categoryName
    | None => false
    end in
  {| sc_category := categoryName;
     sc_confidence := clamp01 (if agrees then s4 + (2 # 10) else s4);
     sc_subcategory :=
       if agrees
       then match findMatchingRule t with
            | Some (_, sub) => sub
            | None => None
            end
       else None |}.

(** [scoreCategories]: the categories whose score is above 0.2, in the order
    of the pattern table. *)
Definition scoreCategories (t : MLPreprocessedTransaction) : list Scored :=
  filter (fun s => Qgt_bool (sc_confidence s) (2 # 10))
         (map (fun e => scoreOf t (fst e) (snd e)) categoryPatterns).

(** The sort by descending confidence; the comparator is a consistent
    ordering and the sort of the language is stable, so an insertion sort
    gives its result. *)
Fixpoint insertScored (a : Scored) (sorted : list Scored) : list Scored :=
  match sorted with
  | [] => [a]
  | b :: rest =>
      if Qle_bool (sc_confidence b - sc_confidence a) 0 then a :: b :: rest
      else b :: insertScored a rest
  end.

Definition sortScored (l : list Scored) : list Scored :=
  fold_right insertScored [] l.

(** [classify]: the classifier is ready once constructed, and nothing in its
    body throws. *)
Definition classify (t : MLPreprocessedTransaction) : ClassifyResult :=
  match sortScored (scoreCategories t) with
  | [] =>
      {| cr_category := "Others"; cr_subcategory := None;
         cr_confidence := 3 # 10; cr_alternatives := None |}
  | top :: others =>
      let alternatives :=
        filter (fun a => Qgt_bool (alt_confidence a) (3 # 10))
               (map (fun s => {| alt_category := sc_category s;
                                 alt_subcategory := sc_subcategory s;
                                 alt_confidence := sc_confidence s |})
                    (firstn 3 others)) in
      {| cr_category := sc_category top;
         cr_subcategory := sc_subcategory top;
         cr_confidence := sc_confidence top;
         cr_alternatives :=
           match alternatives with
           | [] => None
           | _ => Some alternatives
           end |}
  end.

End Classifier.

(** ** The preprocessor's features (src/lib/ml/preprocessor.ts) *)

Module Preprocessor.

Local Open Scope Q_scope.

Definition merchantIndicators : list string :=
  [ "pvt"; "ltd"; "co"; "inc"; "corp"; "restaurant"; "cafe"; "supermarket";
    "store"; "mall"; "shop"; "services"; "solutions"; "hotel"; "booking" ].

Definition hasKeywords (tokens_ : list string) (keywords_ : list string)
    : bool :=
  let tokenText := JS.toLowerCase (JS.join " " tokens_) in
  existsb (fun keyword => JS.includes tokenText keyword) keywords_.

Definition looksLikePersonName (tokens_ : list string) : bool :=
  if (List.length tokens_ =? 0)%nat || (3 <? List.length tokens_)%nat
  then false
  else
    let hasBusinessKeywords := hasKeywords tokens_ merchantIndicators in
    let hasLongNumbers :=
      existsb (fun token =>
                 Regex.test (Regex.re "/\d{4,}/"
                                      (Regex.AtLeast 4 Regex.digit)) token)
              tokens_ in
    negb hasBusinessKeywords && negb hasLongNumbers.

Definition flag (b : bool) : Q := if b then 1 else 0.

Definition tokenHas (tokens_ : list string) (word : string) : bool :=
  existsb (fun token => JS.includes (JS.toLowerCase token) word) tokens_.

Definition ofNat (n : nat) : Q := inject_Z (Z.of_nat n).

Section Features.

(** [Math.log10], which the rationals do not have. *)
Variable log10 : Q -> Q.

(** [extractFeatures]: the features, in the order in which they are set. *)
Definition extractFeatures (tokens_ : list string) (amount : Q)
    : list (string * Q) :=
  let combinedText := JS.join " " tokens_ in
  [ ("token_count", ofNat (List.length tokens_));
    ("amount", amount);
    ("amount_log", log10 (amount + 1));
    ("is_small_amount", flag (JSNum.Qlt_bool amount 100));
    ("is_medium_amount", flag (Qge_bool amount 100 && Qle_bool amount 5000));
    ("is_large_amount", flag (Qgt_bool amount 5000));
    ("is_round_amount", flag (Qeq_bool (remQ amount 100) 0));
    ("has_upi", flag (tokenHas tokens_ "upi"));
    ("has_card", flag (tokenHas tokens_ "card"));
    ("has_neft", flag (tokenHas tokens_ "neft"));
    ("has_imps", flag (tokenHas tokens_ "imps"));
    ("has_rtgs", flag (tokenHas tokens_ "rtgs"));
    ("has_restaurant_keywords",
     flag (hasKeywords tokens_ ["restaurant"; "cafe"; "hotel"; "dining"]));
    ("has_shopping_keywords",
     flag (hasKeywords tokens_
             ["store"; "mall"; "shopping"; "amazon"; "flipkart"]));
    ("has_service_keywords",
     flag (hasKeywords tokens_ ["services"; "solutions"; "booking"]));
    ("has_entertainment_keywords",
     flag (hasKeywords tokens_ ["netflix"; "movie"; "cinema"; "pvr"]));
    ("has_merchant_indicators", flag (hasKeywords tokens_ merchantIndicators));
    ("has_person_name_pattern", flag (looksLikePersonName tokens_));
    ("text_length", ofNat (String.length combinedText));
    ("avg_token_length",
     if (0 <? List.length tokens_)%nat
     then ofNat (String.length combinedText) / ofNat (List.length tokens_)
     else 0);
    ("has_numbers",
     flag (Regex.test (Regex.re "/\d/" Regex.digit) combinedText));
    ("has_special_chars",
     flag (Regex.test (Regex.re "/[\/\-_]/"
                                (Regex.Cls false (Regex.oneOf "/-_")))
                      combinedText)) ].

End Features.

End Preprocessor.

(** ** The conversion through the pipeline (src/lib/parsers/helpers.ts) *)

Module HelpersML.

Import Helpers.
Import ML.

(** The callback of the [map] in [convertToTransactionInterfaceML]: the
    [try] block builds the transaction from the enrichment, the [catch]
    block from the rules, with one more tag. *)
Definition convertOneML (services : Services) (now : JSDate.Date)
    (accountNumber bankName : string) (tx : ParsedTransaction) (index : nat)
    : result Transaction :=
  let dateKey :=
    Regex.replaceAll (Regex.re "/[-\/]/g"
                               (Regex.Cls false (Regex.oneOf "-/")))
                     "" (pt_date tx) in
  let id := (JS.toLowerCase bankName ++ "_" ++ accountNumber ++ "_" ++
             dateKey ++ "_" ++ indexText index)%string in
  let type_ := match pt_type tx with DR => debit | CR => credit end in
  tryCatch
    (mlEnrichment <- enrichTransaction DEFAULT_ML_CONFIG services
                       (pt_description tx) (pt_amount tx) type_ ;;
     date <- parseDate (pt_date tx) ;;
     Ok {| tx_id := id;
           tx_date := date;
           tx_amount := pt_amount tx;
           tx_description := pt_description tx;
           tx_type := type_;
           tx_category := cp_category (e_category mlEnrichment);
           tx_subcategory := cp_subcategory (e_category mlEnrichment);
           tx_merchant :=
             Some (mp_normalizedMerchant (e_merchant mlEnrichment));
           tx_account := accountNumber;
           tx_paymentMethod := e_paymentMethod mlEnrichment;
           tx_isRecurring := e_isRecurring mlEnrichment;
           tx_tags := e_tags mlEnrichment;
           tx_notes := e_notes mlEnrichment;
           tx_isVerified := false;
           tx_createdAt := now;
           tx_updatedAt := now |})
    (fun _ =>
       let merchant := extractMerchant (pt_description tx) in
       let categorization :=
         categorizeTransaction (pt_description tx) merchant (pt_amount tx) in
       date <- parseDate (pt_date tx) ;;
       Ok {| tx_id := id;
             tx_date := date;
             tx_amount := pt_amount tx;
             tx_description := pt_description tx;
             tx_type := type_;
             tx_category := c_category categorization;
             tx_subcategory := c_subcategory categorization;
             tx_merchant := Some merchant;
             tx_account := accountNumber;
             tx_paymentMethod := c_paymentMethod categorization;
             tx_isRecurring := c_isRecurring categorization;
             tx_tags :=
               generateTags (pt_description tx) merchant
                            (c_category categorization)
                            (Some (pt_amount tx)) ++ ["fallback-processing"];
             tx_notes := extractNotes (pt_description tx);
             tx_isVerified := false;
             tx_createdAt := now;
             tx_updatedAt := now |}).

(** [Promise.all] over the callbacks: the first rejection rejects the whole. *)
Definition convertToTransactionInterfaceML (services : Services)
    (clock : nat -> JSDate.Date)
    (parsedTransactions : list ParsedTransaction)
    (accountNumber bankName : string) : result (list Transaction) :=
  mapIdx (fun tx index => convertOneML services (clock index) accountNumber
                                       bankName tx index)
         0 parsedTransactions.

End HelpersML.

(** * Properties *)

(** ** The matcher never runs out of fuel *)

Section MatcherFuel.

Import Regex.

(** Two continuations agree on the states from [st] on. *)
Definition agreeFrom (st : mstate) (k k' : mstate -> option mstate) : Prop :=
  forall st', (List.length (ms_rest st') <= List.length (ms_rest st))%nat ->
              k st' = k' st'.

(** A matcher that calls its continuation only at states further on. *)
Definition forward
    (body : (mstate -> option mstate) -> mstate -> option mstate) : Prop :=
  forall k k' st, agreeFrom st k k' -> body k st = body k' st.

Lemma agreeFrom_later (st st' : mstate) (k k' : mstate -> option mstate) :
  (List.length (ms_rest st') <= List.length (ms_rest st))%nat ->
  agreeFrom st k k' -> agreeFrom st' k k'.
Proof.
  intros Hle H st'' Hle'. apply H. lia.
Qed.

Lemma repLoop_forward
    (body : (mstate -> option mstate) -> mstate -> option mstate)
    (greedy : bool) (lo : nat) (hi : option nat) :
  forward body ->
  forall fuel cnt, forward (fun k => repLoop body greedy lo hi k fuel cnt).
Proof.
  intros Hbody. induction fuel as [|fuel IH]; intros cnt k k' st Hk.
  - reflexivity.
  - cbn [repLoop]. cbv zeta.
    assert (body (fun st' =>
                    if (lo <=? cnt)%nat &&
                       (List.length (ms_rest st') =? List.length (ms_rest st))%nat
                    then None
                    else repLoop body greedy lo hi k fuel (S cnt) st') st
            = body (fun st' =>
                    if (lo <=? cnt)%nat &&
                       (List.length (ms_rest st') =? List.length (ms_rest st))%nat
                    then None
                    else repLoop body greedy lo hi k' fuel (S cnt) st') st)
      as E.
    { apply Hbody. intros st' Hle.
      destruct ((lo <=? cnt)%nat &&
                (List.length (ms_rest st') =? List.length (ms_rest st))%nat);
        [reflexivity|].
      apply (IH (S cnt)). eapply agreeFrom_later; eassumption. }
    unfold orElse. rewrite E, (Hk st (le_n _)). reflexivity.
Qed.

Lemma step1_forward (ok : ascii -> bool) : forward (step1 ok).
Proof.
  intros k k' st Hk. unfold step1.
  destruct (ms_rest st) as [|c t] eqn:E; [reflexivity|].
  destruct (ok c); [|reflexivity].
  apply Hk. simpl. rewrite E. simpl. lia.
Qed.

Lemma run_forward (icase : bool) (r : regex) : forward (run icase r).
Proof.
  induction r as [| c | | neg items | r1 IH1 r2 IH2 | r1 IH1 r2 IH2
                 | greedy lo hi r1 IH | n r1 IH | | | ];
    intros k k' st Hk; cbn [run].
  - apply Hk, le_n.
  - apply step1_forward, Hk.
  - apply step1_forward, Hk.
  - apply step1_forward, Hk.
  - apply IH1. intros st' Hle. apply IH2.
    eapply agreeFrom_later; eassumption.
  - unfold orElse. rewrite (IH1 k k' st Hk), (IH2 k k' st Hk). reflexivity.
  - apply (repLoop_forward _ greedy lo hi IH). exact Hk.
  - apply IH. intros st' Hle. apply Hk. exact Hle.
  - destruct (ms_prev st); [reflexivity | apply Hk, le_n].
  - destruct (ms_rest st); [apply Hk, le_n | reflexivity].
  - destruct (xorb (wordBefore st) (wordAfter st));
      [apply Hk, le_n | reflexivity].
Qed.

Lemma repLoop_fuel
    (body : (mstate -> option mstate) -> mstate -> option mstate)
    (greedy : bool) (lo : nat) (hi : option nat)
    (k : mstate -> option mstate) :
  forward body ->
  forall fuel fuel' cnt st,
    (repFuel lo cnt st <= fuel)%nat -> (repFuel lo cnt st <= fuel')%nat ->
    repLoop body greedy lo hi k fuel cnt st
    = repLoop body greedy lo hi k fuel' cnt st.
Proof.
  intros Hbody. induction fuel as [|fuel IH]; intros fuel' cnt st H1 H2.
  - unfold repFuel in H1. lia.
  - destruct fuel' as [|fuel']; [unfold repFuel in H2; lia|].
    cbn [repLoop]. cbv zeta.
    assert (body (fun st' =>
                    if (lo <=? cnt)%nat &&
                       (List.length (ms_rest st') =? List.length (ms_rest st))%nat
                    then None
                    else repLoop body greedy lo hi k fuel (S cnt) st') st
            = body (fun st' =>
                    if (lo <=? cnt)%nat &&
                       (List.length (ms_rest st') =? List.length (ms_rest st))%nat
                    then None
                    else repLoop body greedy lo hi k fuel' (S cnt) st') st)
      as E.
    { apply Hbody. intros st' Hle.
      destruct ((lo <=? cnt)%nat &&
                (List.length (ms_rest st') =? List.length (ms_rest st))%nat)
        eqn:Ec; [reflexivity|].
      apply IH; unfold repFuel in *.
      all: apply andb_false_iff in Ec;
        destruct Ec as [Ec|Ec];
        [ apply Nat.leb_gt in Ec | apply Nat.eqb_neq in Ec ]; lia. }
    unfold orElse. rewrite E. reflexivity.
Qed.

(** The fuel that [run] gives a quantifier is enough: more changes nothing. *)
Lemma run_Rep_fuel (icase greedy : bool) (lo : nat) (hi : option nat)
    (r : regex) (k : mstate -> option mstate) (st : mstate) (extra : nat) :
  run icase (Rep greedy lo hi r) k st
  = repLoop (run icase r) greedy lo hi k (repFuel lo 0 st + extra) 0 st.
Proof.
  cbn [run]. apply repLoop_fuel; [apply run_forward | lia | lia].
Qed.

(** A matcher that succeeds only through its continuation, called at a state
    further on. *)
Definition reaching
    (body : (mstate -> option mstate) -> mstate -> option mstate) : Prop :=
  forall k st res,
    body k st = Some res ->
    exists st',
      (List.length (ms_rest st') <= List.length (ms_rest st))%nat /\
      k st' = Some res.

Lemma repLoop_reaching
    (body : (mstate -> option mstate) -> mstate -> option mstate)
    (greedy : bool) (lo : nat) (hi : option nat) :
  reaching body ->
  forall fuel cnt, reaching (fun k => repLoop body greedy lo hi k fuel cnt).
Proof.
  intros Hbody. induction fuel as [|fuel IH]; intros cnt k st res H.
  - discriminate H.
  - cbn [repLoop] in H. cbv zeta in H.
    assert (forall res',
              body (fun st' =>
                      if (lo <=? cnt)%nat &&
                         (List.length (ms_rest st') =?
                          List.length (ms_rest st))%nat
                      then None
                      else repLoop body greedy lo hi k fuel (S cnt) st') st
              = Some res' ->
              exists st',
                (List.length (ms_rest st') <= List.length (ms_rest st))%nat /\
                k st' = Some res') as Hagain.
    { intros res' H'. apply Hbody in H'. destruct H' as [st' [Hle H']].
      destruct ((lo <=? cnt)%nat &&
                (List.length (ms_rest st') =? List.length (ms_rest st))%nat);
        [discriminate H'|].
      apply IH in H'. destruct H' as [st'' [Hle' H']].
      exists st''. split; [lia | exact H']. }
    assert (forall res', k st = Some res' ->
              exists st',
                (List.length (ms_rest st') <= List.length (ms_rest st))%nat /\
                k st' = Some res') as Hstop.
    { intros res' H'. exists st. auto. }
    unfold orElse in H.
    repeat match type of H with
           | (if ?c then _ else _) = _ => destruct c
           | match ?o with Some _ => _ | None => _ end = _ =>
               destruct o eqn:?
           end; auto.
    all: try (injection H as <-; auto).
Qed.

Lemma run_reaching (icase : bool) (r : regex) : reaching (run icase r).
Proof.
  induction r as [| c | | neg items | r1 IH1 r2 IH2 | r1 IH1 r2 IH2
                 | greedy lo hi r1 IH | n r1 IH | | | ];
    intros k st res H; cbn [run] in H.
  - exists st. auto.
  - unfold step1 in H. destruct (ms_rest st) as [|a t] eqn:E; [discriminate|].
    destruct (charEq icase c a); [|discriminate].
    eexists. split; [|exact H]. simpl. lia.
  - unfold step1 in H. destruct (ms_rest st) as [|a t] eqn:E; [discriminate|].
    destruct (negb (isLineTerminator a)); [|discriminate].
    eexists. split; [|exact H]. simpl. lia.
  - unfold step1 in H. destruct (ms_rest st) as [|a t] eqn:E; [discriminate|].
    destruct (xorb neg (inClass icase items a)); [|discriminate].
    eexists. split; [|exact H]. simpl. lia.
  - apply IH1 in H. destruct H as [st' [Hle H]].
    apply IH2 in H. destruct H as [st'' [Hle' H]].
    exists st''. split; [lia | exact H].
  - unfold orElse in H. destruct (run icase r1 k st) eqn:E1.
    + injection H as <-. apply IH1, E1.
    + apply IH2, H.
  - apply (repLoop_reaching _ greedy lo hi IH) in H. exact H.
  - apply IH in H. destruct H as [st' [Hle H]].
    eexists. split; [|exact H]. simpl. exact Hle.
  - destruct (ms_prev st); [discriminate|]. exists st. auto.
  - destruct (ms_rest st) eqn:E; [|discriminate]. exists st. rewrite E. auto.
  - destruct (xorb (wordBefore st) (wordAfter st)); [|discriminate].
    exists st. auto.
Qed.

(** A match and the text after it fit in the text that was searched. *)
Lemma search_lengths (icase : bool) (r : regex) (rest : list ascii) :
  forall prev before f,
    search icase r prev before rest = Some f ->
    (List.length (f_text f) + List.length (f_after f)
     <= List.length rest)%nat.
Proof.
  induction rest as [|c rest IH]; intros prev before f H; cbn [search] in H.
  - destruct (run icase r (fun s => Some s) (MState prev [] [])) eqn:E.
    + injection H as <-. apply run_reaching in E.
      destruct E as [st' [Hle E]]. injection E as ->.
      unfold consumed. cbn [f_text f_after ms_rest] in *.
      rewrite length_firstn. cbn [List.length] in *. lia.
    + discriminate H.
  - destruct (run icase r (fun s => Some s) (MState prev (c :: rest) []))
      eqn:E.
    + injection H as <-. apply run_reaching in E.
      destruct E as [st' [Hle E]]. injection E as ->.
      unfold consumed. cbn [f_text f_after ms_rest] in *.
      rewrite length_firstn. cbn [List.length] in *. lia.
    + apply IH in H. simpl. lia.
Qed.

Lemma replaceFrom_fuel (icase : bool) (r : regex) (by_ : list ascii) :
  forall fuel fuel' prev rest,
    (List.length rest < fuel)%nat -> (List.length rest < fuel')%nat ->
    replaceFrom fuel icase r by_ prev rest
    = replaceFrom fuel' icase r by_ prev rest.
Proof.
  induction fuel as [|fuel IH]; intros fuel' prev rest H1 H2; [lia|].
  destruct fuel' as [|fuel']; [lia|].
  cbn [replaceFrom].
  destruct (search icase r prev [] rest) as [f|] eqn:E; [|reflexivity].
  apply search_lengths in E.
  destruct (f_text f) as [|a text]; [destruct (f_after f) as [|c t]|].
  - reflexivity.
  - simpl in E. rewrite (IH fuel' (Some c) t) by lia. reflexivity.
  - simpl in E. rewrite (IH fuel' _ (f_after f)) by lia. reflexivity.
Qed.

(** The fuel of [replaceAll] is enough: more changes nothing. *)
Lemma replaceAll_fuel (e : RegExp) (by_ s : string) (extra : nat) :
  replaceAll e by_ s
  = JS.str (replaceFrom (S (String.length s) + extra) (ignoreCase e)
                        (pattern e) (JS.chars by_) None (JS.chars s)).
Proof.
  unfold replaceAll. f_equal.
  assert (List.length (JS.chars s) = String.length s) as L.
  { unfold JS.chars. induction s as [|c s IH]; simpl; congruence. }
  apply replaceFrom_fuel; lia.
Qed.

End MatcherFuel.

(** ** Sets of tags *)

Section TagSets.

Lemma setAdd_NoDup (x : string) (s : list string) :
  NoDup s -> NoDup (setAdd x s).
Proof.
  intros Hs. unfold setAdd.
  destruct (existsb (String.eqb x) s) eqn:E; [assumption|].
  apply NoDup_rev in Hs. rewrite <- (rev_involutive (s ++ [x])).
  apply NoDup_rev. rewrite rev_app_distr. simpl.
  constructor; [|assumption].
  rewrite <- in_rev. intros Hin.
  assert (existsb (String.eqb x) s = true) as Ht.
  { apply existsb_exists. exists x. split; [assumption|apply String.eqb_refl]. }
  congruence.
Qed.

Lemma addIf_NoDup (c : bool) (x : string) (s : list string) :
  NoDup s -> NoDup (addIf c x s).
Proof.
  intros Hs. destruct c; simpl; [apply setAdd_NoDup|]; assumption.
Qed.

Lemma fold_setAdd_NoDup (l acc : list string) :
  NoDup acc -> NoDup (fold_left (fun s t => setAdd t s) l acc).
Proof.
  revert acc. induction l as [|t l IH]; intros acc Hacc; simpl.
  - assumption.
  - apply IH, setAdd_NoDup, Hacc.
Qed.

Lemma nonempty_filter_spec (l : list string) :
  ~ In "" (filter (fun tag => (0 <? String.length tag)%nat) l).
Proof.
  intros Hin. apply filter_In in Hin. destruct Hin as [_ H].
  discriminate H.
Qed.

End TagSets.

Create HintDb tags.
#[local] Hint Resolve setAdd_NoDup addIf_NoDup NoDup_nil : tags.

Lemma strict_amountTags_NoDup (amount : option Q) (tags : list string) :
  NoDup tags -> NoDup (Helpers.amountTags amount tags).
Proof.
  intros H. unfold Helpers.amountTags.
  destruct amount as [a|]; [destruct (JS.truthyNum a)|]; auto with tags.
Qed.

Lemma strict_collectTags_NoDup (description category_ : string)
    (amount : option Q) :
  NoDup (Helpers.collectTags description category_ amount).
Proof.
  unfold Helpers.collectTags. cbv zeta.
  apply strict_amountTags_NoDup.
  repeat apply addIf_NoDup. apply setAdd_NoDup. constructor.
Qed.

Lemma lenient_serviceTags_NoDup (desc merch : string) (tags : list string) :
  NoDup tags -> NoDup (Lenient.serviceTags desc merch tags).
Proof.
  intros H. unfold Lenient.serviceTags. cbv zeta.
  repeat match goal with
         | |- context [if ?c then _ else _] => destruct c
         end; auto 8 with tags.
Qed.

Lemma lenient_amountTags_NoDup (amount : option Q) (tags : list string) :
  NoDup tags -> NoDup (Lenient.amountTags amount tags).
Proof.
  intros H. unfold Lenient.amountTags.
  destruct amount as [a|]; [destruct (JS.truthyNum a)|]; auto with tags.
Qed.

Lemma lenient_merchantNameTag_NoDup (merchant : string) (tags : list string) :
  NoDup tags -> NoDup (Lenient.merchantNameTag merchant tags).
Proof.
  intros H. unfold Lenient.merchantNameTag.
  destruct (negb (merchant =? "Unknown")%string &&
            (2 <? String.length merchant)%nat); auto with tags.
Qed.

Lemma lenient_collectTags_NoDup (description merchant category_ : string)
    (amount : option Q) :
  NoDup (Lenient.collectTags description merchant category_ amount).
Proof.
  unfold Lenient.collectTags. cbv zeta.
  apply lenient_merchantNameTag_NoDup, lenient_amountTags_NoDup,
    lenient_serviceTags_NoDup.
  repeat apply addIf_NoDup. apply setAdd_NoDup. constructor.
Qed.

(** C8. For every description, merchant, category and optional amount, the
    list that [generateTags] returns holds no empty string and no entry
    twice; this holds for the strict helpers and for their lenient
    sibling. *)
Theorem generateTags_no_empty_no_duplicate :
  forall (description merchant category_ : string) (amount : option Q),
    (NoDup (Helpers.generateTags description merchant category_ amount) /\
     ~ In "" (Helpers.generateTags description merchant category_ amount)) /\
    (NoDup (Lenient.generateTags description merchant category_ amount) /\
     ~ In "" (Lenient.generateTags description merchant category_ amount)).
Proof.
  intros description merchant category_ amount.
  unfold Helpers.generateTags, Lenient.generateTags.
  repeat split.
  - apply NoDup_filter, strict_collectTags_NoDup.
  - apply nonempty_filter_spec.
  - apply NoDup_filter, lenient_collectTags_NoDup.
  - apply nonempty_filter_spec.
Qed.

(** ** Categorisation *)

Lemma strict_loop_category (rules : list Helpers.CategoryRule)
    (description desc merch : string) (amount : Q) :
  let c := Helpers.c_category
             (Helpers.categorizeLoop description desc merch amount rules) in
  (c = "Others" \/ In c (map Helpers.category rules)) /\
  (Forall (fun r => Helpers.ruleMatches r desc merch amount = false) rules ->
   c = "Others").
Proof.
  induction rules as [|r rules IH]; simpl.
  - split; [left; reflexivity | reflexivity].
  - destruct (Helpers.ruleMatches r desc merch amount) eqn:E; simpl.
    + split; [right; left; reflexivity|].
      intros H. inversion H; subst. congruence.
    + destruct IH as [IH1 IH2]. split.
      * destruct IH1 as [H|H]; [left; exact H | right; right; exact H].
      * intros H. inversion H; subst. auto.
Qed.

Lemma lenient_loop_category (rules : list Helpers.CategoryRule)
    (description merchant desc merch : string) (amount : Q) :
  let c := Helpers.c_category
             (Lenient.categorizeLoop description merchant desc merch amount
                                     rules) in
  (c = "Others" \/ c = "Transfer" \/ In c (map Helpers.category rules)) /\
  (Forall (fun r => Lenient.ruleMatches r desc merch amount = false) rules ->
   Lenient.isPersonalTransfer description merchant = false ->
   c = "Others").
Proof.
  induction rules as [|r rules IH]; simpl.
  - destruct (Lenient.isPersonalTransfer description merchant); simpl.
    + split; [right; left; reflexivity | discriminate].
    + split; [left; reflexivity | reflexivity].
  - destruct (Lenient.ruleMatches r desc merch amount) eqn:E; simpl.
    + split; [right; right; left; reflexivity|].
      intros H. inversion H; subst. congruence.
    + destruct IH as [IH1 IH2]. split.
      * destruct IH1 as [H|[H|H]]; auto.
      * intros H. inversion H; subst. auto.
Qed.

Lemma strict_rule_categories :
  Forall (fun c => c <> "")
         (map Helpers.category Helpers.DEFAULT_CATEGORY_RULES).
Proof. repeat constructor; discriminate. Qed.

Lemma lenient_rule_categories :
  Forall (fun c => c <> "")
         (map Helpers.category Lenient.DEFAULT_CATEGORY_RULES).
Proof. repeat constructor; discriminate. Qed.

(** C7. For every description, merchant and amount [categorizeTransaction]
    returns a category that is not the empty string; when no rule of the
    table matches, the strict variant returns exactly "Others", and so does
    the lenient variant when its personal-transfer heuristic does not fire
    either. *)
Theorem categorizeTransaction_category_nonempty_default_Others :
  forall (description merchant : string) (amount : Q),
    (Helpers.c_category
       (Helpers.categorizeTransaction description merchant amount) <> "" /\
     (Forall (fun r => Helpers.ruleMatches r (JS.toLowerCase description)
                         (JS.toLowerCase merchant) amount = false)
             Helpers.DEFAULT_CATEGORY_RULES ->
      Helpers.c_category
        (Helpers.categorizeTransaction description merchant amount)
      = "Others")) /\
    (Helpers.c_category
       (Lenient.categorizeTransaction description merchant amount) <> "" /\
     (Forall (fun r => Lenient.ruleMatches r (JS.toLowerCase description)
                         (JS.toLowerCase merchant) amount = false)
             Lenient.DEFAULT_CATEGORY_RULES ->
      Lenient.isPersonalTransfer description merchant = false ->
      Helpers.c_category
        (Lenient.categorizeTransaction description merchant amount)
      = "Others")).
Proof.
  intros description merchant amount.
  unfold Helpers.categorizeTransaction, Helpers.categorizeTransactionWith,
    Lenient.categorizeTransaction, Lenient.categorizeTransactionWith.
  pose proof (strict_loop_category Helpers.DEFAULT_CATEGORY_RULES description
                (JS.toLowerCase description) (JS.toLowerCase merchant) amount)
    as [[Hs|Hs] Hs'].
  all: pose proof (lenient_loop_category Lenient.DEFAULT_CATEGORY_RULES
                description merchant
                (JS.toLowerCase description) (JS.toLowerCase merchant) amount)
    as [Hl Hl'].
  all: cbv zeta in *.
  all: repeat split; try assumption.
  all: try (rewrite Hs; discriminate).
  all: try (pose proof strict_rule_categories as F;
            rewrite Forall_forall in F; apply F; exact Hs).
  all: destruct Hl as [Hl|[Hl|Hl]];
    [ rewrite Hl; discriminate | rewrite Hl; discriminate
    | pose proof lenient_rule_categories as F;
      rewrite Forall_forall in F; apply F; exact Hl ].
Qed.

(** Witness for C7: a description and a merchant that no rule matches (the
    merchant holds a business keyword, so the heuristic stays silent). *)
Lemma categorizeTransaction_default_witness :
  Helpers.c_category (Helpers.categorizeTransaction "hello" "abc bank" 10)
  = "Others" /\
  Helpers.c_category (Lenient.categorizeTransaction "hello" "abc bank" 10)
  = "Others".
Proof.
  pose proof (categorizeTransaction_category_nonempty_default_Others
                "hello" "abc bank" 10) as [[_ Hs] [_ Hl]].
  split.
  - apply Hs. repeat (constructor; [vm_compute; reflexivity|]). constructor.
  - apply Hl.
    + repeat (constructor; [vm_compute; reflexivity|]). constructor.
    + vm_compute. reflexivity.
Defined.

(** ** Confidence fusion *)

Lemma clamp01_in_range (s : Q) :
  (0 <= s)%Q -> (s <= 1)%Q -> (ML.clamp01 s == s)%Q.
Proof.
  intros H0 H1. unfold ML.clamp01.
  rewrite (Q.min_r 1 s H1). apply Q.max_r. exact H0.
Qed.

Lemma clamp01_bounds (s : Q) :
  (0 <= ML.clamp01 s)%Q /\ (ML.clamp01 s <= 1)%Q.
Proof.
  unfold ML.clamp01. split.
  - apply Q.le_max_l.
  - apply Q.max_lub; [discriminate | apply Q.le_min_l].
Qed.

(** A confidence whose score lies between 0 and 1, as every confidence that
    [createMLConfidence] builds does. *)
Definition wellFormed (c : ML.MLConfidence) : Prop :=
  (0 <= ML.score c)%Q /\ (ML.score c <= 1)%Q.

Lemma createMLConfidence_wellFormed (s : Q) (src : ML.Source) :
  wellFormed (ML.createMLConfidence s src).
Proof. apply clamp01_bounds. Qed.

(** C5. For every pair of component confidences (scores between 0 and 1)
    the fused score is merchant score x 0.4 + category score x 0.6, and the
    fused source is "ml" exactly when both sources are "ml", "rules" exactly
    when both are "rules", and "hybrid" in every other case. *)
Theorem calculateOverallConfidence_fusion :
  forall merchantConfidence categoryConfidence : ML.MLConfidence,
    wellFormed merchantConfidence ->
    wellFormed categoryConfidence ->
    let fused :=
      ML.calculateOverallConfidence merchantConfidence categoryConfidence in
    (ML.score fused ==
       ML.score merchantConfidence * (4 # 10) +
       ML.score categoryConfidence * (6 # 10))%Q /\
    (ML.source_ fused = ML.ml <->
       ML.source_ merchantConfidence = ML.ml /\
       ML.source_ categoryConfidence = ML.ml) /\
    (ML.source_ fused = ML.rules <->
       ML.source_ merchantConfidence = ML.rules /\
       ML.source_ categoryConfidence = ML.rules) /\
    (ML.source_ fused = ML.hybrid <->
       ~ (ML.source_ merchantConfidence = ML.ml /\
          ML.source_ categoryConfidence = ML.ml) /\
       ~ (ML.source_ merchantConfidence = ML.rules /\
          ML.source_ categoryConfidence = ML.rules)).
Proof.
  intros [ms msrc] [cs csrc] [Hm0 Hm1] [Hc0 Hc1]. simpl in *.
  split.
  - apply clamp01_in_range; lra.
  - destruct msrc, csrc; simpl; intuition (try discriminate; congruence).
Qed.

(** The component confidences that the pipeline fuses are built by
    [createMLConfidence], so their scores lie between 0 and 1. *)
Lemma pipeline_components_wellFormed (config : ML.MLServiceConfig)
    (services : ML.Services) (preprocessed : ML.MLPreprocessedTransaction)
    (description : string) (amount : Q) :
  wellFormed (ML.mp_confidence
                (ML.extractMerchantWithFallback config services
                                                description amount)) /\
  wellFormed (ML.cp_confidence
                (ML.classifyWithFallback config services preprocessed
                                         description amount)).
Proof.
  split.
  - unfold ML.extractMerchantWithFallback.
    destruct (ML.merchantAttempt config services description amount)
      as [[p|]|m] eqn:E.
    + unfold ML.merchantAttempt in E.
      destruct (ML.useML config && ML.merchantExtractorReady services);
        [|discriminate E].
      destruct (ML.extractMerchantML services description (Some amount))
        as [r|m]; cbn [bind] in E; [|discriminate E].
      destruct (ML.shouldUseMlResult _ _); [|discriminate E].
      injection E as <-. apply createMLConfidence_wellFormed.
    + destruct (ML.fallbackToRules_ config);
        apply createMLConfidence_wellFormed.
    + destruct (ML.fallbackToRules_ config);
        apply createMLConfidence_wellFormed.
  - unfold ML.classifyWithFallback.
    destruct (ML.classifyAttempt config services preprocessed)
      as [[p|]|m] eqn:E.
    + unfold ML.classifyAttempt in E.
      destruct (ML.useML config && ML.classifierReady services);
        [|discriminate E].
      destruct (ML.classify services preprocessed)
        as [r|m]; cbn [bind] in E; [|discriminate E].
      destruct (ML.shouldUseMlResult _ _); [|discriminate E].
      injection E as <-. apply createMLConfidence_wellFormed.
    + destruct (ML.fallbackToRules_ config);
        apply createMLConfidence_wellFormed.
    + destruct (ML.fallbackToRules_ config);
        apply createMLConfidence_wellFormed.
Qed.

(** Witness for C5: merchant 0.9 from the learned path, category 0.5 from
    the rules. *)
Lemma calculateOverallConfidence_fusion_witness :
  let fused := ML.calculateOverallConfidence
                 {| ML.score := 9 # 10; ML.source_ := ML.ml |}
                 {| ML.score := 5 # 10; ML.source_ := ML.rules |} in
  (ML.score fused == (9 # 10) * (4 # 10) + (5 # 10) * (6 # 10))%Q /\
  ML.source_ fused = ML.hybrid.
Proof.
  pose proof (calculateOverallConfidence_fusion
                {| ML.score := 9 # 10; ML.source_ := ML.ml |}
                {| ML.score := 5 # 10; ML.source_ := ML.rules |}) as H.
  assert (wellFormed {| ML.score := 9 # 10; ML.source_ := ML.ml |}) as W1
    by (split; discriminate).
  assert (wellFormed {| ML.score := 5 # 10; ML.source_ := ML.rules |}) as W2
    by (split; discriminate).
  destruct (H W1 W2) as [Hs [_ [_ Hh]]].
  split; [exact Hs | reflexivity].
Defined.

(** ** Conversion of the parsed transactions *)

(** What the conversion keeps of a parsed transaction. *)
Definition convertedFrom (tx : Helpers.ParsedTransaction)
    (out : Helpers.Transaction) : Prop :=
  Helpers.tx_amount out = Helpers.pt_amount tx /\
  Helpers.tx_description out = Helpers.pt_description tx /\
  (Helpers.tx_type out = Helpers.debit <-> Helpers.pt_type tx = Helpers.DR) /\
  (Helpers.tx_type out = Helpers.credit <-> Helpers.pt_type tx <> Helpers.DR) /\
  Helpers.tx_isVerified out = false.

Definition dateParses (tx : Helpers.ParsedTransaction) : Prop :=
  exists d, Helpers.parseDate (Helpers.pt_date tx) = Ok d.

Definition dateThrows (tx : Helpers.ParsedTransaction) : Prop :=
  exists m, Helpers.parseDate (Helpers.pt_date tx) = Throw m.

Lemma convertOne_ok (now : JSDate.Date) (accountNumber bankName : string)
    (tx : Helpers.ParsedTransaction) (index : nat) :
  dateParses tx ->
  exists out,
    Helpers.convertOne now accountNumber bankName tx index = Ok out /\
    convertedFrom tx out.
Proof.
  intros [d Hd]. unfold Helpers.convertOne. cbv zeta. rewrite Hd.
  cbn [bind]. eexists. split; [reflexivity|].
  unfold convertedFrom.
  cbn [Helpers.tx_amount Helpers.tx_description Helpers.tx_type
       Helpers.tx_isVerified].
  destruct (Helpers.pt_type tx); intuition (try discriminate; congruence).
Qed.

Lemma convertOne_throws (now : JSDate.Date) (accountNumber bankName : string)
    (tx : Helpers.ParsedTransaction) (index : nat) :
  dateThrows tx ->
  exists m, Helpers.convertOne now accountNumber bankName tx index = Throw m.
Proof.
  intros [m Hm]. unfold Helpers.convertOne. cbv zeta. rewrite Hm.
  cbn [bind]. exists m. reflexivity.
Qed.

Lemma mapIdx_all_ok {A B : Type} (R : A -> B -> Prop)
    (f : A -> nat -> result B) (xs : list A) :
  Forall (fun x => forall i, exists y, f x i = Ok y /\ R x y) xs ->
  forall i, exists ys, mapIdx f i xs = Ok ys /\ Forall2 R xs ys.
Proof.
  induction 1 as [|x xs Hx _ IH]; intros i; simpl.
  - exists []. split; [reflexivity | constructor].
  - destruct (Hx i) as [y [Hy Hr]]. destruct (IH (S i)) as [ys [Hys Hrs]].
    rewrite Hy. simpl. rewrite Hys. simpl.
    exists (y :: ys). split; [reflexivity | constructor; assumption].
Qed.

Lemma mapIdx_some_throw {A B : Type} (f : A -> nat -> result B)
    (xs : list A) :
  Exists (fun x => forall i, exists m, f x i = Throw m) xs ->
  forall i, exists m, mapIdx f i xs = Throw m.
Proof.
  induction 1 as [x xs Hx | x xs _ IH]; intros i; simpl.
  - destruct (Hx i) as [m Hm]. rewrite Hm. exists m. reflexivity.
  - destruct (f x i) as [y|m]; simpl.
    + destruct (IH (S i)) as [m Hm]. rewrite Hm. exists m. reflexivity.
    + exists m. reflexivity.
Qed.

(** C10, as the code has it.  When the date of every parsed transaction
    parses, [convertToTransactionInterface] returns a list of the same
    length in the same order, and at each position the amount and the
    description are those of the input, the type is "debit" exactly when the
    input's is "DR" and "credit" otherwise, and [isVerified] is false.  When
    the date of some parsed transaction does not parse, the call throws and
    returns no list. *)
Theorem convertToTransactionInterface_preserves :
  forall (clock : nat -> JSDate.Date)
         (parsedTransactions : list Helpers.ParsedTransaction)
         (accountNumber bankName : string),
    (Forall dateParses parsedTransactions ->
     exists out,
       Helpers.convertToTransactionInterface clock parsedTransactions
                                             accountNumber bankName = Ok out /\
       List.length out = List.length parsedTransactions /\
       Forall2 convertedFrom parsedTransactions out) /\
    (Exists dateThrows parsedTransactions ->
     exists m,
       Helpers.convertToTransactionInterface clock parsedTransactions
                                             accountNumber bankName = Throw m).
Proof.
  intros clock txs accountNumber bankName.
  unfold Helpers.convertToTransactionInterface. split.
  - intros Hall.
    destruct (mapIdx_all_ok convertedFrom
                (fun tx index =>
                   Helpers.convertOne (clock index) accountNumber bankName
                                      tx index) txs) with (i := 0%nat)
      as [out [Hout Hrel]].
    + eapply Forall_impl; [|exact Hall].
      intros tx Htx i. apply convertOne_ok, Htx.
    + exists out. split; [exact Hout|]. split; [|exact Hrel].
      symmetry. eapply Forall2_length, Hrel.
  - intros Hex. apply mapIdx_some_throw.
    eapply Exists_impl; [|exact Hex].
    intros tx Htx i. apply convertOne_throws, Htx.
Qed.

Definition sampleParsed : Helpers.ParsedTransaction :=
  {| Helpers.pt_date := "15-03-2024";
     Helpers.pt_description := "UPI/NETFLIX/123";
     Helpers.pt_amount := 199;
     Helpers.pt_type := Helpers.DR |}.

(** Witness for C10: one parsed transaction with a date that parses. *)
Lemma convertToTransactionInterface_preserves_witness :
  exists out,
    Helpers.convertToTransactionInterface (fun _ => None) [sampleParsed]
                                          "1234" "ICICI" = Ok out /\
    List.length out = 1%nat /\
    Forall2 convertedFrom [sampleParsed] out.
Proof.
  apply (convertToTransactionInterface_preserves
           (fun _ => None) [sampleParsed] "1234" "ICICI").
  constructor; [|constructor].
  eexists. vm_compute. reflexivity.
Defined.

Definition parsedDay32 : Helpers.ParsedTransaction :=
  {| Helpers.pt_date := "32-01-2024";
     Helpers.pt_description := "UPI/NETFLIX/123";
     Helpers.pt_amount := 199;
     Helpers.pt_type := Helpers.DR |}.

(** Counterexample to C10 as stated: a parsed transaction dated 32-01-2024
    (a text that the segmenter's date pattern accepts) makes the conversion
    throw instead of returning a list of length one. *)
Lemma convertToTransactionInterface_throws_on_bad_date :
  Regex.test Icici.datePattern (Helpers.pt_date parsedDay32) = true /\
  Helpers.convertToTransactionInterface (fun _ => None) [parsedDay32]
                                        "1234" "ICICI"
  = Throw "Invalid date format: 32-01-2024".
Proof. split; vm_compute; reflexivity. Qed.

(** ** Dates *)

Section DateValidation.

Import JSNum.
Local Open Scope Q_scope.

(** The numbers that [parseDate] reads from its argument. *)
Definition dateParts (s : string) : list jsnum :=
  map Number (JS.splitOn Helpers.dateSeparator s).

(** [n] is the integer [z]. *)
Definition numIs (n : jsnum) (z : Z) : Prop :=
  exists q, n = Fin q /\ q == inject_Z z.

(** [n] is a finite number from [lo] to [hi]. *)
Definition within (lo hi : Z) (n : jsnum) : Prop :=
  exists q, n = Fin q /\ inject_Z lo <= q /\ q <= inject_Z hi.

(** [n] is a number from [lo] on. *)
Definition atLeast (lo : Z) (n : jsnum) : Prop :=
  n = Inf false \/ exists q, n = Fin q /\ inject_Z lo <= q.

(** Day from 1 to 31, month from 1 to 12, year from 1900 on. *)
Definition inRange (day month year : jsnum) : Prop :=
  within 1 31 day /\ within 1 12 month /\ atLeast 1900 year.

(** The calendar round trip: the date at time [t] has this day, month and
    year. *)
Definition roundTrips (day month year : jsnum) (t : Z) : Prop :=
  numIs day (JSDate.getUTCDate t) /\
  numIs (Helpers.minusOne month) (JSDate.getUTCMonth t) /\
  numIs year (JSDate.getUTCFullYear t).

Definition invalidDate (s : string) : result JSDate.Date :=
  Throw ("Invalid date format: " ++ s)%string.

Lemma Qlt_bool_false (a b : Q) : Qlt_bool a b = false <-> b <= a.
Proof.
  unfold Qlt_bool. rewrite negb_false_iff. apply Qle_bool_iff.
Qed.

Lemma Qlt_bool_true (a b : Q) : Qlt_bool a b = true <-> a < b.
Proof.
  unfold Qlt_bool. rewrite negb_true_iff. split.
  - intros H. apply Qnot_le_lt. intros Hle.
    apply Qle_bool_iff in Hle. congruence.
  - intros H. destruct (Qle_bool b a) eqn:E; [|reflexivity].
    apply Qle_bool_iff in E. exfalso. exact (Qlt_not_le _ _ H E).
Qed.

Lemma inject_Z_pos (z : Z) : (0 < z)%Z -> 0 < inject_Z z.
Proof.
  intros H. change 0 with (inject_Z 0). rewrite <- Zlt_Qlt. exact H.
Qed.

Lemma within_check (lo hi : Z) (n : jsnum) :
  (0 < lo)%Z ->
  (falsy n = false /\ lt n (ofZ lo) = false /\ gt n (ofZ hi) = false) <->
  within lo hi n.
Proof.
  intros Hlo. unfold within, gt. destruct n as [|neg|q]; simpl.
  - split; [intros [H _]; discriminate | intros [q [H _]]; discriminate].
  - split.
    + destruct neg; intros [_ [H1 H2]]; discriminate.
    + intros [q [H _]]; discriminate.
  - rewrite !Qlt_bool_false. split.
    + intros [_ [H1 H2]]. exists q. auto.
    + intros [q' [Hq [H1 H2]]]. injection Hq as <-.
      split; [|auto].
      destruct (Qeq_bool q 0) eqn:E; [|reflexivity].
      apply Qeq_bool_iff in E. rewrite E in H1.
      exfalso. revert H1. apply Qlt_not_le, inject_Z_pos, Hlo.
Qed.

Lemma atLeast_check (lo : Z) (n : jsnum) :
  (0 < lo)%Z ->
  (falsy n = false /\ lt n (ofZ lo) = false) <-> atLeast lo n.
Proof.
  intros Hlo. unfold atLeast. destruct n as [|neg|q]; simpl.
  - split; [intros [H _]; discriminate | ].
    intros [H | [q [H _]]]; discriminate.
  - destruct neg; split; try (intros [_ H]; discriminate); auto.
    intros [H | [q [H _]]]; discriminate.
  - rewrite Qlt_bool_false. split.
    + intros [_ H]. right. exists q. auto.
    + intros [H | [q' [Hq H]]]; [discriminate|]. injection Hq as <-.
      split; [|exact H].
      destruct (Qeq_bool q 0) eqn:E; [|reflexivity].
      apply Qeq_bool_iff in E. rewrite E in H.
      exfalso. revert H. apply Qlt_not_le, inject_Z_pos, Hlo.
Qed.

(** The test of the components in [parseDate] rejects exactly the values
    out of range. *)
Lemma values_check (day month year : jsnum) :
  (falsy day || falsy month || falsy year ||
   lt day (ofZ 1) || gt day (ofZ 31) ||
   lt month (ofZ 1) || gt month (ofZ 12) ||
   lt year (ofZ 1900)) = false <-> inRange day month year.
Proof.
  unfold inRange.
  rewrite <- (within_check 1 31 day), <- (within_check 1 12 month),
    <- (atLeast_check 1900 year) by reflexivity.
  rewrite !orb_false_iff. tauto.
Qed.

Lemma getterDiffers_false (date : JSDate.Date) (getter : Z -> Z)
    (n : jsnum) :
  Helpers.getterDiffers date getter n = false <->
  exists t, date = Some t /\ numIs n (getter t).
Proof.
  unfold Helpers.getterDiffers, differsFromZ, numIs.
  destruct date as [t|].
  - destruct n as [|neg|q].
    + split; [discriminate | intros [t' [_ [q [H _]]]]; discriminate].
    + split; [discriminate | intros [t' [_ [q [H _]]]]; discriminate].
    + rewrite negb_false_iff, Qeq_bool_iff. split.
      * intros H. exists t. split; [reflexivity|]. exists q. auto.
      * intros [t' [Ht [q' [Hq H]]]].
        injection Ht as <-. injection Hq as <-. exact H.
  - split; [discriminate | intros [t [H _]]; discriminate].
Qed.

Lemma UTC_noon (year month day : jsnum) (t : Z) :
  JSDate.UTC year month day 12 0 0 0 = Some t ->
  (t mod JSDate.msPerDay = 12 * 3600000)%Z.
Proof.
  unfold JSDate.UTC, JSDate.timeClip.
  destruct year as [| |y]; try discriminate.
  destruct month as [| |m]; try discriminate.
  destruct day as [| |d]; try discriminate.
  match goal with
  | |- context [(Z.abs ?v <=? _)%Z] =>
      destruct (Z.abs v <=? 8640000000000000)%Z
  end; [|discriminate].
  intros H. injection H as <-.
  rewrite Z.add_comm, Z.mod_add by discriminate. reflexivity.
Qed.

(** What [parseDate] does with a text of three components. *)
Lemma parseDate_three_parts (s : string) (day month year : jsnum) :
  dateParts s = [day; month; year] ->
  (~ inRange day month year -> Helpers.parseDate s = invalidDate s) /\
  ((forall t, JSDate.UTC year (Helpers.minusOne month) day 12 0 0 0 = Some t ->
              ~ roundTrips day month year t) ->
   Helpers.parseDate s = invalidDate s) /\
  (forall t,
     inRange day month year ->
     JSDate.UTC year (Helpers.minusOne month) day 12 0 0 0 = Some t ->
     roundTrips day month year t ->
     Helpers.parseDate s = Ok (Some t) /\
     (t mod JSDate.msPerDay = 12 * 3600000)%Z).
Proof.
  intros Hparts. unfold dateParts in Hparts.
  unfold Helpers.parseDate, Helpers.parseDateBody. cbv zeta. rewrite Hparts.
  pose proof (values_check day month year) as Hcheck.
  destruct (falsy day || falsy month || falsy year ||
            lt day (ofZ 1) || gt day (ofZ 31) ||
            lt month (ofZ 1) || gt month (ofZ 12) ||
            lt year (ofZ 1900)) eqn:Ecase.
  - split; [reflexivity|]. split; [reflexivity|].
    intros t Hr. exfalso.
    apply Hcheck in Hr. discriminate.
  - assert (inRange day month year) as Hin by (apply Hcheck; reflexivity).
    pose proof (getterDiffers_false
                  (JSDate.UTC year (Helpers.minusOne month) day 12 0 0 0)
                  JSDate.getUTCDate day) as Hd.
    pose proof (getterDiffers_false
                  (JSDate.UTC year (Helpers.minusOne month) day 12 0 0 0)
                  JSDate.getUTCMonth (Helpers.minusOne month)) as Hm.
    pose proof (getterDiffers_false
                  (JSDate.UTC year (Helpers.minusOne month) day 12 0 0 0)
                  JSDate.getUTCFullYear year) as Hy.
    destruct (Helpers.getterDiffers _ JSDate.getUTCDate day) eqn:Ed;
      [|destruct (Helpers.getterDiffers _ JSDate.getUTCMonth _) eqn:Em;
        [|destruct (Helpers.getterDiffers _ JSDate.getUTCFullYear year)
            eqn:Ey]];
      simpl.
    + split; [contradiction|]. split; [reflexivity|].
      intros t _ Ht [Hr _]. exfalso.
      assert (true = false); [|discriminate].
      apply Hd. exists t. auto.
    + split; [contradiction|]. split; [reflexivity|].
      intros t _ Ht [_ [Hr _]]. exfalso.
      assert (true = false); [|discriminate].
      apply Hm. exists t. auto.
    + split; [contradiction|]. split; [reflexivity|].
      intros t _ Ht [_ [_ Hr]]. exfalso.
      assert (true = false); [|discriminate].
      apply Hy. exists t. auto.
    + destruct Hd as [Hd _], Hm as [Hm _], Hy as [Hy _].
      destruct (Hd eq_refl) as [t [Ht Hdt]].
      destruct (Hm eq_refl) as [t1 [Ht1 Hmt]].
      destruct (Hy eq_refl) as [t2 [Ht2 Hyt]].
      assert (t1 = t) by congruence. assert (t2 = t) by congruence. subst.
      split; [contradiction|]. split.
      * intros Hfail. exfalso. apply (Hfail t Ht). repeat split; assumption.
      * intros t' _ Ht' _. assert (t' = t) by congruence. subst.
        split; [rewrite Ht; reflexivity | eapply UTC_noon; exact Ht].
Qed.

End DateValidation.

(** C3. [parseDate] maps "15-03-2024" and "15/03/2024" to the same date,
    15 March 2024 at noon UTC, and throws the invalid-date error for
    "32-01-2024", "00-13-2024" and "01-01-1899".  In general, for a text of
    three components it throws whenever day, month and year are not within
    1-31, 1-12 and 1900 or later, or do not pass the calendar round trip,
    and otherwise it returns the date, which lies at noon UTC. *)
Theorem parseDate_accepts_valid_rejects_invalid :
  (Helpers.parseDate "15-03-2024" = Ok (Some 1710504000000%Z) /\
   Helpers.parseDate "15/03/2024" = Ok (Some 1710504000000%Z) /\
   JSDate.getUTCFullYear 1710504000000 = 2024%Z /\
   JSDate.getUTCMonth 1710504000000 = 2%Z /\
   JSDate.getUTCDate 1710504000000 = 15%Z /\
   JSDate.getUTCHours 1710504000000 = 12%Z /\
   JSDate.msWithinHour 1710504000000 = 0%Z) /\
  (Helpers.parseDate "32-01-2024" = invalidDate "32-01-2024" /\
   Helpers.parseDate "00-13-2024" = invalidDate "00-13-2024" /\
   Helpers.parseDate "01-01-1899" = invalidDate "01-01-1899") /\
  (forall (s : string) (day month year : JSNum.jsnum),
     dateParts s = [day; month; year] ->
     (~ inRange day month year -> Helpers.parseDate s = invalidDate s) /\
     ((forall t,
         JSDate.UTC year (Helpers.minusOne month) day 12 0 0 0 = Some t ->
         ~ roundTrips day month year t) ->
      Helpers.parseDate s = invalidDate s) /\
     (forall t,
        inRange day month year ->
        JSDate.UTC year (Helpers.minusOne month) day 12 0 0 0 = Some t ->
        roundTrips day month year t ->
        Helpers.parseDate s = Ok (Some t) /\
        (t mod JSDate.msPerDay = 12 * 3600000)%Z)).
Proof.
  split; [|split].
  - repeat split; vm_compute; reflexivity.
  - repeat split; vm_compute; reflexivity.
  - exact parseDate_three_parts.
Qed.

Lemma within_intro (lo hi : Z) (q : Q) :
  Qle_bool (inject_Z lo) q = true -> Qle_bool q (inject_Z hi) = true ->
  within lo hi (JSNum.Fin q).
Proof.
  intros H1 H2. exists q. rewrite <- !Qle_bool_iff. auto.
Qed.

Lemma numIs_intro (q : Q) (z : Z) :
  Qeq_bool q (inject_Z z) = true -> numIs (JSNum.Fin q) z.
Proof.
  intros H. exists q. split; [reflexivity | apply Qeq_bool_iff, H].
Qed.

(** Witness for C3: the leap day of 2024, whose components are in range and
    pass the round trip. *)
Lemma parseDate_leap_day_witness :
  Helpers.parseDate "29-02-2024" = Ok (Some 1709208000000%Z) /\
  (1709208000000 mod JSDate.msPerDay = 12 * 3600000)%Z.
Proof.
  destruct parseDate_accepts_valid_rejects_invalid as [_ [_ G]].
  apply (G "29-02-2024" (JSNum.Fin 29) (JSNum.Fin 2) (JSNum.Fin 2024)).
  - vm_compute. reflexivity.
  - split; [|split].
    + apply within_intro; reflexivity.
    + apply within_intro; reflexivity.
    + right. exists 2024%Q. split; [reflexivity|].
      apply Qle_bool_iff. reflexivity.
  - vm_compute. reflexivity.
  - split; [|split]; apply numIs_intro; vm_compute; reflexivity.
Defined.

(** ** The end-to-end scenario *)

(** The page of the scenario: one row of four fragments, all at height [yy]. *)
Definition netflixRow (yy : Q) : list Icici.TextItem :=
  [ {| Icici.str_ := "15-03-2024"; Icici.x := 0; Icici.y := yy |};
    {| Icici.str_ := "UPI/NETFLIX/123"; Icici.x := 40; Icici.y := yy |};
    {| Icici.str_ := "199.00"; Icici.x := 200; Icici.y := yy |};
    {| Icici.str_ := "DR"; Icici.x := 260; Icici.y := yy |} ].

Lemma compareItems_same_y (a b : Icici.TextItem) :
  Icici.y a = Icici.y b ->
  Icici.compareItems a b = (Icici.x a - Icici.x b)%Q.
Proof.
  intros H. unfold Icici.compareItems. cbv zeta. rewrite H.
  assert (Qgt_bool (Qabs (Icici.y b - Icici.y b)) 3 = false) as E.
  { unfold Qgt_bool. apply Qlt_bool_false.
    assert (Icici.y b - Icici.y b == 0)%Q as Z0 by ring.
    rewrite Z0. discriminate. }
  rewrite E. reflexivity.
Qed.

Lemma insertItem_first (a b : Icici.TextItem) (rest : list Icici.TextItem) :
  Qle_bool (Icici.compareItems a b) 0 = true ->
  Icici.insertItem a (b :: rest) = a :: b :: rest.
Proof. intros H. simpl. rewrite H. reflexivity. Qed.

Lemma sort_netflixRow (yy : Q) :
  Icici.sortItems (netflixRow yy) = netflixRow yy.
Proof.
  unfold Icici.sortItems, netflixRow. cbn [fold_right].
  change (Icici.insertItem ?a []) with [a].
  repeat (rewrite insertItem_first
            by (rewrite compareItems_same_y by reflexivity; reflexivity)).
  reflexivity.
Qed.

Lemma group_netflixRow (yy : Q) :
  Icici.groupRows (netflixRow yy) = [netflixRow yy].
Proof.
  unfold Icici.groupRows, netflixRow. cbn [Icici.groupLoop Icici.y].
  rewrite !Z.sub_diag.
  change (Z.abs 0 <=? Icici.Y_TOLERANCE)%Z with true.
  rewrite !orb_true_r. reflexivity.
Qed.

(** C4. For the page whose fragments form the single row "15-03-2024" at
    x=0, "UPI/NETFLIX/123" at x=40, "199.00" at x=200 and "DR" at x=260 (at
    any common height), segmentation followed by the rule-based conversion
    yields exactly one transaction: dated 15 March 2024, amount 199.00, type
    "debit", merchant "Netflix", category "Entertainment", subcategory
    "Streaming Services", recurring. *)
Theorem netflix_row_end_to_end :
  forall (yy : Q) (clock : nat -> JSDate.Date) (accountNumber : string),
  exists tx,
    Icici.parsePage clock (netflixRow yy) accountNumber = Ok [tx] /\
    Helpers.tx_date tx = Some 1710504000000%Z /\
    JSDate.civil (1710504000000 / JSDate.msPerDay) = (2024, 2, 15)%Z /\
    Helpers.tx_amount tx = 199%Q /\
    Helpers.tx_type tx = Helpers.debit /\
    Helpers.tx_merchant tx = Some "Netflix" /\
    Helpers.tx_category tx = "Entertainment" /\
    Helpers.tx_subcategory tx = Some "Streaming Services" /\
    Helpers.tx_isRecurring tx = true.
Proof.
  intros yy clock accountNumber.
  unfold Icici.parsePage, Icici.extractTransactionsFromPage,
    Icici.reconstructRows.
  rewrite sort_netflixRow, group_netflixRow.
  assert (Icici.segmentRows [netflixRow yy] = [sampleParsed]) as E
    by (vm_compute; reflexivity).
  rewrite E.
  unfold Helpers.convertToTransactionInterface. cbn [mapIdx].
  unfold Helpers.convertOne. cbv zeta.
  assert (Helpers.parseDate (Helpers.pt_date sampleParsed)
          = Ok (Some 1710504000000%Z)) as D by (vm_compute; reflexivity).
  rewrite D. cbn [bind]. eexists. split; [reflexivity|].
  repeat split; vm_compute; reflexivity.
Qed.

(** ** The transaction segmenter *)

(** A record with a date, an amount and a description: the date and the
    description are not the empty string, the amount is not zero. *)
Definition completeRecord (t : Helpers.ParsedTransaction) : Prop :=
  Helpers.pt_date t <> "" /\
  ~ (Helpers.pt_amount t == 0)%Q /\
  Helpers.pt_description t <> "".

Lemma truthyStr_nonempty (s : string) : JS.truthyStr s = true -> s <> "".
Proof.
  unfold JS.truthyStr. rewrite negb_true_iff. intros H ->. discriminate H.
Qed.

Lemma truthyNum_nonzero (q : Q) : JS.truthyNum q = true -> ~ (q == 0)%Q.
Proof.
  unfold JS.truthyNum. rewrite negb_true_iff. intros H E.
  apply Qeq_bool_iff in E. congruence.
Qed.

Lemma positive_length_nonempty (s : string) :
  (0 <? String.length s)%nat = true -> s <> "".
Proof. intros H ->. discriminate H. Qed.

Lemma finalize_complete (cur : option Icici.OpenTransaction) :
  Forall completeRecord (Icici.finalize cur).
Proof.
  unfold Icici.finalize.
  destruct cur as [c|]; [|constructor].
  destruct (Icici.date c) as [d|]; [|constructor].
  destruct (Icici.amount c) as [a|]; [|constructor].
  destruct (JS.truthyStr d && JS.truthyNum a) eqn:E; [|constructor].
  apply andb_true_iff in E. destruct E as [Ed Ea]. cbv zeta.
  match goal with
  | |- context [(0 <? String.length ?s)%nat] =>
      destruct (0 <? String.length s)%nat eqn:El
  end; [|constructor].
  constructor; [|constructor].
  repeat split; simpl.
  - apply truthyStr_nonempty, Ed.
  - apply truthyNum_nonzero, Ea.
  - apply positive_length_nonempty, El.
Qed.

Lemma stepTexts_transactions (P : Helpers.ParsedTransaction -> Prop)
    (s : Icici.Segmenter) (texts : list string) :
  (forall cur, Forall P (Icici.finalize cur)) ->
  Forall P (Icici.transactions s) ->
  Forall P (Icici.transactions (Icici.stepTexts s texts)).
Proof.
  intros Hfin Hs. unfold Icici.stepTexts.
  destruct texts as [|t texts]; [assumption|].
  destruct (Icici.findDateIndex 0 (t :: texts)); simpl.
  - apply Forall_app. split; [assumption | apply Hfin].
  - destruct (Icici.currentTransaction s); assumption.
Qed.

Lemma fold_stepRow_transactions (P : Helpers.ParsedTransaction -> Prop)
    (rows : list Icici.Row) (s : Icici.Segmenter) :
  (forall cur, Forall P (Icici.finalize cur)) ->
  Forall P (Icici.transactions s) ->
  Forall P (Icici.transactions (fold_left Icici.stepRow rows s)).
Proof.
  intros Hfin. revert s.
  induction rows as [|row rows IH]; intros s Hs; simpl.
  - assumption.
  - apply IH. apply stepTexts_transactions; assumption.
Qed.

Lemma segmentRows_all (P : Helpers.ParsedTransaction -> Prop)
    (rows : list Icici.Row) :
  (forall cur, Forall P (Icici.finalize cur)) ->
  Forall P (Icici.segmentRows rows).
Proof.
  intros Hfin. unfold Icici.segmentRows. cbv zeta.
  apply Forall_app. split; [|apply Hfin].
  apply fold_stepRow_transactions; [assumption | constructor].
Qed.

(** C1. Whatever rows the segmenter processes, every record that it pushes
    has a date, an amount and a cleaned description that is not empty; a
    transaction that lacks its date or its amount when it is finished (at
    the next date anchor or at the end of the page) gives no record. *)
Theorem emitted_records_are_complete :
  (forall rows : list Icici.Row,
     Forall completeRecord (Icici.segmentRows rows)) /\
  (forall items : list Icici.TextItem,
     Forall completeRecord (Icici.extractTransactionsFromPage items)) /\
  (forall parts amount_ type__,
     Icici.finalize
       (Some {| Icici.date := None; Icici.descriptionParts := parts;
                Icici.amount := amount_; Icici.type_ := type__ |}) = []) /\
  (forall date_ parts type__,
     Icici.finalize
       (Some {| Icici.date := date_; Icici.descriptionParts := parts;
                Icici.amount := None; Icici.type_ := type__ |}) = []).
Proof.
  split; [|split; [|split]].
  - intros rows. apply segmentRows_all, finalize_complete.
  - intros items. apply segmentRows_all, finalize_complete.
  - reflexivity.
  - intros [d|] parts type__; reflexivity.
Qed.

(** The segmenter before the first row. *)
Definition freshSegmenter : Icici.Segmenter :=
  {| Icici.transactions := []; Icici.currentTransaction := None |}.

(** No text of the row is a DR/CR token. *)
Definition noTypeToken (row : Icici.Row) : Prop :=
  Forall (fun text => Regex.test Icici.typePattern text = false)
         (Icici.rowTexts row).

(** The row holds a date: it opens a transaction. *)
Definition isHeader (row : Icici.Row) : Prop :=
  Icici.findDateIndex 0 (Icici.rowTexts row) <> None.

(** The row holds no date: it continues the open transaction. *)
Definition isContinuation (row : Icici.Row) : Prop :=
  Icici.findDateIndex 0 (Icici.rowTexts row) = None.

Lemma headerToken_keeps_no_type (c : Icici.OpenTransaction) (text : string) :
  Regex.test Icici.typePattern text = false ->
  Icici.type_ c = None ->
  Icici.type_ (Icici.headerToken c text) = None.
Proof.
  intros Ht Hc. unfold Icici.headerToken. rewrite Ht.
  destruct (Regex.test Icici.amountPattern text &&
            Icici.noAmount (Icici.amount c)); [exact Hc|].
  destruct (JS.truthyStr text && (1 <? String.length text)%nat); exact Hc.
Qed.

Lemma headerLoop_keeps_no_type (dateIndex : nat) (texts : list string) :
  Forall (fun text => Regex.test Icici.typePattern text = false) texts ->
  forall (i : nat) (c : Icici.OpenTransaction),
    Icici.type_ c = None ->
    Icici.type_ (Icici.headerLoop dateIndex i texts c) = None.
Proof.
  induction 1 as [|text texts Ht _ IH]; intros i c Hc; simpl.
  - exact Hc.
  - destruct (i =? dateIndex)%nat.
    + apply IH, Hc.
    + apply IH, headerToken_keeps_no_type; assumption.
Qed.

Lemma continuationToken_keeps_no_type (c : Icici.OpenTransaction)
    (text : string) :
  Regex.test Icici.typePattern text = false ->
  Icici.type_ c = None ->
  Icici.type_ (Icici.continuationToken c text) = None.
Proof.
  intros Ht Hc. unfold Icici.continuationToken. rewrite Ht. simpl.
  destruct (Regex.test Icici.amountPattern text &&
            Icici.noAmount (Icici.amount c)); [exact Hc|].
  match goal with |- context [if ?b then _ else _] => destruct b end;
    exact Hc.
Qed.

Lemma continuation_keeps_no_type (texts : list string) :
  Forall (fun text => Regex.test Icici.typePattern text = false) texts ->
  forall c : Icici.OpenTransaction,
    Icici.type_ c = None ->
    Icici.type_ (fold_left Icici.continuationToken texts c) = None.
Proof.
  induction 1 as [|text texts Ht _ IH]; intros c Hc; simpl.
  - exact Hc.
  - apply IH, continuationToken_keeps_no_type; assumption.
Qed.

(** A row with a date closes the open transaction and opens the next. *)
Lemma stepRow_header (s : Icici.Segmenter) (row : Icici.Row) :
  isHeader row ->
  exists dateIndex,
    Icici.stepRow s row =
    {| Icici.transactions :=
         Icici.transactions s ++ Icici.finalize (Icici.currentTransaction s);
       Icici.currentTransaction :=
         Some (Icici.startTransaction dateIndex (Icici.rowTexts row)) |}.
Proof.
  unfold isHeader, Icici.stepRow, Icici.stepTexts. intros H.
  destruct (Icici.rowTexts row) as [|t texts]; [contradiction H; reflexivity|].
  destruct (Icici.findDateIndex 0 (t :: texts)) as [di|];
    [|contradiction H; reflexivity].
  exists di. reflexivity.
Qed.

(** Rows without a date and without a DR/CR token leave the output as it is
    and the open transaction without a type. *)
Lemma fold_continuation (rows : list Icici.Row) :
  Forall isContinuation rows ->
  Forall noTypeToken rows ->
  forall (out : list Helpers.ParsedTransaction) (c : Icici.OpenTransaction),
    Icici.type_ c = None ->
    exists c',
      fold_left Icici.stepRow rows
        {| Icici.transactions := out; Icici.currentTransaction := Some c |}
      = {| Icici.transactions := out; Icici.currentTransaction := Some c' |} /\
      Icici.type_ c' = None.
Proof.
  induction rows as [|row rows IH]; intros Hcont Hno out c Hc; simpl.
  - exists c. auto.
  - inversion Hcont as [|? ? Hrow Hrows]; subst.
    inversion Hno as [|? ? Hrow' Hrows']; subst.
    unfold Icici.stepRow at 2. unfold Icici.stepTexts.
    unfold isContinuation in Hrow. unfold noTypeToken in Hrow'.
    destruct (Icici.rowTexts row) as [|t texts] eqn:Et.
    + apply IH; assumption.
    + rewrite Hrow. simpl Icici.currentTransaction. simpl Icici.transactions.
      apply IH; try assumption.
      apply continuation_keeps_no_type; assumption.
Qed.

Lemma finalize_default_type (c : Icici.OpenTransaction) :
  Icici.type_ c = None ->
  Forall (fun t => Helpers.pt_type t = Helpers.DR) (Icici.finalize (Some c)).
Proof.
  intros Hc. unfold Icici.finalize.
  destruct (Icici.date c) as [d|]; [|constructor].
  destruct (Icici.amount c) as [a|]; [|constructor].
  destruct (JS.truthyStr d && JS.truthyNum a); [|constructor]. cbv zeta.
  match goal with |- context [if ?b then _ else _] => destruct b end;
    [|constructor].
  constructor; [|constructor]. simpl. rewrite Hc. reflexivity.
Qed.

Lemma segmentRows_fold (rows : list Icici.Row) :
  Icici.segmentRows rows =
  Icici.transactions (fold_left Icici.stepRow rows freshSegmenter) ++
  Icici.finalize
    (Icici.currentTransaction (fold_left Icici.stepRow rows freshSegmenter)).
Proof. reflexivity. Qed.

(** C9. Take the transaction opened by a row with a date and continued by
    the rows without a date that follow it.  When no text of these rows is a
    DR/CR token, the open transaction has no type, and the record that it
    gives when it is finished, at the end of the page or at the next row
    with a date, has the type "DR". *)
Theorem default_type_is_DR :
  forall (before : list Icici.Row) (header : Icici.Row)
         (continuation : list Icici.Row),
    isHeader header ->
    Forall isContinuation continuation ->
    noTypeToken header ->
    Forall noTypeToken continuation ->
    exists c : Icici.OpenTransaction,
      Icici.type_ c = None /\
      Forall (fun t => Helpers.pt_type t = Helpers.DR)
             (Icici.finalize (Some c)) /\
      Icici.segmentRows (before ++ header :: continuation) =
        Icici.segmentRows before ++ Icici.finalize (Some c) /\
      (forall next : Icici.Row,
         isHeader next ->
         Icici.transactions
           (fold_left Icici.stepRow
                      (before ++ header :: continuation ++ [next])
                      freshSegmenter) =
         Icici.segmentRows before ++ Icici.finalize (Some c)).
Proof.
  intros before header continuation Hh Hc Hnh Hnc.
  destruct (stepRow_header (fold_left Icici.stepRow before freshSegmenter)
                           header Hh) as [di Hstep].
  assert (Icici.type_ (Icici.startTransaction di (Icici.rowTexts header))
          = None) as Hstart.
  { unfold Icici.startTransaction.
    apply headerLoop_keeps_no_type; [exact Hnh | reflexivity]. }
  destruct (fold_continuation continuation Hc Hnc
              (Icici.transactions (fold_left Icici.stepRow before freshSegmenter)
               ++ Icici.finalize
                    (Icici.currentTransaction
                       (fold_left Icici.stepRow before freshSegmenter)))
              (Icici.startTransaction di (Icici.rowTexts header)) Hstart)
    as [c [Hfold Htype]].
  exists c. split; [exact Htype|]. split; [apply finalize_default_type, Htype|].
  split.
  - rewrite (segmentRows_fold (before ++ header :: continuation)).
    rewrite fold_left_app. simpl fold_left. rewrite Hstep, Hfold.
    cbn [Icici.transactions Icici.currentTransaction].
    rewrite (segmentRows_fold before). reflexivity.
  - intros next Hnext.
    rewrite fold_left_app. simpl fold_left. rewrite Hstep.
    rewrite fold_left_app. rewrite Hfold. simpl fold_left.
    destruct (stepRow_header
                {| Icici.transactions :=
                     Icici.transactions
                       (fold_left Icici.stepRow before freshSegmenter) ++
                     Icici.finalize
                       (Icici.currentTransaction
                          (fold_left Icici.stepRow before freshSegmenter));
                   Icici.currentTransaction := Some c |} next Hnext)
      as [dj Hstep'].
    rewrite Hstep'. cbn [Icici.transactions Icici.currentTransaction].
    rewrite (segmentRows_fold before). reflexivity.
Qed.

Definition headerWithoutType : Icici.Row :=
  [ {| Icici.str_ := "15-03-2024"; Icici.x := 0; Icici.y := 700 |};
    {| Icici.str_ := "UPI/NETFLIX/123"; Icici.x := 40; Icici.y := 700 |};
    {| Icici.str_ := "199.00"; Icici.x := 200; Icici.y := 700 |} ].

Definition continuationWithoutType : Icici.Row :=
  [ {| Icici.str_ := "YES BANK"; Icici.x := 40; Icici.y := 688 |} ].

(** Witness for C9: a header row and one continuation row, neither with a
    DR/CR token; every record of the page has the type "DR". *)
Lemma default_type_is_DR_witness :
  Forall (fun t => Helpers.pt_type t = Helpers.DR)
         (Icici.segmentRows
            ([] ++ headerWithoutType :: [continuationWithoutType])).
Proof.
  destruct (default_type_is_DR [] headerWithoutType [continuationWithoutType])
    as [c [_ [Hdr [Hseg _]]]].
  - unfold isHeader. vm_compute. discriminate.
  - constructor; [vm_compute; reflexivity | constructor].
  - unfold noTypeToken.
    repeat (constructor; [vm_compute; reflexivity|]). constructor.
  - constructor; [|constructor]. unfold noTypeToken.
    repeat (constructor; [vm_compute; reflexivity|]). constructor.
  - rewrite Hseg. exact Hdr.
Defined.

(** ** The pipeline's fallback *)

Lemma fallbackClassification_source (description : string) (amount : Q) :
  ML.source_ (ML.cp_confidence (ML.fallbackClassification description amount))
  = ML.rules.
Proof. reflexivity. Qed.

Lemma fallbackMerchantExtraction_source (description : string) :
  ML.source_ (ML.mp_confidence (ML.fallbackMerchantExtraction description))
  = ML.rules.
Proof. reflexivity. Qed.

Lemma merchant_source (config : ML.MLServiceConfig) (services : ML.Services)
    (description : string) (amount : Q) :
  let src := ML.source_ (ML.mp_confidence
               (ML.extractMerchantWithFallback config services
                                               description amount)) in
  src = ML.ml \/ src = ML.rules.
Proof.
  unfold ML.extractMerchantWithFallback, ML.merchantAttempt. cbv zeta.
  destruct (ML.useML config && ML.merchantExtractorReady services).
  - destruct (ML.extractMerchantML services description (Some amount))
      as [r|m]; cbn [bind].
    + destruct (ML.shouldUseMlResult _ _).
      * left. reflexivity.
      * right. destruct (ML.fallbackToRules_ config); reflexivity.
    + right. destruct (ML.fallbackToRules_ config); reflexivity.
  - right. destruct (ML.fallbackToRules_ config); reflexivity.
Qed.

Lemma classifier_failure_source (config : ML.MLServiceConfig)
    (services : ML.Services) (preprocessed : ML.MLPreprocessedTransaction)
    (description : string) (amount : Q) :
  (exists m, ML.classify services preprocessed = Throw m) ->
  ML.source_ (ML.cp_confidence
    (ML.classifyWithFallback config services preprocessed description amount))
  = ML.rules.
Proof.
  intros Hthrow. unfold ML.classifyWithFallback, ML.classifyAttempt.
  destruct (ML.useML config && ML.classifierReady services).
  - destruct Hthrow as [m Hm]. rewrite Hm. cbn [bind].
    destruct (ML.fallbackToRules_ config); reflexivity.
  - destruct (ML.fallbackToRules_ config); reflexivity.
Qed.

Lemma overall_source_with_rules_category (mc cc : ML.MLConfidence) :
  ML.source_ cc = ML.rules ->
  ML.source_ mc = ML.ml \/ ML.source_ mc = ML.rules ->
  let fused := ML.calculateOverallConfidence mc cc in
  ML.source_ fused <> ML.ml /\
  (ML.source_ fused = ML.rules <-> ML.source_ mc = ML.rules) /\
  (ML.source_ fused = ML.hybrid <-> ML.source_ mc = ML.ml).
Proof.
  intros Hc Hm. unfold ML.calculateOverallConfidence. cbv zeta.
  cbn [ML.createMLConfidence ML.source_]. rewrite Hc.
  destruct Hm as [Hm|Hm]; rewrite Hm;
    intuition (try discriminate; congruence).
Qed.

(** C6, as the code has it.  No exception escapes [enrichTransaction] for
    any input: it always returns an enrichment result.  If the classifier
    throws in this enrichment, that is, on the transaction that the
    preprocessor returns for this input, whatever it does on others, the
    category of that result comes from the rules (its confidence has the
    source "rules"), and the overall confidence is never "ml": its source
    is "rules" exactly when the merchant came from the rules as well, and
    "hybrid" exactly when the merchant came from the learned path. *)
Theorem enrichTransaction_survives_classifier_failure :
  forall (config : ML.MLServiceConfig) (services : ML.Services)
         (description : string) (amount : Q) (type_ : Helpers.TxType),
    (exists e,
       ML.enrichTransaction config services description amount type_ = Ok e) /\
    ((forall p,
        ML.preprocess services description amount type_ = Ok p ->
        exists m, ML.classify services p = Throw m) ->
     exists e,
       ML.enrichTransaction config services description amount type_ = Ok e /\
       ML.source_ (ML.cp_confidence (ML.e_category e)) = ML.rules /\
       ML.source_ (ML.e_confidence e) <> ML.ml /\
       (ML.source_ (ML.e_confidence e) = ML.rules <->
        ML.source_ (ML.mp_confidence (ML.e_merchant e)) = ML.rules) /\
       (ML.source_ (ML.e_confidence e) = ML.hybrid <->
        ML.source_ (ML.mp_confidence (ML.e_merchant e)) = ML.ml)).
Proof.
  intros config services description amount type_.
  unfold ML.enrichTransaction, ML.enrichBody.
  destruct (negb (ML.isReady services)).
  - cbn [tryCatch]. split; [eexists; reflexivity|].
    intros _. eexists. split; [reflexivity|].
    cbn [ML.fallbackToRules ML.e_category ML.e_confidence ML.e_merchant].
    rewrite fallbackClassification_source, fallbackMerchantExtraction_source.
    cbn. intuition (try discriminate; congruence).
  - destruct (ML.preprocess services description amount type_)
      as [preprocessed|m]; cbn [bind tryCatch].
    + split; [eexists; reflexivity|].
      intros Hthrow. specialize (Hthrow preprocessed eq_refl).
      eexists. split; [reflexivity|].
      cbn [ML.e_category ML.e_confidence ML.e_merchant].
      split; [apply classifier_failure_source, Hthrow|].
      apply overall_source_with_rules_category.
      * apply classifier_failure_source, Hthrow.
      * apply merchant_source.
    + split; [eexists; reflexivity|].
      intros _. eexists. split; [reflexivity|].
      cbn [ML.fallbackToRules ML.e_category ML.e_confidence ML.e_merchant].
      rewrite fallbackClassification_source, fallbackMerchantExtraction_source.
      cbn. intuition (try discriminate; congruence).
Qed.

(** A pipeline whose classifier always throws; its merchant extractor is
    the extractor of the repository, with a language-processing path that
    finds no entity. *)
Definition servicesWithFailingClassifier : ML.Services :=
  {| ML.preprocessorReady := true;
     ML.preprocess := fun description amount type_ =>
       Ok {| ML.originalDescription := description;
             ML.cleanedDescription := JS.toLowerCase description;
             ML.tokens := [];
             ML.features := [];
             ML.pp_amount := amount;
             ML.pp_type := type_ |};
     ML.classifierReady := true;
     ML.classify := fun _ => Throw "classifier failure";
     ML.merchantExtractorReady := true;
     ML.extractMerchantML :=
       ML.extractMerchantEnhanced
         (fun _ _ => Ok (ML.unknownMerchant (2 # 10) ML.byMl)) |}.

(** A pipeline whose classifier throws on the Netflix payment only and
    answers "Shopping" with confidence 0.9 on every other transaction. *)
Definition servicesFailingOnNetflix : ML.Services :=
  {| ML.preprocessorReady := true;
     ML.preprocess := ML.preprocess servicesWithFailingClassifier;
     ML.classifierReady := true;
     ML.classify := fun p =>
       if String.eqb (ML.cleanedDescription p) "upi/netflix/123"
       then Throw "classifier failure"
       else Ok {| ML.cr_category := "Shopping";
                  ML.cr_subcategory := None;
                  ML.cr_confidence := 9 # 10;
                  ML.cr_alternatives := None |};
     ML.merchantExtractorReady := true;
     ML.extractMerchantML :=
       ML.extractMerchantML servicesWithFailingClassifier |}.

(** Witness for C6: the Netflix payment through that pipeline. *)
Lemma enrichTransaction_classifier_failure_witness :
  exists e,
    ML.enrichTransaction ML.DEFAULT_ML_CONFIG servicesFailingOnNetflix
                         "UPI/NETFLIX/123" 199 Helpers.debit = Ok e /\
    ML.source_ (ML.cp_confidence (ML.e_category e)) = ML.rules /\
    ML.source_ (ML.e_confidence e) <> ML.ml /\
    (ML.source_ (ML.e_confidence e) = ML.rules <->
     ML.source_ (ML.mp_confidence (ML.e_merchant e)) = ML.rules) /\
    (ML.source_ (ML.e_confidence e) = ML.hybrid <->
     ML.source_ (ML.mp_confidence (ML.e_merchant e)) = ML.ml).
Proof.
  apply (enrichTransaction_survives_classifier_failure
           ML.DEFAULT_ML_CONFIG servicesFailingOnNetflix
           "UPI/NETFLIX/123" 199 Helpers.debit).
  intros p Hp. injection Hp as <-.
  exists "classifier failure". reflexivity.
Defined.

(** Counterexample to C6 as stated: the classifier throws, the extractor
    recognises the merchant with confidence 0.95, and the overall confidence
    has the source "hybrid", not "rules". *)
Lemma enrichTransaction_hybrid_when_classifier_throws :
  (forall p, ML.classify servicesWithFailingClassifier p
             = Throw "classifier failure") /\
  exists e,
    ML.enrichTransaction ML.DEFAULT_ML_CONFIG servicesWithFailingClassifier
                         "UPI/NETFLIX/123" 199 Helpers.debit = Ok e /\
    ML.mp_merchant (ML.e_merchant e) = "NETFLIX" /\
    (ML.score (ML.mp_confidence (ML.e_merchant e)) == 95 # 100)%Q /\
    ML.source_ (ML.mp_confidence (ML.e_merchant e)) = ML.ml /\
    ML.source_ (ML.cp_confidence (ML.e_category e)) = ML.rules /\
    ML.source_ (ML.e_confidence e) = ML.hybrid /\
    ML.source_ (ML.e_confidence e) <> ML.rules.
Proof.
  split; [reflexivity|].
  eexists. split; [vm_compute; reflexivity|].
  split; [reflexivity|]. split; [reflexivity|]. split; [reflexivity|].
  split; [reflexivity|]. split; [reflexivity | discriminate].
Qed.

(** ** The row reconstructor *)

(** Lists whose neighbours are related. *)
Inductive Chain {A : Type} (R : A -> A -> Prop) : list A -> Prop :=
| Chain_nil : Chain R []
| Chain_one (a : A) : Chain R [a]
| Chain_cons (a b : A) (l : list A) :
    R a b -> Chain R (b :: l) -> Chain R (a :: b :: l).

Section ChainFacts.

Context {A : Type}.
Variable R : A -> A -> Prop.

Lemma Chain_tail (a : A) (l : list A) : Chain R (a :: l) -> Chain R l.
Proof.
  intros H. inversion H; subst; [constructor | assumption].
Qed.

Lemma Chain_app_r (l1 l2 : list A) : Chain R (l1 ++ l2) -> Chain R l2.
Proof.
  induction l1 as [|a l1 IH]; simpl; intros H.
  - exact H.
  - apply IH. eapply Chain_tail, H.
Qed.

Lemma Chain_middle (l1 : list A) (a b : A) (l2 : list A) :
  Chain R (l1 ++ a :: b :: l2) -> R a b.
Proof.
  intros H. apply Chain_app_r in H. inversion H; subst. assumption.
Qed.

(** Adding an element behind the last one. *)
Lemma Chain_snoc (l : list A) (a b : A) :
  Chain R (l ++ [a]) -> R a b -> Chain R ((l ++ [a]) ++ [b]).
Proof.
  induction l as [|c l IH]; simpl; intros H Hab.
  - constructor; [assumption | constructor].
  - destruct l as [|d l]; simpl in *.
    + inversion H; subst. constructor; [assumption|].
      constructor; [assumption | constructor].
    + inversion H; subst. constructor; [assumption|]. apply IH; assumption.
Qed.

(** Replacing the last element by one that its neighbour accepts too. *)
Lemma Chain_replace_last (l : list A) (c c' : A) :
  Chain R (l ++ [c]) -> (forall r, R r c -> R r c') -> Chain R (l ++ [c']).
Proof.
  induction l as [|a l IH]; simpl; intros H Hc.
  - constructor.
  - destruct l as [|b l]; simpl in *.
    + inversion H; subst. constructor; [auto | constructor].
    + inversion H; subst. constructor; [assumption|]. apply IH; assumption.
Qed.

Lemma Chain_impl (R' : A -> A -> Prop) (l : list A) :
  (forall a b, R a b -> R' a b) -> Chain R l -> Chain R' l.
Proof.
  intros Himp. induction 1; constructor; auto.
Qed.

End ChainFacts.

Arguments Chain_tail {A R a l}.
Arguments Chain_app_r {A R} l1 {l2}.
Arguments Chain_middle {A R} l1 {a b l2}.
Arguments Chain_snoc {A R l a b}.
Arguments Chain_replace_last {A R l c} c'.
Arguments Chain_impl {A R R' l}.

Section Rows.

Import Icici.
Local Open Scope Z_scope.

(** The rounded height that the sweep compares. *)
Definition rounded (i : TextItem) : Z := round (y i).

(** Neighbours that the sweep keeps in one row. *)
Definition near (a b : TextItem) : Prop :=
  Z.abs (rounded b - rounded a) <= Y_TOLERANCE.

(** Neighbours between which the sweep starts a new row. *)
Definition far (a b : TextItem) : Prop :=
  Y_TOLERANCE < Z.abs (rounded b - rounded a).

(** [P] holds between the last item of a row and the first of the next. *)
Definition rowBreak (P : TextItem -> TextItem -> Prop) (r1 r2 : Row) : Prop :=
  exists p a b q, r1 = p ++ [a] /\ r2 = b :: q /\ P a b.

(** The order that the comparator asks of two neighbours. *)
Definition inOrder (a b : TextItem) : Prop := (compareItems a b <= 0)%Q.

(** *** The sort *)

Lemma insertItem_Permutation (a : TextItem) (l : list TextItem) :
  Permutation (insertItem a l) (a :: l).
Proof.
  induction l as [|b l IH]; simpl.
  - apply Permutation_refl.
  - destruct (Qle_bool (compareItems a b) 0).
    + apply Permutation_refl.
    + eapply Permutation_trans; [apply perm_skip, IH | apply perm_swap].
Qed.

Lemma sortItems_Permutation (items : list TextItem) :
  Permutation (sortItems items) items.
Proof.
  induction items as [|a items IH]; simpl.
  - constructor.
  - eapply Permutation_trans; [apply insertItem_Permutation|].
    apply perm_skip, IH.
Qed.

Lemma Qabs_swap (p q : Q) : (Qabs (p - q) == Qabs (q - p))%Q.
Proof.
  rewrite <- (Qabs_opp (p - q)). apply Qabs_wd. ring.
Qed.

Lemma Qle_bool_wd {p q : Q} (r : Q) :
  (p == q)%Q -> Qle_bool p r = Qle_bool q r.
Proof.
  intros E. destruct (Qle_bool q r) eqn:H.
  - apply Qle_bool_iff. rewrite E. apply Qle_bool_iff, H.
  - destruct (Qle_bool p r) eqn:H'; [|reflexivity].
    apply Qle_bool_iff in H'. rewrite E in H'.
    apply Qle_bool_iff in H'. congruence.
Qed.

(** The comparator is antisymmetric. *)
Lemma compareItems_swap (a b : TextItem) :
  (compareItems b a == - compareItems a b)%Q.
Proof.
  unfold compareItems. cbv zeta. unfold Qgt_bool, JSNum.Qlt_bool.
  rewrite (Qle_bool_wd 3 (Qabs_swap (y b) (y a))).
  destruct (negb (Qle_bool (Qabs (y a - y b)) 3)); ring.
Qed.

Lemma not_inOrder_swap (a b : TextItem) :
  Qle_bool (compareItems a b) 0 = false -> inOrder b a.
Proof.
  intros H. unfold inOrder. rewrite compareItems_swap.
  assert (0 < compareItems a b)%Q as Hlt.
  { apply Qnot_le_lt. intros Hle. apply Qle_bool_iff in Hle. congruence. }
  lra.
Qed.

Lemma insertItem_Chain (a : TextItem) (l : list TextItem) :
  Chain inOrder l -> Chain inOrder (insertItem a l).
Proof.
  induction l as [|b l IH]; simpl; intros H.
  - constructor.
  - destruct (Qle_bool (compareItems a b) 0) eqn:E.
    + constructor; [apply Qle_bool_iff, E | exact H].
    + specialize (IH (Chain_tail H)).
      destruct l as [|c l]; simpl in *.
      * constructor; [apply not_inOrder_swap, E | constructor].
      * destruct (Qle_bool (compareItems a c) 0) eqn:E'.
        -- constructor; [apply not_inOrder_swap, E | exact IH].
        -- inversion H; subst. constructor; assumption.
Qed.

(** In the sorted sequence every item and its successor are in the
    comparator's order. *)
Lemma sortItems_Chain (items : list TextItem) :
  Chain inOrder (sortItems items).
Proof.
  induction items as [|a items IH]; simpl.
  - constructor.
  - apply insertItem_Chain, IH.
Qed.

(** *** The sweep *)

(** What holds of the rows closed so far, the row being filled and the last
    rounded height while the sweep runs. *)
Definition sweepState (rows : list Row) (cur : Row) (lastY : Z) : Prop :=
  (rows = [] /\ cur = [] /\ lastY = -1) \/
  (exists p a,
     cur = p ++ [a] /\ lastY = rounded a /\ lastY <> -1 /\
     Forall (fun r => r <> []) rows /\
     Forall (Chain near) (rows ++ [cur]) /\
     Chain (rowBreak far) (rows ++ [cur])).

(** Rows as the sweep leaves them: none is empty, within a row neighbours
    are near, and between a row and the next the heights are far apart. *)
Definition wellGrouped (rows : list Row) : Prop :=
  Forall (fun r => r <> []) rows /\
  Forall (Chain near) rows /\
  Chain (rowBreak far) rows.

Lemma snoc_nonempty {A : Type} (p : list A) (a : A) : p ++ [a] <> [].
Proof. destruct p; discriminate. Qed.

Lemma push_current (rows : list Row) (p : Row) (a : TextItem) :
  match p ++ [a] with
  | [] => rows
  | _ :: _ => rows ++ [p ++ [a]]
  end = rows ++ [p ++ [a]].
Proof. destruct p; reflexivity. Qed.

Lemma rowBreak_extend (P : TextItem -> TextItem -> Prop) (r cur : Row)
    (item : TextItem) :
  rowBreak P r cur -> rowBreak P r (cur ++ [item]).
Proof.
  intros [p [a [b [q [Hr [Hc Hp]]]]]]. subst.
  exists p, a, b, (q ++ [item]). auto.
Qed.

Lemma groupLoop_spec (items : list TextItem) :
  Forall (fun i => rounded i <> -1) items ->
  forall (rows : list Row) (cur : Row) (lastY : Z),
    sweepState rows cur lastY ->
    List.concat (groupLoop items rows cur lastY)
      = List.concat rows ++ cur ++ items /\
    wellGrouped (groupLoop items rows cur lastY).
Proof.
  induction 1 as [|item rest Hitem _ IH]; intros rows cur lastY Hstate.
  - simpl.
    destruct Hstate
      as [[-> [-> _]] | [p [a [-> [_ [_ [Hne [Hch Hbr]]]]]]]].
    + split; [reflexivity|]. repeat split; constructor.
    + rewrite push_current. split.
      * rewrite concat_app. simpl. rewrite !app_nil_r. reflexivity.
      * split; [|split; assumption].
        apply Forall_app. split; [assumption|].
        constructor; [apply snoc_nonempty | constructor].
  - cbn [groupLoop]. cbv zeta. fold (rounded item).
    destruct Hstate
      as [[-> [-> ->]] | [p [a [-> [-> [Hlast [Hne [Hch Hbr]]]]]]]].
    + simpl orb.
      destruct (IH [] ([] ++ [item]) (rounded item)) as [Hcat Hwg].
      { right. exists [], item. repeat split; try assumption.
        - constructor.
        - constructor; constructor.
        - constructor. }
      split; [exact Hcat | exact Hwg].
    + apply Z.eqb_neq in Hlast. rewrite Hlast. simpl orb.
      apply Forall_app in Hch. destruct Hch as [Hch Hcur].
      inversion Hcur as [|? ? Hcur' _]; subst.
      destruct (Z.abs (rounded item - rounded a) <=? Y_TOLERANCE) eqn:E.
      * apply Z.leb_le in E.
        destruct (IH rows ((p ++ [a]) ++ [item]) (rounded item))
          as [Hcat Hwg].
        { right. exists (p ++ [a]), item. repeat split; try assumption.
          - apply Forall_app. split; [assumption|].
            constructor; [|constructor].
            apply Chain_snoc; assumption.
          - apply (Chain_replace_last _ Hbr).
            intros r. apply rowBreak_extend. }
        split; [|exact Hwg].
        rewrite Hcat, <- !app_assoc. reflexivity.
      * apply Z.leb_gt in E. rewrite push_current.
        destruct (IH (rows ++ [p ++ [a]]) [item] (rounded item))
          as [Hcat Hwg].
        { right. exists [], item. repeat split; try assumption.
          - apply Forall_app. split; [assumption|].
            constructor; [apply snoc_nonempty | constructor].
          - apply Forall_app. split.
            + apply Forall_app. split; [assumption|].
              constructor; [assumption | constructor].
            + constructor; constructor.
          - apply Chain_snoc; [assumption|].
            exists p, a, item, []. auto. }
        split; [|exact Hwg].
        rewrite Hcat, concat_app. simpl.
        rewrite !app_nil_r, <- !app_assoc. reflexivity.
Qed.

(** The sweep keeps the sequence and groups it well. *)
Lemma groupRows_spec (sorted : list TextItem) :
  Forall (fun i => rounded i <> -1) sorted ->
  List.concat (groupRows sorted) = sorted /\ wellGrouped (groupRows sorted).
Proof.
  intros H. unfold groupRows.
  destruct (groupLoop_spec sorted H [] [] (-1)) as [Hcat Hwg].
  - left. auto.
  - split; [exact Hcat | exact Hwg].
Qed.

(** *** Descending rows *)

Lemma round_bounds (q : Q) :
  (inject_Z (round q) <= q + (1 # 2) /\
   q + (1 # 2) < inject_Z (round q) + 1)%Q.
Proof.
  unfold round. split.
  - apply Qfloor_le.
  - pose proof (Qlt_floor (q + (1 # 2))) as H.
    rewrite inject_Z_plus in H. exact H.
Qed.

(** Heights within 3 of each other round to within 3 of each other. *)
Lemma close_heights_round_close (p q : Q) :
  (Qabs (p - q) <= 3)%Q -> Z.abs (round q - round p) <= 3.
Proof.
  intros H. apply Qabs_Qle_condition in H. destruct H as [H1 H2].
  destruct (round_bounds p) as [Hp1 Hp2].
  destruct (round_bounds q) as [Hq1 Hq2].
  assert (inject_Z (round p) < inject_Z (round q + 4))%Q as A1.
  { rewrite inject_Z_plus. change (inject_Z 4) with 4%Q. lra. }
  assert (inject_Z (round q) < inject_Z (round p + 4))%Q as A2.
  { rewrite inject_Z_plus. change (inject_Z 4) with 4%Q. lra. }
  rewrite <- Zlt_Qlt in A1, A2. lia.
Qed.

(** Where a row ends, the comparator's order makes the next row lie lower. *)
Lemma far_inOrder_descends (a b : TextItem) :
  far a b -> inOrder a b -> (y b < y a)%Q.
Proof.
  unfold far, rounded, inOrder, compareItems, Y_TOLERANCE. cbv zeta.
  intros Hfar Hord.
  destruct (Qgt_bool (Qabs (y a - y b)) 3) eqn:E.
  - unfold Qgt_bool in E. apply Qlt_bool_true in E.
    destruct (Qlt_le_dec (y b) (y a)) as [Hlt|Hle]; [exact Hlt|].
    exfalso.
    assert (y a - y b == 0)%Q as Hz by lra.
    rewrite Hz in E. revert E. apply Qle_not_lt. discriminate.
  - unfold Qgt_bool in E. apply Qlt_bool_false in E.
    apply close_heights_round_close in E. lia.
Qed.

Lemma breaks_descend (rows : list Row) :
  Chain (rowBreak far) rows ->
  Chain inOrder (List.concat rows) ->
  Chain (rowBreak (fun a b => far a b /\ (y b < y a)%Q)) rows.
Proof.
  induction 1 as [|r|r1 r2 rest Hbr Hrest IH]; intros Hord.
  - constructor.
  - constructor.
  - constructor.
    + destruct Hbr as [p [a [b [q [-> [-> Hfar]]]]]].
      exists p, a, b, q. repeat split; try assumption.
      apply far_inOrder_descends; [assumption|].
      simpl in Hord. rewrite <- app_assoc in Hord. simpl in Hord.
      exact (Chain_middle p Hord).
    + apply IH. simpl in Hord. exact (Chain_app_r r1 Hord).
Qed.

End Rows.

(** Two fragments lie in one row of [rows]. *)
Definition sameRow (rows : list Icici.Row) (a b : Icici.TextItem) : Prop :=
  exists r, In r rows /\ In a r /\ In b r.

(** The grouping by tolerance as the specification words it: fragments at
    most 5 apart share a row, fragments more than 5 apart do not, and the
    rows descend. *)
Definition clustersByTolerance (items : list Icici.TextItem) : Prop :=
  let rows := Icici.reconstructRows items in
  (forall a b, In a items -> In b items ->
               (Qabs (Icici.y a - Icici.y b) <= 5)%Q -> sameRow rows a b) /\
  (forall a b, In a items -> In b items ->
               (5 < Qabs (Icici.y a - Icici.y b))%Q -> ~ sameRow rows a b) /\
  Chain (rowBreak (fun a b => (Icici.y b < Icici.y a)%Q)) rows.


Definition item (s : string) (x_ y_ : Q) : Icici.TextItem :=
  {| Icici.str_ := s; Icici.x := x_; Icici.y := y_ |}.

(** Three fragments whose heights step down by 4. *)
Definition chainPage : list Icici.TextItem :=
  [ item "a" 0 100; item "b" 10 96; item "c" 20 92 ].

(** Three fragments whose heights step down by 3, the lowest leftmost. *)
Definition splitPage : list Icici.TextItem :=
  [ item "A" 0 100; item "B" 10 97; item "C" (-5) 94 ].



(** ** Further properties: strings *)

Section Strings.

Lemma chars_str (l : list ascii) : JS.chars (JS.str l) = l.
Proof. apply list_ascii_of_string_of_list_ascii. Qed.

Lemma str_chars (s : string) : JS.str (JS.chars s) = s.
Proof. apply string_of_list_ascii_of_string. Qed.

Lemma lower_upper_char (c : ascii) :
  JS.lowerChar (JS.upperChar c) = JS.lowerChar c.
Proof. destruct c as [[] [] [] [] [] [] [] []]; reflexivity. Qed.

Lemma toLowerCase_toUpperCase (s : string) :
  JS.toLowerCase (JS.toUpperCase s) = JS.toLowerCase s.
Proof.
  unfold JS.toLowerCase, JS.toUpperCase. rewrite chars_str, map_map.
  f_equal. apply map_ext. exact lower_upper_char.
Qed.

Lemma dropSpaces_head (l : list ascii) :
  match JS.dropSpaces l with
  | c :: _ => JS.isSpace c = false
  | [] => True
  end.
Proof.
  induction l as [|c l IH]; simpl; [exact I|].
  destruct (JS.isSpace c) eqn:E; [exact IH | exact E].
Qed.

Lemma dropSpaces_fixed (l : list ascii) :
  match l with c :: _ => JS.isSpace c = false | [] => True end ->
  JS.dropSpaces l = l.
Proof.
  destruct l as [|c l]; simpl; [reflexivity|]. intros ->. reflexivity.
Qed.

Lemma dropSpaces_suffix (l : list ascii) :
  exists p, l = p ++ JS.dropSpaces l.
Proof.
  induction l as [|c l [p IH]]; simpl.
  - exists []. reflexivity.
  - destruct (JS.isSpace c).
    + exists (c :: p). simpl. f_equal. exact IH.
    + exists []. reflexivity.
Qed.

(** Trimming leaves no white space at either end, so that trimming again
    changes nothing. *)
Lemma trimChars_idempotent (l : list ascii) :
  JS.trimChars (JS.trimChars l) = JS.trimChars l.
Proof.
  unfold JS.trimChars.
  set (a := JS.dropSpaces l).
  set (b := JS.dropSpaces (rev a)).
  assert (JS.dropSpaces (rev b) = rev b) as E1.
  { apply dropSpaces_fixed.
    destruct (rev b) as [|c t] eqn:Er; [exact I|].
    destruct (dropSpaces_suffix (rev a)) as [p Hp]. fold b in Hp.
    assert (a = rev b ++ rev p) as Ha.
    { rewrite <- (rev_involutive a), Hp, rev_app_distr. reflexivity. }
    rewrite Er in Ha. simpl in Ha.
    pose proof (dropSpaces_head l) as Hh. fold a in Hh. rewrite Ha in Hh.
    exact Hh. }
  rewrite E1, rev_involutive.
  assert (JS.dropSpaces b = b) as E2.
  { apply dropSpaces_fixed. subst b. apply dropSpaces_head. }
  rewrite E2. reflexivity.
Qed.

Lemma trim_idempotent (s : string) : JS.trim (JS.trim s) = JS.trim s.
Proof.
  unfold JS.trim. rewrite chars_str, trimChars_idempotent. reflexivity.
Qed.

End Strings.

(** ** Further properties: the rule-based helpers *)

Lemma strict_determinePaymentMethod_lower (d d' : string) :
  JS.toLowerCase d = JS.toLowerCase d' ->
  Helpers.determinePaymentMethod d = Helpers.determinePaymentMethod d'.
Proof.
  intros H. unfold Helpers.determinePaymentMethod. cbv zeta.
  rewrite H. reflexivity.
Qed.

Lemma lenient_determinePaymentMethod_lower (d d' : string) :
  JS.toLowerCase d = JS.toLowerCase d' ->
  Lenient.determinePaymentMethod d = Lenient.determinePaymentMethod d'.
Proof.
  intros H. unfold Lenient.determinePaymentMethod. cbv zeta.
  rewrite H. reflexivity.
Qed.

Lemma lenient_isPersonalTransfer_lower (d d' m m' : string) :
  JS.toLowerCase d = JS.toLowerCase d' ->
  JS.toLowerCase m = JS.toLowerCase m' ->
  Lenient.isPersonalTransfer d m = Lenient.isPersonalTransfer d' m'.
Proof.
  intros Hd Hm. unfold Lenient.isPersonalTransfer. cbv zeta.
  rewrite Hd, Hm. reflexivity.
Qed.

Lemma strict_loop_description (d d' desc merch : string) (a : Q)
    (rules : list Helpers.CategoryRule) :
  Helpers.determinePaymentMethod d = Helpers.determinePaymentMethod d' ->
  Helpers.categorizeLoop d desc merch a rules =
  Helpers.categorizeLoop d' desc merch a rules.
Proof.
  intros H. induction rules as [|r rules IH]; cbn [Helpers.categorizeLoop].
  - rewrite H. reflexivity.
  - destruct (Helpers.ruleMatches r desc merch a); [|exact IH].
    rewrite H. reflexivity.
Qed.

Lemma lenient_loop_description (d d' m m' desc merch : string) (a : Q)
    (rules : list Helpers.CategoryRule) :
  Lenient.determinePaymentMethod d = Lenient.determinePaymentMethod d' ->
  Lenient.isPersonalTransfer d m = Lenient.isPersonalTransfer d' m' ->
  Lenient.categorizeLoop d m desc merch a rules =
  Lenient.categorizeLoop d' m' desc merch a rules.
Proof.
  intros H Hp. induction rules as [|r rules IH]; cbn [Lenient.categorizeLoop].
  - rewrite H, Hp. reflexivity.
  - destruct (Lenient.ruleMatches r desc merch a); [|exact IH].
    rewrite H. reflexivity.
Qed.

(** X1. Categorisation reads the description and the merchant only through
    their lower-case forms: two descriptions and two merchants that differ
    in case only get the same category, subcategory, payment method and
    recurrence, with any rule table, in both helper files. *)
Theorem categorizeTransaction_ignores_case :
  forall (d d' m m' : string) (a : Q) (rules : list Helpers.CategoryRule),
    JS.toLowerCase d = JS.toLowerCase d' ->
    JS.toLowerCase m = JS.toLowerCase m' ->
    Helpers.categorizeTransactionWith d m a rules =
    Helpers.categorizeTransactionWith d' m' a rules /\
    Lenient.categorizeTransactionWith d m a rules =
    Lenient.categorizeTransactionWith d' m' a rules /\
    Helpers.categorizeTransaction d m a =
    Helpers.categorizeTransaction d' m' a /\
    Lenient.categorizeTransaction d m a =
    Lenient.categorizeTransaction d' m' a.
Proof.
  intros d d' m m' a rules Hd Hm.
  assert (forall rs, Helpers.categorizeTransactionWith d m a rs =
                     Helpers.categorizeTransactionWith d' m' a rs) as Hs.
  { intros rs. unfold Helpers.categorizeTransactionWith. rewrite Hd, Hm.
    apply strict_loop_description, strict_determinePaymentMethod_lower, Hd. }
  assert (forall rs, Lenient.categorizeTransactionWith d m a rs =
                     Lenient.categorizeTransactionWith d' m' a rs) as Hl.
  { intros rs. unfold Lenient.categorizeTransactionWith. rewrite Hd, Hm.
    apply lenient_loop_description.
    - apply lenient_determinePaymentMethod_lower, Hd.
    - apply lenient_isPersonalTransfer_lower; assumption. }
  split; [apply Hs|]. split; [apply Hl|].
  split; [apply Hs | apply Hl].
Qed.

(** Witness for X1: a description and a merchant in two spellings. *)
Lemma categorizeTransaction_ignores_case_witness :
  Helpers.categorizeTransaction "UPI/Netflix/12" "Netflix" 199 =
  Helpers.categorizeTransaction "upi/NETFLIX/12" "NETFLIX" 199 /\
  Lenient.categorizeTransaction "UPI/Netflix/12" "Netflix" 199 =
  Lenient.categorizeTransaction "upi/NETFLIX/12" "NETFLIX" 199.
Proof.
  destruct (categorizeTransaction_ignores_case
              "UPI/Netflix/12" "upi/NETFLIX/12" "Netflix" "NETFLIX" 199
              Helpers.DEFAULT_CATEGORY_RULES eq_refl eq_refl)
    as [_ [_ [Hs Hl]]].
  split; assumption.
Defined.

(** The names that the normalisation table gives are in their final form. *)
Definition settled (r : string) : Prop :=
  3 <= String.length r /\ JS.trim r = r /\
  Helpers.normalizeMerchantName r Helpers.MERCHANT_NORMALIZATIONS = r.

Definition settledb (r : string) : bool :=
  (3 <=? String.length r) && String.eqb (JS.trim r) r &&
  String.eqb (Helpers.normalizeMerchantName r Helpers.MERCHANT_NORMALIZATIONS)
             r.

Lemma settledb_settled (r : string) : settledb r = true -> settled r.
Proof.
  unfold settledb, settled. rewrite !andb_true_iff, !String.eqb_eq.
  rewrite Nat.leb_le. tauto.
Qed.

Lemma lookup_In (table : list (string * string)) (key v : string) :
  Helpers.lookup table key = Some v -> In v (map snd table).
Proof.
  unfold Helpers.lookup.
  destruct (find _ table) as [p|] eqn:E; [|discriminate].
  intros H. injection H as <-. apply find_some in E.
  apply in_map, E.
Qed.

Lemma table_values_settled :
  Forall settled (map snd Helpers.MERCHANT_NORMALIZATIONS).
Proof.
  assert (forallb settledb (map snd Helpers.MERCHANT_NORMALIZATIONS) = true)
    as H by (vm_compute; reflexivity).
  rewrite forallb_forall in H. apply Forall_forall.
  intros v Hv. apply settledb_settled, H, Hv.
Qed.

Lemma table_values_truthy (v : string) :
  In v (map snd Helpers.MERCHANT_NORMALIZATIONS) -> JS.truthyStr v = true.
Proof.
  assert (forallb JS.truthyStr (map snd Helpers.MERCHANT_NORMALIZATIONS) = true)
    as H by (vm_compute; reflexivity).
  rewrite forallb_forall in H. apply H.
Qed.

(** Normalising a trimmed name of three characters or more settles it. *)
Lemma normalize_trimmed_settled (t : string) :
  JS.trim t = t -> 3 <= String.length t ->
  settled (Helpers.normalizeMerchantName t Helpers.MERCHANT_NORMALIZATIONS).
Proof.
  intros Htrim Hlen. unfold Helpers.normalizeMerchantName at 1. cbv zeta.
  destruct (Helpers.lookup Helpers.MERCHANT_NORMALIZATIONS (JS.toUpperCase t))
    as [v|] eqn:E.
  - pose proof (lookup_In _ _ _ E) as Hin.
    rewrite (table_values_truthy _ Hin).
    pose proof table_values_settled as Hall.
    rewrite Forall_forall in Hall. apply Hall, Hin.
  - rewrite Htrim. split; [exact Hlen|]. split; [exact Htrim|].
    unfold Helpers.normalizeMerchantName. cbv zeta. rewrite E. exact Htrim.
Qed.

Lemma extractMerchantFrom_settled (cleanDesc : string)
    (patterns : list Helpers.MerchantPattern) :
  settled (Helpers.extractMerchantFrom cleanDesc patterns).
Proof.
  induction patterns as [|pat rest IH]; cbn [Helpers.extractMerchantFrom].
  - apply settledb_settled. vm_compute. reflexivity.
  - destruct (Regex.exec (Helpers.regex_ pat) cleanDesc) as [m|]; [|exact IH].
    destruct (Regex.group (Helpers.extractGroup pat) m) as [g|]; [|exact IH].
    cbv zeta.
    destruct (JS.truthyStr g && JS.truthyStr (JS.trim g) &&
              (2 <? String.length (JS.trim g))) eqn:E; [|exact IH].
    apply andb_true_iff in E. destruct E as [_ E]. apply Nat.ltb_lt in E.
    apply normalize_trimmed_settled; [apply trim_idempotent | lia].
Qed.

(** X2. The merchant that [extractMerchant] returns, with any pattern
    table, has at least three characters, no white space at either end, and
    is left unchanged by [normalizeMerchantName]; hence the rule-path
    merchant prediction of the pipeline has the same [merchant] and
    [normalizedMerchant]. *)
Theorem extractMerchant_settled :
  forall (description : string) (patterns : list Helpers.MerchantPattern),
    settled (Helpers.extractMerchantWith description patterns) /\
    settled (Helpers.extractMerchant description) /\
    ML.mp_normalizedMerchant (ML.fallbackMerchantExtraction description) =
    ML.mp_merchant (ML.fallbackMerchantExtraction description).
Proof.
  intros description patterns.
  split; [apply extractMerchantFrom_settled|].
  split; [apply extractMerchantFrom_settled|].
  unfold ML.fallbackMerchantExtraction. cbv zeta.
  cbn [ML.mp_normalizedMerchant ML.mp_merchant].
  apply (extractMerchantFrom_settled (JS.trim description)
           Helpers.UPI_MERCHANT_PATTERNS).
Qed.

(** ** Further properties: dates *)

(** X3. Whatever [parseDate] returns is a valid date: the text has exactly
    three components, which are in range and pass the calendar round trip,
    and the date lies at noon UTC.  It never returns an invalid date. *)
Theorem parseDate_sound :
  forall (s : string) (d : JSDate.Date),
    Helpers.parseDate s = Ok d ->
    exists day month year t,
      dateParts s = [day; month; year] /\
      inRange day month year /\
      d = Some t /\
      JSDate.UTC year (Helpers.minusOne month) day 12 0 0 0 = Some t /\
      roundTrips day month year t /\
      (t mod JSDate.msPerDay = 12 * 3600000)%Z.
Proof.
  intros s d. unfold Helpers.parseDate, Helpers.parseDateBody. cbv zeta.
  fold (dateParts s).
  destruct (dateParts s) as [|day [|month [|year [|extra rest]]]] eqn:Eparts;
    cbn [tryCatch]; try discriminate.
  pose proof (values_check day month year) as Hcheck.
  destruct (JSNum.falsy day || JSNum.falsy month || JSNum.falsy year ||
            JSNum.lt day (JSNum.ofZ 1) || JSNum.gt day (JSNum.ofZ 31) ||
            JSNum.lt month (JSNum.ofZ 1) || JSNum.gt month (JSNum.ofZ 12) ||
            JSNum.lt year (JSNum.ofZ 1900)) eqn:Ecase;
    cbn [tryCatch]; [discriminate|].
  destruct (Helpers.getterDiffers _ JSDate.getUTCDate day) eqn:Ed;
    cbn [orb tryCatch]; [discriminate|].
  destruct (Helpers.getterDiffers _ JSDate.getUTCMonth _) eqn:Em;
    cbn [orb tryCatch]; [discriminate|].
  destruct (Helpers.getterDiffers _ JSDate.getUTCFullYear year) eqn:Ey;
    cbn [orb tryCatch]; [discriminate|].
  intros H. injection H as <-.
  apply getterDiffers_false in Ed, Em, Ey.
  destruct Ed as [t [Ht Hd]], Em as [t1 [Ht1 Hm]], Ey as [t2 [Ht2 Hy]].
  assert (t1 = t) by congruence. assert (t2 = t) by congruence. subst.
  exists day, month, year, t.
  split; [reflexivity|]. split; [apply Hcheck; reflexivity|].
  split; [exact Ht|]. split; [exact Ht|].
  split; [repeat split; assumption | eapply UTC_noon; exact Ht].
Qed.

(** Witness for X3: the date of the scenario. *)
Lemma parseDate_sound_witness :
  exists day month year t,
    dateParts "15-03-2024" = [day; month; year] /\
    inRange day month year /\
    Some 1710504000000%Z = Some t /\
    JSDate.UTC year (Helpers.minusOne month) day 12 0 0 0 = Some t /\
    roundTrips day month year t /\
    (t mod JSDate.msPerDay = 12 * 3600000)%Z.
Proof.
  apply (parseDate_sound "15-03-2024" (Some 1710504000000%Z)).
  vm_compute. reflexivity.
Defined.

(** ** Further properties: the segmenter *)

Section SegmenterInvariant.

(** [Open] holds of the transaction being assembled, [Emitted] of the
    records pushed. *)
Variable Open : Icici.OpenTransaction -> Prop.
Variable Emitted : Helpers.ParsedTransaction -> Prop.

Hypothesis start_Open :
  forall dateIndex texts,
    Icici.findDateIndex 0 texts = Some dateIndex ->
    Open (Icici.startTransaction dateIndex texts).
Hypothesis continue_Open :
  forall c text, Open c -> Open (Icici.continuationToken c text).
Hypothesis finalize_Emitted :
  forall c, Open c -> Forall Emitted (Icici.finalize (Some c)).

Definition segmenterInv (s : Icici.Segmenter) : Prop :=
  Forall Emitted (Icici.transactions s) /\
  match Icici.currentTransaction s with
  | Some c => Open c
  | None => True
  end.

Lemma fold_continue_Open (texts : list string) :
  forall c, Open c -> Open (fold_left Icici.continuationToken texts c).
Proof.
  induction texts as [|text texts IH]; intros c Hc; simpl.
  - exact Hc.
  - apply IH, continue_Open, Hc.
Qed.

Lemma finalize_current_Emitted (s : Icici.Segmenter) :
  segmenterInv s -> Forall Emitted (Icici.finalize (Icici.currentTransaction s)).
Proof.
  intros [_ Hc]. destruct (Icici.currentTransaction s) as [c|].
  - apply finalize_Emitted, Hc.
  - constructor.
Qed.

Lemma stepTexts_inv (s : Icici.Segmenter) (texts : list string) :
  segmenterInv s -> segmenterInv (Icici.stepTexts s texts).
Proof.
  intros Hs. unfold Icici.stepTexts.
  destruct texts as [|t texts]; [exact Hs|].
  destruct (Icici.findDateIndex 0 (t :: texts)) as [di|] eqn:E.
  - split; cbn [Icici.transactions Icici.currentTransaction].
    + apply Forall_app. split; [apply Hs | apply finalize_current_Emitted, Hs].
    + apply start_Open, E.
  - destruct (Icici.currentTransaction s) as [c|] eqn:Ec; [|exact Hs].
    split; cbn [Icici.transactions Icici.currentTransaction].
    + apply Hs.
    + apply fold_continue_Open. destruct Hs as [_ Hc]. rewrite Ec in Hc.
      exact Hc.
Qed.

Lemma fold_stepRow_inv (rows : list Icici.Row) :
  forall s, segmenterInv s -> segmenterInv (fold_left Icici.stepRow rows s).
Proof.
  induction rows as [|row rows IH]; intros s Hs; simpl.
  - exact Hs.
  - apply IH, stepTexts_inv, Hs.
Qed.

Lemma segmentRows_inv (rows : list Icici.Row) :
  Forall Emitted (Icici.segmentRows rows).
Proof.
  rewrite segmentRows_fold.
  assert (segmenterInv (fold_left Icici.stepRow rows freshSegmenter)) as H.
  { apply fold_stepRow_inv. split; [constructor | exact I]. }
  apply Forall_app. split; [apply H | apply finalize_current_Emitted, H].
Qed.

End SegmenterInvariant.

(** The open transaction has a date that the date pattern accepts. *)
Definition dated (c : Icici.OpenTransaction) : Prop :=
  exists d, Icici.date c = Some d /\ Regex.test Icici.datePattern d = true.

Lemma headerToken_date (c : Icici.OpenTransaction) (text : string) :
  Icici.date (Icici.headerToken c text) = Icici.date c.
Proof.
  unfold Icici.headerToken.
  repeat match goal with
         | |- context [if ?b then _ else _] => destruct b
         end; reflexivity.
Qed.

Lemma headerLoop_date (dateIndex : nat) (texts : list string) :
  forall i c,
    Icici.date (Icici.headerLoop dateIndex i texts c) = Icici.date c.
Proof.
  induction texts as [|text texts IH]; intros i c; simpl.
  - reflexivity.
  - destruct (i =? dateIndex)%nat; rewrite IH.
    + reflexivity.
    + apply headerToken_date.
Qed.

Lemma continuationToken_date (c : Icici.OpenTransaction) (text : string) :
  Icici.date (Icici.continuationToken c text) = Icici.date c.
Proof.
  unfold Icici.continuationToken.
  repeat match goal with
         | |- context [if ?b then _ else _] => destruct b
         end; reflexivity.
Qed.

(** The index that [findDateIndex] gives is that of a text which the date
    pattern accepts. *)
Lemma findDateIndex_accepts (texts : list string) :
  forall i dateIndex,
    Icici.findDateIndex i texts = Some dateIndex ->
    i <= dateIndex /\
    Regex.test Icici.datePattern (nth (dateIndex - i) texts "") = true.
Proof.
  induction texts as [|t texts IH]; intros i di H; cbn [Icici.findDateIndex] in H.
  - discriminate.
  - destruct (Regex.test Icici.datePattern t) eqn:E.
    + injection H as <-. rewrite Nat.sub_diag. split; [lia | exact E].
    + destruct (IH _ _ H) as [Hle Ht]. split; [lia|].
      replace (di - i) with (S (di - S i)) by lia. exact Ht.
Qed.

Lemma startTransaction_dated (dateIndex : nat) (texts : list string) :
  Icici.findDateIndex 0 texts = Some dateIndex ->
  dated (Icici.startTransaction dateIndex texts).
Proof.
  intros H. destruct (findDateIndex_accepts _ _ _ H) as [_ Ht].
  rewrite Nat.sub_0_r in Ht.
  exists (nth dateIndex texts ""). split; [|exact Ht].
  unfold Icici.startTransaction. rewrite headerLoop_date. reflexivity.
Qed.

Lemma continuationToken_dated (c : Icici.OpenTransaction) (text : string) :
  dated c -> dated (Icici.continuationToken c text).
Proof.
  intros [d [Hd Ht]]. exists d. rewrite continuationToken_date. auto.
Qed.

Lemma finalize_dated (c : Icici.OpenTransaction) :
  dated c ->
  Forall (fun t => Regex.test Icici.datePattern (Helpers.pt_date t) = true)
         (Icici.finalize (Some c)).
Proof.
  intros [d [Hd Ht]]. unfold Icici.finalize. rewrite Hd.
  destruct (Icici.amount c) as [a|]; [|constructor].
  destruct (JS.truthyStr d && JS.truthyNum a); [|constructor]. cbv zeta.
  match goal with |- context [if ?b then _ else _] => destruct b end;
    [|constructor].
  constructor; [exact Ht | constructor].
Qed.

(** The token that opens a transaction in a row: the first text of the row
    that the date pattern accepts. *)
Definition openingDate (row : Icici.Row) : option string :=
  match Icici.findDateIndex 0 (Icici.rowTexts row) with
  | Some dateIndex => Some (nth dateIndex (Icici.rowTexts row) "")
  | None => None
  end.

(** The opening tokens of the rows, in the order of the rows. *)
Definition openingDates (rows : list Icici.Row) : list string :=
  flat_map (fun row => match openingDate row with
                       | Some d => [d]
                       | None => []
                       end) rows.

(** [l1] is [l2] with some entries left out. *)
Inductive Subsequence {A : Type} : list A -> list A -> Prop :=
| Subsequence_nil : Subsequence [] []
| Subsequence_skip (l1 l2 : list A) (a : A) :
    Subsequence l1 l2 -> Subsequence l1 (a :: l2)
| Subsequence_take (l1 l2 : list A) (a : A) :
    Subsequence l1 l2 -> Subsequence (a :: l1) (a :: l2).

Section SubsequenceFacts.

Context {A : Type}.

Lemma Subsequence_skip_last (l1 l2 : list A) (a : A) :
  Subsequence l1 l2 -> Subsequence l1 (l2 ++ [a]).
Proof.
  induction 1 as [|l1 l2 b _ IH|l1 l2 b _ IH]; simpl.
  - apply Subsequence_skip, Subsequence_nil.
  - apply Subsequence_skip, IH.
  - apply Subsequence_take, IH.
Qed.

Lemma Subsequence_take_last (l1 l2 : list A) (a : A) :
  Subsequence l1 l2 -> Subsequence (l1 ++ [a]) (l2 ++ [a]).
Proof.
  induction 1 as [|l1 l2 b _ IH|l1 l2 b _ IH]; simpl.
  - apply Subsequence_take, Subsequence_nil.
  - apply Subsequence_skip, IH.
  - apply Subsequence_take, IH.
Qed.

End SubsequenceFacts.

(** What holds of the segmenter after the rows whose opening tokens are
    [ds]: the dates of the records pushed are among [ds], in their order,
    and the transaction being assembled has the last of them. *)
Definition datesSoFar (s : Icici.Segmenter) (ds : list string) : Prop :=
  match Icici.currentTransaction s with
  | Some c =>
      exists before d,
        ds = before ++ [d] /\ Icici.date c = Some d /\
        Subsequence (map Helpers.pt_date (Icici.transactions s)) before
  | None => Subsequence (map Helpers.pt_date (Icici.transactions s)) ds
  end.

(** A finished transaction gives no record, or one record with its date. *)
Lemma finalize_dates (c : Icici.OpenTransaction) (d : string) :
  Icici.date c = Some d ->
  map Helpers.pt_date (Icici.finalize (Some c)) = [] \/
  map Helpers.pt_date (Icici.finalize (Some c)) = [d].
Proof.
  intros Hd. unfold Icici.finalize. rewrite Hd.
  destruct (Icici.amount c) as [a|]; [|left; reflexivity].
  destruct (JS.truthyStr d && JS.truthyNum a); [|left; reflexivity].
  cbv zeta.
  match goal with |- context [if ?b then _ else _] => destruct b end;
    [right | left]; reflexivity.
Qed.

Lemma flushed_dates (s : Icici.Segmenter) (ds : list string) :
  datesSoFar s ds ->
  Subsequence
    (map Helpers.pt_date
         (Icici.transactions s ++ Icici.finalize (Icici.currentTransaction s)))
    ds.
Proof.
  unfold datesSoFar. rewrite map_app.
  destruct (Icici.currentTransaction s) as [c|].
  - intros [before [d [-> [Hd Hsub]]]].
    destruct (finalize_dates c d Hd) as [-> | ->].
    + rewrite app_nil_r. apply Subsequence_skip_last, Hsub.
    + apply Subsequence_take_last, Hsub.
  - intros Hsub. cbn [Icici.finalize map]. rewrite app_nil_r. exact Hsub.
Qed.

Lemma fold_continuation_date (texts : list string) :
  forall c,
    Icici.date (fold_left Icici.continuationToken texts c) = Icici.date c.
Proof.
  induction texts as [|text texts IH]; intros c; simpl.
  - reflexivity.
  - rewrite IH. apply continuationToken_date.
Qed.

Lemma stepRow_dates (s : Icici.Segmenter) (row : Icici.Row)
    (ds : list string) :
  datesSoFar s ds ->
  datesSoFar (Icici.stepRow s row)
             (ds ++ match openingDate row with
                    | Some d => [d]
                    | None => []
                    end).
Proof.
  intros Hs. unfold Icici.stepRow, Icici.stepTexts, openingDate.
  destruct (Icici.rowTexts row) as [|t texts].
  - cbn [Icici.findDateIndex]. rewrite app_nil_r. exact Hs.
  - destruct (Icici.findDateIndex 0 (t :: texts)) as [di|].
    + unfold datesSoFar.
      cbn [Icici.transactions Icici.currentTransaction].
      exists ds, (nth di (t :: texts) ""). split; [reflexivity|].
      split.
      * unfold Icici.startTransaction. rewrite headerLoop_date. reflexivity.
      * apply flushed_dates, Hs.
    + rewrite app_nil_r. unfold datesSoFar in *.
      destruct (Icici.currentTransaction s) as [c|] eqn:Ec.
      * cbn [Icici.transactions Icici.currentTransaction].
        destruct Hs as [before [d [Hds [Hd Hsub]]]].
        exists before, d. rewrite fold_continuation_date. auto.
      * rewrite Ec. exact Hs.
Qed.

Lemma fold_stepRow_dates (rows : list Icici.Row) :
  forall s ds,
    datesSoFar s ds ->
    datesSoFar (fold_left Icici.stepRow rows s) (ds ++ openingDates rows).
Proof.
  induction rows as [|row rows IH]; intros s ds Hs; simpl.
  - rewrite app_nil_r. exact Hs.
  - rewrite app_assoc. apply IH, stepRow_dates, Hs.
Qed.

Lemma segmentRows_dates (rows : list Icici.Row) :
  Subsequence (map Helpers.pt_date (Icici.segmentRows rows))
              (openingDates rows).
Proof.
  rewrite segmentRows_fold. apply flushed_dates.
  apply (fold_stepRow_dates rows freshSegmenter []).
  apply Subsequence_nil.
Qed.

Lemma openingDates_accepted (rows : list Icici.Row) :
  Forall (fun d => Regex.test Icici.datePattern d = true) (openingDates rows).
Proof.
  unfold openingDates. apply Forall_flat_map, Forall_forall.
  intros row _. unfold openingDate.
  destruct (Icici.findDateIndex 0 (Icici.rowTexts row)) as [di|] eqn:E;
    [|constructor].
  destruct (findDateIndex_accepts _ _ _ E) as [_ Ht].
  rewrite Nat.sub_0_r in Ht. constructor; [exact Ht | constructor].
Qed.

(** X4. The dates of the records that the segmenter pushes are opening
    tokens of the rows, in the order of the rows: the date of a record is
    the first text that the date pattern accepts in the row that opened
    its transaction, and no later token changes it; a row with a date
    gives at most one record.  Hence the date of every record is a text
    that the date pattern accepts.  This holds for any rows and on any
    page. *)
Theorem emitted_dates_match_datePattern :
  (forall rows : list Icici.Row,
     Subsequence (map Helpers.pt_date (Icici.segmentRows rows))
                 (openingDates rows) /\
     Forall (fun d => Regex.test Icici.datePattern d = true)
            (openingDates rows) /\
     Forall (fun t => Regex.test Icici.datePattern (Helpers.pt_date t) = true)
            (Icici.segmentRows rows)) /\
  (forall items : list Icici.TextItem,
     Subsequence
       (map Helpers.pt_date (Icici.extractTransactionsFromPage items))
       (openingDates (Icici.reconstructRows items)) /\
     Forall (fun t => Regex.test Icici.datePattern (Helpers.pt_date t) = true)
            (Icici.extractTransactionsFromPage items)).
Proof.
  assert (forall rows : list Icici.Row,
            Forall (fun t => Regex.test Icici.datePattern (Helpers.pt_date t)
                             = true)
                   (Icici.segmentRows rows)) as H.
  { intros rows. apply (segmentRows_inv dated).
    - exact startTransaction_dated.
    - exact continuationToken_dated.
    - exact finalize_dated. }
  split.
  - intros rows. split; [apply segmentRows_dates|].
    split; [apply openingDates_accepted | apply H].
  - intros items. split; [apply segmentRows_dates | apply H].
Qed.

(** The row opens a transaction. *)
Definition opens (row : Icici.Row) : bool :=
  match Icici.findDateIndex 0 (Icici.rowTexts row) with
  | Some _ => true
  | None => false
  end.

(** The transactions in the segmenter's hands: pushed, or being assembled. *)
Definition inHand (s : Icici.Segmenter) : nat :=
  List.length (Icici.transactions s) +
  match Icici.currentTransaction s with Some _ => 1 | None => 0 end.

Lemma finalize_length (cur : option Icici.OpenTransaction) :
  List.length (Icici.finalize cur) <=
  match cur with Some _ => 1 | None => 0 end.
Proof.
  unfold Icici.finalize. destruct cur as [c|]; [|simpl; lia].
  destruct (Icici.date c) as [d|]; [|simpl; lia].
  destruct (Icici.amount c) as [a|]; [|simpl; lia].
  destruct (JS.truthyStr d && JS.truthyNum a); [|simpl; lia]. cbv zeta.
  match goal with |- context [if ?b then _ else _] => destruct b end;
    simpl; lia.
Qed.

Lemma stepRow_inHand (s : Icici.Segmenter) (row : Icici.Row) :
  inHand (Icici.stepRow s row) <=
  inHand s + (if opens row then 1 else 0).
Proof.
  unfold Icici.stepRow, Icici.stepTexts, opens, inHand.
  destruct (Icici.rowTexts row) as [|t texts]; [simpl; lia|].
  destruct (Icici.findDateIndex 0 (t :: texts)) as [di|].
  - cbn [Icici.transactions Icici.currentTransaction].
    rewrite length_app.
    pose proof (finalize_length (Icici.currentTransaction s)). lia.
  - destruct (Icici.currentTransaction s) as [c|] eqn:Ec.
    + cbn [Icici.transactions Icici.currentTransaction]. lia.
    + rewrite Ec. lia.
Qed.

Lemma fold_stepRow_inHand (rows : list Icici.Row) :
  forall s,
    inHand (fold_left Icici.stepRow rows s) <=
    inHand s + List.length (filter opens rows).
Proof.
  induction rows as [|row rows IH]; intros s; simpl.
  - lia.
  - pose proof (IH (Icici.stepRow s row)) as H1.
    pose proof (stepRow_inHand s row) as H2.
    destruct (opens row); simpl; lia.
Qed.

(** X5. The segmenter pushes at most one record for each row that holds a
    date, so that a page without any such row gives no record. *)
Theorem records_bounded_by_date_rows :
  (forall rows : list Icici.Row,
     List.length (Icici.segmentRows rows) <= List.length (filter opens rows)) /\
  (forall items : list Icici.TextItem,
     List.length (Icici.extractTransactionsFromPage items) <=
     List.length (filter opens (Icici.reconstructRows items))).
Proof.
  assert (forall rows : list Icici.Row,
            List.length (Icici.segmentRows rows) <=
            List.length (filter opens rows)) as H.
  { intros rows. rewrite segmentRows_fold, length_app.
    pose proof (fold_stepRow_inHand rows freshSegmenter) as H1.
    pose proof (finalize_length
                  (Icici.currentTransaction
                     (fold_left Icici.stepRow rows freshSegmenter))) as H2.
    unfold inHand in H1. simpl in H1. unfold inHand in H1.
    destruct (Icici.currentTransaction
                (fold_left Icici.stepRow rows freshSegmenter)); lia. }
  split; [exact H | intros items; apply H].
Qed.

Lemma stepRow_fresh (row : Icici.Row) :
  isContinuation row -> Icici.stepRow freshSegmenter row = freshSegmenter.
Proof.
  unfold isContinuation, Icici.stepRow, Icici.stepTexts. intros H.
  destruct (Icici.rowTexts row) as [|t texts]; [reflexivity|].
  rewrite H. reflexivity.
Qed.

(** X6. Rows that come before the first row with a date leave no trace: the
    page gives the same records without them. *)
Theorem rows_before_first_date_are_ignored :
  forall (before rows : list Icici.Row),
    Forall isContinuation before ->
    Icici.segmentRows (before ++ rows) = Icici.segmentRows rows.
Proof.
  intros before rows H. rewrite !segmentRows_fold, fold_left_app.
  assert (fold_left Icici.stepRow before freshSegmenter = freshSegmenter)
    as ->; [|reflexivity].
  induction H as [|row before Hrow _ IH]; simpl.
  - reflexivity.
  - rewrite (stepRow_fresh row Hrow). exact IH.
Qed.

(** Witness for X6: a row without a date before the row of a transaction. *)
Lemma rows_before_first_date_are_ignored_witness :
  Icici.segmentRows ([continuationWithoutType] ++ [headerWithoutType]) =
  Icici.segmentRows [headerWithoutType].
Proof.
  apply (rows_before_first_date_are_ignored
           [continuationWithoutType] [headerWithoutType]).
  constructor; [vm_compute; reflexivity | constructor].
Defined.

Lemma headerToken_amount (c : Icici.OpenTransaction) (text : string) (a : Q) :
  Icici.amount c = Some a -> JS.truthyNum a = true ->
  Icici.amount (Icici.headerToken c text) = Some a.
Proof.
  intros Ha Ht. unfold Icici.headerToken, Icici.noAmount. rewrite Ha, Ht.
  rewrite andb_false_r.
  repeat match goal with
         | |- context [if ?b then _ else _] => destruct b
         end; cbn [Icici.amount]; auto.
Qed.

Lemma continuationToken_amount (c : Icici.OpenTransaction) (text : string)
    (a : Q) :
  Icici.amount c = Some a -> JS.truthyNum a = true ->
  Icici.amount (Icici.continuationToken c text) = Some a.
Proof.
  intros Ha Ht. unfold Icici.continuationToken, Icici.noAmount.
  rewrite Ha, Ht. rewrite andb_false_r.
  repeat match goal with
         | |- context [if ?b then _ else _] => destruct b
         end; cbn [Icici.amount]; auto.
Qed.

Lemma continuationToken_type (c : Icici.OpenTransaction) (text : string)
    (t : Helpers.RawType) :
  Icici.type_ c = Some t ->
  Icici.type_ (Icici.continuationToken c text) = Some t.
Proof.
  intros Ht. unfold Icici.continuationToken, Icici.noType. rewrite Ht.
  rewrite andb_false_r.
  repeat match goal with
         | |- context [if ?b then _ else _] => destruct b
         end; cbn [Icici.type_]; auto.
Qed.

(** X7. The first amount that is not zero stays: once the open transaction
    has it, no later token of the row with the date or of a continuation
    row changes it.  In continuation rows the same holds of the type. *)
Theorem first_amount_and_type_are_kept :
  forall (c : Icici.OpenTransaction) (a : Q) (texts : list string),
    Icici.amount c = Some a ->
    JS.truthyNum a = true ->
    Icici.amount (fold_left Icici.continuationToken texts c) = Some a /\
    (forall dateIndex i,
       Icici.amount (Icici.headerLoop dateIndex i texts c) = Some a) /\
    match Icici.type_ c with
    | Some t =>
        Icici.type_ (fold_left Icici.continuationToken texts c) = Some t
    | None => True
    end.
Proof.
  intros c a texts Ha Ht. split; [|split].
  - revert c Ha. induction texts as [|text texts IH]; intros c Ha; simpl.
    + exact Ha.
    + apply IH, continuationToken_amount; assumption.
  - intros di. revert c Ha.
    induction texts as [|text texts IH]; intros c Ha i; simpl.
    + exact Ha.
    + destruct (i =? di)%nat.
      * apply IH, Ha.
      * apply IH, headerToken_amount; assumption.
  - destruct (Icici.type_ c) as [t|] eqn:Et; [|exact I].
    clear Ha. revert c Et.
    induction texts as [|text texts IH]; intros c Et; simpl.
    + exact Et.
    + apply IH, continuationToken_type, Et.
Qed.

(** Witness for X7: a transaction of 199 rupees with the type CR, and a
    continuation row that holds another amount and another type. *)
Lemma first_amount_and_type_are_kept_witness :
  let c := {| Icici.date := Some "15-03-2024";
              Icici.descriptionParts := ["UPI/NETFLIX/123"];
              Icici.amount := Some 199%Q;
              Icici.type_ := Some Helpers.CR |} in
  Icici.amount (fold_left Icici.continuationToken ["5,000.00"; "DR"] c)
    = Some 199%Q /\
  (forall dateIndex i,
     Icici.amount (Icici.headerLoop dateIndex i ["5,000.00"; "DR"] c)
       = Some 199%Q) /\
  Icici.type_ (fold_left Icici.continuationToken ["5,000.00"; "DR"] c)
    = Some Helpers.CR.
Proof.
  exact (first_amount_and_type_are_kept
           {| Icici.date := Some "15-03-2024";
              Icici.descriptionParts := ["UPI/NETFLIX/123"];
              Icici.amount := Some 199%Q;
              Icici.type_ := Some Helpers.CR |}
           199%Q ["5,000.00"; "DR"] eq_refl eq_refl).
Defined.

(** ** Further properties: the rows *)

Lemma groupLoop_concat (items : list Icici.TextItem) :
  forall (rows : list Icici.Row) (cur : Icici.Row) (lastY : Z),
    List.concat (Icici.groupLoop items rows cur lastY) =
    List.concat rows ++ cur ++ items.
Proof.
  induction items as [|item rest IH]; intros rows cur lastY;
    cbn [Icici.groupLoop].
  - destruct cur as [|a cur].
    + rewrite app_nil_r. reflexivity.
    + rewrite concat_app. simpl. rewrite !app_nil_r. reflexivity.
  - cbv zeta.
    destruct ((lastY =? -1)%Z ||
              (Z.abs (Icici.round (Icici.y item) - lastY) <=? Icici.Y_TOLERANCE)%Z).
    + rewrite IH, <- app_assoc. reflexivity.
    + rewrite IH. destruct cur as [|a cur].
      * reflexivity.
      * rewrite concat_app. simpl. rewrite !app_nil_r, <- !app_assoc.
        reflexivity.
Qed.

Lemma groupLoop_nonempty (items : list Icici.TextItem) :
  forall (rows : list Icici.Row) (cur : Icici.Row) (lastY : Z),
    Forall (fun r => r <> []) rows ->
    Forall (fun r => r <> []) (Icici.groupLoop items rows cur lastY).
Proof.
  induction items as [|item rest IH]; intros rows cur lastY Hrows;
    cbn [Icici.groupLoop].
  - destruct cur as [|a cur]; [exact Hrows|].
    apply Forall_app. split; [exact Hrows|].
    constructor; [discriminate | constructor].
  - cbv zeta.
    destruct ((lastY =? -1)%Z ||
              (Z.abs (Icici.round (Icici.y item) - lastY) <=? Icici.Y_TOLERANCE)%Z).
    + apply IH, Hrows.
    + apply IH. destruct cur as [|a cur]; [exact Hrows|].
      apply Forall_app. split; [exact Hrows|].
      constructor; [discriminate | constructor].
Qed.

(** X8. On every page, also one with a rounded height of -1, the rows put
    end to end are the sorted fragments: no fragment is lost, none is
    repeated, and no row is empty. *)
Theorem reconstructRows_keeps_every_fragment :
  forall items : list Icici.TextItem,
    List.concat (Icici.reconstructRows items) = Icici.sortItems items /\
    Permutation (List.concat (Icici.reconstructRows items)) items /\
    Forall (fun r => r <> []) (Icici.reconstructRows items).
Proof.
  intros items. unfold Icici.reconstructRows, Icici.groupRows.
  rewrite groupLoop_concat. simpl.
  split; [reflexivity|]. split; [apply sortItems_Permutation|].
  apply groupLoop_nonempty. constructor.
Qed.

Section LevelRows.

Import Icici.
Local Open Scope Z_scope.

(** Fragments from left to right. *)
Definition byX (a b : TextItem) : Prop := (x a <= x b)%Q.

(** A sequence whose rounded heights are all [r] goes into one row. *)
Lemma groupLoop_level (r : Z) (items : list TextItem) :
  Forall (fun i => rounded i = r) items ->
  forall (rows : list Row) (cur : Row) (lastY : Z),
    lastY = -1 \/ lastY = r ->
    cur ++ items <> [] ->
    groupLoop items rows cur lastY = rows ++ [cur ++ items].
Proof.
  induction 1 as [|item rest Hitem _ IH]; intros rows cur lastY Hlast Hne;
    cbn [groupLoop].
  - rewrite app_nil_r in *. destruct cur; [contradiction | reflexivity].
  - cbv zeta. fold (rounded item). rewrite Hitem.
    assert ((lastY =? -1) || (Z.abs (r - lastY) <=? Y_TOLERANCE) = true) as ->.
    { destruct Hlast as [-> | ->].
      - reflexivity.
      - rewrite Z.sub_diag. apply orb_true_r. }
    rewrite IH.
    + rewrite <- app_assoc. reflexivity.
    + right. reflexivity.
    + rewrite <- app_assoc. simpl. destruct cur; discriminate.
Qed.

Lemma round_wd (p q : Q) : (p == q)%Q -> round p = round q.
Proof. intros E. unfold round. rewrite E. reflexivity. Qed.

(** At one height the comparator's order is the order of x. *)
Lemma inOrder_level (y0 : Q) (a b : TextItem) :
  (y a == y0)%Q -> (y b == y0)%Q -> inOrder a b -> byX a b.
Proof.
  unfold inOrder, byX, compareItems. cbv zeta. intros Ha Hb.
  assert (Qgt_bool (Qabs (y a - y b)) 3 = false) as ->.
  { unfold Qgt_bool. apply Qlt_bool_false.
    assert (y a - y b == 0)%Q as -> by (rewrite Ha, Hb; ring).
    discriminate. }
  intros H. lra.
Qed.

Lemma Chain_level (y0 : Q) (l : list TextItem) :
  Forall (fun i => (y i == y0)%Q) l -> Chain inOrder l -> Chain byX l.
Proof.
  intros Hl Hc. induction Hc as [|a|a b rest Hab Hrest IH].
  - constructor.
  - constructor.
  - inversion Hl as [|? ? Ha Hl']; subst.
    inversion Hl' as [|? ? Hb _]; subst.
    constructor; [eapply inOrder_level; eassumption | apply IH, Hl'].
Qed.

End LevelRows.

(** X9. The fragments of a page that all lie at one height form a single
    row, in which they stand from left to right. *)
Theorem level_fragments_form_one_row :
  forall (items : list Icici.TextItem) (y0 : Q),
    items <> [] ->
    Forall (fun i => (Icici.y i == y0)%Q) items ->
    Icici.reconstructRows items = [Icici.sortItems items] /\
    Chain byX (Icici.sortItems items) /\
    Permutation (Icici.sortItems items) items.
Proof.
  intros items y0 Hne Hlevel.
  assert (Forall (fun i => (Icici.y i == y0)%Q) (Icici.sortItems items))
    as Hsorted.
  { rewrite Forall_forall in *. intros i Hi. apply Hlevel.
    eapply Permutation_in; [apply sortItems_Permutation | exact Hi]. }
  split; [|split].
  - unfold Icici.reconstructRows, Icici.groupRows.
    rewrite (groupLoop_level (Icici.round y0)).
    + reflexivity.
    + revert Hsorted. apply Forall_impl. intros i Hi. apply round_wd, Hi.
    + left. reflexivity.
    + simpl. intros E. apply Hne.
      apply Permutation_nil. rewrite <- E.
      apply sortItems_Permutation.
  - eapply Chain_level; [exact Hsorted | apply sortItems_Chain].
  - apply sortItems_Permutation.
Qed.

(** Witness for X9: three fragments at height 700, given from right to
    left. *)
Lemma level_fragments_form_one_row_witness :
  let items := [ item "199.00" 200 700; item "UPI/NETFLIX/123" 40 700;
                 item "15-03-2024" 0 700 ] in
  Icici.reconstructRows items = [Icici.sortItems items] /\
  Chain byX (Icici.sortItems items) /\
  Permutation (Icici.sortItems items) items.
Proof.
  apply (level_fragments_form_one_row
           [ item "199.00" 200 700; item "UPI/NETFLIX/123" 40 700;
             item "15-03-2024" 0 700 ] 700%Q).
  - discriminate.
  - repeat (constructor; [reflexivity|]). constructor.
Defined.



(** ** Further properties: identifiers *)

Section Identifiers.

Lemma chars_append (s1 s2 : string) :
  JS.chars (s1 ++ s2) = JS.chars s1 ++ JS.chars s2.
Proof.
  induction s1 as [|c s1 IH]; simpl; [reflexivity|].
  f_equal. exact IH.
Qed.

Definition notUnderscore (c : ascii) : Prop := Ascii.eqb c "_" = false.

(** The characters up to the first underscore. *)
Fixpoint takeField (l : list ascii) : list ascii :=
  match l with
  | [] => []
  | c :: t => if Ascii.eqb c "_" then [] else c :: takeField t
  end.

(** The characters after the last underscore. *)
Definition lastField (l : list ascii) : list ascii :=
  rev (takeField (rev l)).

Lemma takeField_app (d r : list ascii) :
  Forall notUnderscore d -> takeField (d ++ "_"%char :: r) = d.
Proof.
  induction 1 as [|c d Hc _ IH]; simpl.
  - reflexivity.
  - rewrite Hc, IH. reflexivity.
Qed.

Lemma lastField_app (p d : list ascii) :
  Forall notUnderscore d -> lastField (p ++ "_"%char :: d) = d.
Proof.
  intros Hd. unfold lastField.
  rewrite rev_app_distr. simpl. rewrite <- app_assoc. simpl.
  rewrite takeField_app.
  - apply rev_involutive.
  - apply Forall_rev, Hd.
Qed.

Lemma digits_notUnderscore (d : Decimal.uint) :
  Forall notUnderscore (JS.chars (NilEmpty.string_of_uint d)).
Proof.
  induction d; simpl; constructor; try reflexivity; assumption.
Qed.

Lemma indexText_notUnderscore (index : nat) :
  Forall notUnderscore (JS.chars (Helpers.indexText index)).
Proof.
  unfold Helpers.indexText, NilZero.string_of_uint.
  destruct (Nat.to_uint index) eqn:E;
    try (rewrite <- E; apply digits_notUnderscore).
  constructor; [reflexivity | constructor].
Qed.

Lemma to_uint_nonnil (n : nat) : Nat.to_uint n <> Decimal.Nil.
Proof.
  rewrite <- (DecimalNat.Unsigned.of_to n) at 1.
  rewrite DecimalNat.Unsigned.to_of. apply DecimalFacts.unorm_nonnil.
Qed.

(** Different indices have different texts. *)
Lemma indexText_inj (i j : nat) :
  Helpers.indexText i = Helpers.indexText j -> i = j.
Proof.
  unfold Helpers.indexText. intros H.
  apply DecimalNat.Unsigned.to_uint_inj.
  pose proof (NilZero.usu _ (to_uint_nonnil i)) as Hi.
  pose proof (NilZero.usu _ (to_uint_nonnil j)) as Hj.
  rewrite H in Hi. congruence.
Qed.

(** The identifier that the conversions build. *)
Definition transactionId (bankName accountNumber dateText : string)
    (index : nat) : string :=
  JS.toLowerCase bankName ++ "_" ++ accountNumber ++ "_" ++
  Regex.replaceAll
    (Regex.re "/[-\/]/g" (Regex.Cls false (Regex.oneOf "-/"))) "" dateText ++
  "_" ++ Helpers.indexText index.

(** The index can be read back from the identifier. *)
Lemma transactionId_index (bankName accountNumber dateText : string)
    (index : nat) :
  lastField (JS.chars (transactionId bankName accountNumber dateText index)) =
  JS.chars (Helpers.indexText index).
Proof.
  unfold transactionId. rewrite !chars_append.
  change (JS.chars "_") with ["_"%char].
  rewrite !app_assoc. rewrite <- (app_assoc _ ["_"%char]).
  apply lastField_app, indexText_notUnderscore.
Qed.

Lemma convertOne_id (now : JSDate.Date) (accountNumber bankName : string)
    (tx : Helpers.ParsedTransaction) (index : nat)
    (out : Helpers.Transaction) :
  Helpers.convertOne now accountNumber bankName tx index = Ok out ->
  Helpers.tx_id out =
  transactionId bankName accountNumber (Helpers.pt_date tx) index.
Proof.
  unfold Helpers.convertOne. cbv zeta.
  destruct (Helpers.parseDate (Helpers.pt_date tx)); cbn [bind];
    [|discriminate].
  intros H.
  apply (f_equal (fun r => match r with
                           | Ok o => Helpers.tx_id o
                           | Throw _ => ""
                           end)) in H.
  symmetry. exact H.
Qed.

Lemma convertOneML_id (services : ML.Services) (now : JSDate.Date)
    (accountNumber bankName : string) (tx : Helpers.ParsedTransaction)
    (index : nat) (out : Helpers.Transaction) :
  HelpersML.convertOneML services now accountNumber bankName tx index = Ok out ->
  Helpers.tx_id out =
  transactionId bankName accountNumber (Helpers.pt_date tx) index.
Proof.
  unfold HelpersML.convertOneML. cbv zeta.
  destruct (ML.enrichTransaction _ _ _ _ _) as [e|m]; cbn [bind tryCatch];
    destruct (Helpers.parseDate (Helpers.pt_date tx));
    cbn [bind tryCatch]; try discriminate;
    intros H;
    apply (f_equal (fun r => match r with
                             | Ok o => Helpers.tx_id o
                             | Throw _ => ""
                             end)) in H;
    symmetry; exact H.
Qed.

(** The identifiers of a converted list, read back, are the indices. *)
Lemma mapIdx_indices (f : Helpers.ParsedTransaction -> nat ->
                          result Helpers.Transaction)
    (accountNumber bankName : string) :
  (forall tx index out,
     f tx index = Ok out ->
     Helpers.tx_id out =
     transactionId bankName accountNumber (Helpers.pt_date tx) index) ->
  forall txs i out,
    mapIdx f i txs = Ok out ->
    map (fun t => lastField (JS.chars (Helpers.tx_id t))) out =
    map (fun k => JS.chars (Helpers.indexText k)) (seq i (List.length txs)).
Proof.
  intros Hf. induction txs as [|tx txs IH]; intros i out; cbn [mapIdx].
  - intros H. injection H as <-. reflexivity.
  - destruct (f tx i) as [y|] eqn:Ey; cbn [bind]; [|discriminate].
    destruct (mapIdx f (S i) txs) as [ys|] eqn:Eys; cbn [bind];
      [|discriminate].
    intros H. injection H as <-. simpl.
    rewrite (Hf _ _ _ Ey), transactionId_index. f_equal.
    apply IH. exact Eys.
Qed.

Lemma indices_NoDup (i n : nat) :
  NoDup (map (fun k => JS.chars (Helpers.indexText k)) (seq i n)).
Proof.
  apply NoDup_map_NoDup_ForallPairs; [|apply seq_NoDup].
  intros a b _ _ H. apply indexText_inj.
  rewrite <- (str_chars (Helpers.indexText a)), H. apply str_chars.
Qed.

Lemma mapIdx_ids_NoDup (f : Helpers.ParsedTransaction -> nat ->
                            result Helpers.Transaction)
    (accountNumber bankName : string) :
  (forall tx index out,
     f tx index = Ok out ->
     Helpers.tx_id out =
     transactionId bankName accountNumber (Helpers.pt_date tx) index) ->
  forall txs out,
    mapIdx f 0 txs = Ok out -> NoDup (map Helpers.tx_id out).
Proof.
  intros Hf txs out H.
  apply (NoDup_map_inv (fun s => lastField (JS.chars s))).
  rewrite map_map.
  rewrite (mapIdx_indices f accountNumber bankName Hf txs 0 out H).
  apply indices_NoDup.
Qed.

End Identifiers.

(** X11. The transactions that one call of the conversion returns have
    pairwise different identifiers, whatever the dates, the account number
    and the bank name: an identifier ends in the index, which no other
    record of the call has.  The same holds of the conversion through the
    pipeline. *)
Theorem converted_ids_are_distinct :
  forall (clock : nat -> JSDate.Date) (services : ML.Services)
         (parsedTransactions : list Helpers.ParsedTransaction)
         (accountNumber bankName : string),
    match Helpers.convertToTransactionInterface
            clock parsedTransactions accountNumber bankName with
    | Ok out => NoDup (map Helpers.tx_id out)
    | Throw _ => True
    end /\
    match HelpersML.convertToTransactionInterfaceML
            services clock parsedTransactions accountNumber bankName with
    | Ok out => NoDup (map Helpers.tx_id out)
    | Throw _ => True
    end.
Proof.
  intros clock services txs accountNumber bankName. split.
  - destruct (Helpers.convertToTransactionInterface _ _ _ _) as [out|] eqn:E;
      [|exact I].
    unfold Helpers.convertToTransactionInterface in E.
    refine (mapIdx_ids_NoDup _ accountNumber bankName _ txs out E).
    intros tx index o. apply convertOne_id.
  - destruct (HelpersML.convertToTransactionInterfaceML _ _ _ _ _)
      as [out|] eqn:E; [|exact I].
    unfold HelpersML.convertToTransactionInterfaceML in E.
    refine (mapIdx_ids_NoDup _ accountNumber bankName _ txs out E).
    intros tx index o. apply convertOneML_id.
Qed.

(** ** Further properties: the whole document *)

Section WholeDocument.

Import Adapter.

(** The date of the parsed transaction passes [parseDate]. *)
Definition dateOk (tx : Helpers.ParsedTransaction) : bool :=
  match Helpers.parseDate (Helpers.pt_date tx) with
  | Ok _ => true
  | Throw _ => false
  end.

(** Every date on the page passes [parseDate]. *)
Definition pageOk (items : list Icici.TextItem) : bool :=
  forallb dateOk (Icici.extractTransactionsFromPage items).

(** The number of records on the pages. *)
Definition pageTotal (pages : list (list Icici.TextItem)) : nat :=
  list_sum (map (fun items =>
                   List.length (Icici.extractTransactionsFromPage items))
                pages).

Definition invalidDateMessage (m : string) : Prop :=
  exists d, m = ("Invalid date format: " ++ d)%string.

Lemma parseDate_throws (s m : string) :
  Helpers.parseDate s = Throw m -> m = ("Invalid date format: " ++ s)%string.
Proof.
  unfold Helpers.parseDate, tryCatch.
  destruct (Helpers.parseDateBody s); [discriminate|].
  intros H. injection H as <-. reflexivity.
Qed.

Lemma convertOne_cases (now : JSDate.Date) (accountNumber bankName : string)
    (tx : Helpers.ParsedTransaction) (index : nat) :
  match Helpers.convertOne now accountNumber bankName tx index with
  | Ok out => dateOk tx = true /\ Helpers.tx_account out = accountNumber
  | Throw m => dateOk tx = false /\ invalidDateMessage m
  end.
Proof.
  unfold Helpers.convertOne, dateOk. cbv zeta.
  destruct (Helpers.parseDate (Helpers.pt_date tx)) as [d|m] eqn:E;
    cbn [bind].
  - split; reflexivity.
  - split; [reflexivity|]. exists (Helpers.pt_date tx).
    apply parseDate_throws, E.
Qed.

Lemma convert_cases (clock : nat -> JSDate.Date)
    (accountNumber bankName : string)
    (txs : list Helpers.ParsedTransaction) :
  match Helpers.convertToTransactionInterface clock txs accountNumber
                                             bankName with
  | Ok out =>
      forallb dateOk txs = true /\
      List.length out = List.length txs /\
      Forall (fun t => Helpers.tx_account t = accountNumber) out
  | Throw m => forallb dateOk txs = false /\ invalidDateMessage m
  end.
Proof.
  unfold Helpers.convertToTransactionInterface. generalize 0.
  induction txs as [|tx txs IH]; intros i; cbn [mapIdx forallb].
  - repeat split. constructor.
  - pose proof (convertOne_cases (clock i) accountNumber bankName tx i) as H.
    destruct (Helpers.convertOne (clock i) accountNumber bankName tx i)
      as [y|m]; cbn [bind].
    + destruct H as [Hd Hy]. rewrite Hd. cbn [andb].
      specialize (IH (S i)).
      destruct (mapIdx _ (S i) txs) as [ys|m]; cbn [bind].
      * destruct IH as [Hall [Hlen Hacc]].
        split; [exact Hall|]. split; [simpl; f_equal; exact Hlen|].
        constructor; assumption.
      * exact IH.
    + destruct H as [Hd Hm]. rewrite Hd. split; [reflexivity | exact Hm].
Qed.

(** The loop over the pages from the second page on. *)
Lemma pagesLoop_later (clock : nat -> nat -> JSDate.Date) (numPages : nat)
    (pages : list (list Icici.TextItem)) :
  forall (pageNum : nat) (s : Pages),
    2 <= pageNum ->
    match snd (pagesLoop clock numPages pageNum pages s) with
    | Ok s' =>
        forallb pageOk pages = true /\
        exists added,
          collected s' = collected s ++ added /\
          List.length added = pageTotal pages /\
          Forall (fun t => Helpers.tx_account t = accountNumber s) added
    | Throw m => forallb pageOk pages = false /\ invalidDateMessage m
    end.
Proof.
  induction pages as [|items rest IH]; intros pageNum s Hnum;
    cbn [pagesLoop forallb].
  - cbn [snd]. split; [reflexivity|]. exists [].
    rewrite app_nil_r. repeat split. constructor.
  - cbv zeta.
    assert ((pageNum =? 1) = false) as -> by (apply Nat.eqb_neq; lia).
    pose proof (convert_cases (clock pageNum)
                  (accountNumber s) "ICICI"
                  (Icici.extractTransactionsFromPage items)) as H.
    destruct (Helpers.convertToTransactionInterface _ _ _ _) as [conv|m].
    + destruct H as [Hall [Hlen Hacc]]. fold (pageOk items) in Hall. rewrite Hall.
      cbn [andb].
      match goal with
      | |- match snd (pagesLoop _ _ _ _ ?s1) with _ => _ end =>
          specialize (IH (S pageNum) s1)
      end.
      destruct (snd (pagesLoop clock numPages (S pageNum) rest _))
        as [s'|m].
      * destruct IH as [Hrest [added [Hcol [Hadd Hadded]]]]; [lia|].
        cbn [collected accountNumber] in *.
        split; [exact Hrest|]. exists (conv ++ added).
        split; [rewrite Hcol, app_assoc; reflexivity|].
        split.
        -- rewrite length_app, Hlen, Hadd. reflexivity.
        -- apply Forall_app. split; assumption.
      * destruct IH as [Hrest Hm]; [lia|]. split; [exact Hrest | exact Hm].
    + cbn [snd]. destruct H as [Hall Hm]. fold (pageOk items) in Hall.
      rewrite Hall. split; [reflexivity | exact Hm].
Qed.

(** The account number that the first page declares. *)
Definition firstPageAccount (pages : list (list Icici.TextItem)) : string :=
  match pages with
  | first :: _ => accountNumberOf (pageText first) ""
  | [] => ""
  end.

(** What [parse] returns for a document that loads. *)
Lemma parse_cases (clock : nat -> nat -> JSDate.Date)
    (pages : list (list Icici.TextItem)) :
  match snd (parse clock (Ok pages)) with
  | Ok r =>
      forallb pageOk pages = true /\
      bank r = "ICICI" /\ warnings r = [] /\
      List.length (transactions_ r) = pageTotal pages /\
      Forall (fun t => Helpers.tx_account t = firstPageAccount pages)
             (transactions_ r)
  | Throw m =>
      forallb pageOk pages = false /\
      exists d, m = failedToParse ("Invalid date format: " ++ d)%string
  end.
Proof.
  unfold parse. cbv zeta.
  destruct pages as [|first rest].
  - cbn. repeat split. constructor.
  - cbn [pagesLoop List.length]. cbv zeta.
    change (1 =? 1) with true. cbv iota.
    cbn [accountNumber firstPageAccount].
    set (account := accountNumberOf (pageText first) "").
    pose proof (convert_cases (clock 1) account "ICICI"
                  (Icici.extractTransactionsFromPage first)) as H.
    destruct (Helpers.convertToTransactionInterface _ _ _ _) as [conv|m].
    + destruct H as [Hall [Hlen Hacc]].
      match goal with
      | |- context [pagesLoop ?c ?n 2 rest ?s1] =>
          pose proof (pagesLoop_later c n rest 2 s1 (le_n 2)) as Hlater;
          destruct (pagesLoop c n 2 rest s1) as [pr [s'|m]]
      end; cbn [snd] in *.
      * destruct Hlater as [Hrest [added [Hcol [Hadd Hadded]]]].
        cbn [collected accountNumber] in *.
        cbn [bank warnings transactions_ forallb]. fold (pageOk first) in Hall.
        rewrite Hall, Hrest. split; [reflexivity|].
        split; [reflexivity|]. split; [reflexivity|].
        rewrite Hcol. cbn [app]. split.
        -- rewrite length_app, Hlen, Hadd. reflexivity.
        -- apply Forall_app. split; assumption.
      * destruct Hlater as [Hrest [d Hd]]. cbn [forallb].
        fold (pageOk first) in Hall. rewrite Hall, Hrest.
        split; [reflexivity|]. exists d. rewrite Hd. reflexivity.
    + cbn [snd forallb]. destruct H as [Hall [d Hd]].
      fold (pageOk first) in Hall. rewrite Hall.
      split; [reflexivity|]. exists d. rewrite Hd. reflexivity.
Qed.

End WholeDocument.

(** X12. [parse] is all or nothing.  For a document that loads, it returns
    a result exactly when every date on every page passes [parseDate], and
    the result holds one transaction for each record of each page; one date
    that does not pass, on any page, makes it throw "Failed to parse ICICI
    PDF: Invalid date format: ..." and return nothing, also of the pages
    before. *)
Theorem parse_is_all_or_nothing :
  forall (clock : nat -> nat -> JSDate.Date)
         (pages : list (list Icici.TextItem)),
    match snd (Adapter.parse clock (Ok pages)) with
    | Ok r =>
        forallb pageOk pages = true /\
        Adapter.bank r = "ICICI" /\ Adapter.warnings r = [] /\
        List.length (Adapter.transactions_ r) = pageTotal pages
    | Throw m =>
        forallb pageOk pages = false /\
        exists d, m = Adapter.failedToParse ("Invalid date format: " ++ d)%string
    end.
Proof.
  intros clock pages. pose proof (parse_cases clock pages) as H.
  destruct (snd (Adapter.parse clock (Ok pages))) as [r|m].
  - destruct H as [H1 [H2 [H3 [H4 _]]]]. auto.
  - exact H.
Qed.

(** X13. Every transaction of the result carries the account number that
    the first page declares, the empty text if it declares none; what a
    later page declares is not read. *)
Theorem account_number_is_that_of_first_page :
  forall (clock : nat -> nat -> JSDate.Date)
         (pages : list (list Icici.TextItem)),
    match snd (Adapter.parse clock (Ok pages)) with
    | Ok r =>
        Forall (fun t => Helpers.tx_account t = firstPageAccount pages)
               (Adapter.transactions_ r)
    | Throw _ => True
    end.
Proof.
  intros clock pages. pose proof (parse_cases clock pages) as H.
  destruct (snd (Adapter.parse clock (Ok pages))) as [r|m].
  - destruct H as [_ [_ [_ [_ H]]]]. exact H.
  - exact I.
Qed.

Section AcrossPages.

Import Adapter.

Lemma mapIdx_head {A B : Type} (f : A -> nat -> result B) (i : nat)
    (x : A) (xs : list A) (out : list B) :
  mapIdx f i (x :: xs) = Ok out ->
  exists y ys, out = y :: ys /\ f x i = Ok y.
Proof.
  cbn [mapIdx]. destruct (f x i) as [y|]; cbn [bind]; [|discriminate].
  destruct (mapIdx f (S i) xs) as [ys|]; cbn [bind]; [|discriminate].
  intros H. injection H as <-. exists y, ys. auto.
Qed.

(** The first transaction of a converted page and its identifier. *)
Lemma convert_head (clock : nat -> JSDate.Date) (accountNumber : string)
    (txs : list Helpers.ParsedTransaction) (d : string) :
  hd_error (map Helpers.pt_date txs) = Some d ->
  forallb dateOk txs = true ->
  exists y ys,
    Helpers.convertToTransactionInterface clock txs accountNumber "ICICI"
      = Ok (y :: ys) /\
    Helpers.tx_id y = transactionId "ICICI" accountNumber d 0.
Proof.
  intros Hd Hok.
  pose proof (convert_cases clock accountNumber "ICICI" txs) as H.
  destruct (Helpers.convertToTransactionInterface _ _ _ _) as [out|m] eqn:E.
  - destruct txs as [|tx txs]; [discriminate Hd|].
    unfold Helpers.convertToTransactionInterface in E.
    destruct (mapIdx_head _ _ _ _ _ E) as [y [ys [-> Hy]]].
    exists y, ys. split; [reflexivity|].
    simpl in Hd. injection Hd as <-.
    apply (convertOne_id _ _ _ _ _ _ Hy).
  - destruct H as [H _]. congruence.
Qed.

End AcrossPages.

(** X14. Across the pages of a document identifiers repeat: the index in
    an identifier starts again at 0 on every page, so when the first
    records of two pages have the same date, the result of [parse] holds
    two transactions with the same identifier. *)
Theorem ids_repeat_across_pages :
  forall (clock : nat -> nat -> JSDate.Date)
         (page1 page2 : list Icici.TextItem) (d : string),
    hd_error (map Helpers.pt_date
                  (Icici.extractTransactionsFromPage page1)) = Some d ->
    hd_error (map Helpers.pt_date
                  (Icici.extractTransactionsFromPage page2)) = Some d ->
    pageOk page1 = true ->
    pageOk page2 = true ->
    exists r,
      snd (Adapter.parse clock (Ok [page1; page2])) = Ok r /\
      ~ NoDup (map Helpers.tx_id (Adapter.transactions_ r)).
Proof.
  intros clock page1 page2 d Hd1 Hd2 Hok1 Hok2.
  unfold Adapter.parse. cbv zeta.
  cbn [Adapter.pagesLoop List.length]. cbv zeta.
  change (1 =? 1) with true. change (2 =? 1) with false. cbv iota.
  cbn [Adapter.accountNumber].
  set (account := Adapter.accountNumberOf (Adapter.pageText page1) "").
  destruct (convert_head (clock 1) account _ d Hd1 Hok1)
    as [y1 [ys1 [E1 Hy1]]].
  destruct (convert_head (clock 2) account _ d Hd2 Hok2)
    as [y2 [ys2 [E2 Hy2]]].
  rewrite E1. cbn [Adapter.accountNumber Adapter.collected]. rewrite E2.
  cbn [snd Adapter.collected app].
  eexists. split; [reflexivity|].
  cbn [Adapter.transactions_ map]. rewrite map_app. cbn [map].
  rewrite Hy1, Hy2. intros Hnodup.
  inversion Hnodup as [|? ? Hnotin _]; subst.
  apply Hnotin, in_or_app. right. left. reflexivity.
Qed.

(** Witness for X14: the row of the scenario on each of two pages. *)
Lemma ids_repeat_across_pages_witness :
  exists r,
    snd (Adapter.parse (fun _ _ => None)
                       (Ok [netflixRow 700; netflixRow 700])) = Ok r /\
    ~ NoDup (map Helpers.tx_id (Adapter.transactions_ r)).
Proof.
  apply (ids_repeat_across_pages (fun _ _ => None)
           (netflixRow 700) (netflixRow 700) "15-03-2024").
  - vm_compute. reflexivity.
  - vm_compute. reflexivity.
  - vm_compute. reflexivity.
  - vm_compute. reflexivity.
Defined.

(** ** Further properties: the worker *)

Section WorkerMessages.

Import Adapter.
Local Open Scope Q_scope.

(** A fraction that the worker reports as 10 percent. *)
Definition reportedAsTen (e : Progress) : Prop :=
  0 <= fraction e /\ fraction e < 10 # 9.

Lemma scaled_ten (p : Q) : 0 <= p -> p < 10 # 9 -> Worker.scaled p = 10%Z.
Proof.
  intros H0 H1. unfold Worker.scaled.
  assert (Qfloor (p * (9 # 10)) = 0%Z) as ->; [|reflexivity].
  pose proof (Qfloor_le (p * (9 # 10))) as Hlo.
  pose proof (Qlt_floor (p * (9 # 10))) as Hhi.
  assert (inject_Z (Qfloor (p * (9 # 10))) < inject_Z 1) as A1.
  { change (inject_Z 1) with 1. lra. }
  assert (inject_Z (-1) < inject_Z (Qfloor (p * (9 # 10)))) as A2.
  { rewrite inject_Z_plus in Hhi. change (inject_Z 1) with 1 in Hhi.
    change (inject_Z (-1)) with (-1 # 1). lra. }
  rewrite <- Zlt_Qlt in A1, A2. lia.
Qed.

Lemma pageFraction_bounds (pageNum numPages : nat) :
  (1 <= pageNum)%nat -> (pageNum <= numPages)%nat ->
  0 <= pageFraction pageNum numPages /\
  pageFraction pageNum numPages < 10 # 9.
Proof.
  intros H1 H2. unfold pageFraction.
  assert (0 < inject_Z (Z.of_nat numPages)) as Hn.
  { apply inject_Z_pos. lia. }
  assert (0 <= inject_Z (Z.of_nat pageNum) / inject_Z (Z.of_nat numPages))
    as A1.
  { apply Qle_shift_div_l; [exact Hn|]. rewrite Qmult_0_l.
    change 0 with (inject_Z 0). rewrite <- Zle_Qle. lia. }
  assert (inject_Z (Z.of_nat pageNum) / inject_Z (Z.of_nat numPages) <= 1)
    as A2.
  { apply Qle_shift_div_r; [exact Hn|]. rewrite Qmult_1_l.
    rewrite <- Zle_Qle. lia. }
  split; lra.
Qed.

Lemma pagesLoop_fractions (clock : nat -> nat -> JSDate.Date)
    (numPages : nat) (pages : list (list Icici.TextItem)) :
  forall (pageNum : nat) (s : Pages),
    (1 <= pageNum)%nat ->
    (pageNum + List.length pages = S numPages)%nat ->
    Forall reportedAsTen (emitted s) ->
    Forall reportedAsTen (fst (pagesLoop clock numPages pageNum pages s)).
Proof.
  induction pages as [|items rest IH]; intros pageNum s H1 Hlen Hs;
    cbn [pagesLoop].
  - exact Hs.
  - cbv zeta. simpl in Hlen.
    assert (Forall reportedAsTen
              (emitted s ++
               [ {| fraction := pageFraction pageNum numPages;
                    message := ("Processing page " ++
                                Helpers.indexText pageNum)%string |} ]))
      as Hnext.
    { apply Forall_app. split; [exact Hs|].
      constructor; [|constructor].
      apply pageFraction_bounds; lia. }
    destruct (Helpers.convertToTransactionInterface _ _ _ _) as [conv|m].
    + apply IH; [lia | lia | exact Hnext].
    + exact Hnext.
Qed.

Lemma parse_fractions (clock : nat -> nat -> JSDate.Date) (pdf : Document) :
  Forall reportedAsTen (fst (parse clock pdf)).
Proof.
  unfold parse. cbv zeta. destruct pdf as [pages|m].
  - match goal with
    | |- context [pagesLoop ?c ?n 1 pages ?s1] =>
        pose proof (pagesLoop_fractions c n pages 1 s1) as H;
        destruct (pagesLoop c n 1 pages s1) as [pr [s'|m]]
    end; cbn [fst] in *.
    + apply Forall_app. split.
      * apply H; [lia | reflexivity|].
        repeat (constructor; [split; [discriminate | reflexivity]|]).
        constructor.
      * constructor; [split; [discriminate | reflexivity] | constructor].
    + apply H; [lia | reflexivity|].
      repeat (constructor; [split; [discriminate | reflexivity]|]).
      constructor.
  - cbn [fst].
    constructor; [split; [discriminate | reflexivity] | constructor].
Qed.

Lemma parse_throws_prefixed (clock : nat -> nat -> JSDate.Date)
    (pdf : Document) (m : string) :
  snd (parse clock pdf) = Throw m -> exists m', m = failedToParse m'.
Proof.
  unfold parse. cbv zeta. destruct pdf as [pages|m0].
  - destruct (pagesLoop _ _ _ _ _) as [pr [s'|m1]]; cbn [snd].
    + discriminate.
    + intros H. injection H as <-. exists m1. reflexivity.
  - cbn [snd]. intros H. injection H as <-. exists m0. reflexivity.
Qed.

End WorkerMessages.

(** X15. The messages that the worker posts for one file are: progress 2,
    progress 5, then progress reports that all say 10, then either progress
    100 with the result, or progress 100 with the error that no parser
    fits, or the error of the parser alone.  While the parser runs the
    reported progress therefore stays at 10: the parser reports fractions
    from 0.1 to 1, which the worker's scaling maps to 10. *)
Theorem worker_messages :
  forall (clock : nat -> nat -> JSDate.Date) (pdf : Adapter.Document)
         (fileName : string),
    exists during closing,
      Worker.handleParse clock pdf fileName =
        [ Worker.progress 2 (Some "Loading parsers");
          Worker.progress 5 (Some "Selecting parser") ] ++
        during ++ closing /\
      Forall (fun msg => exists m, msg = Worker.progress 10 (Some m)) during /\
      ((exists r, closing = [ Worker.progress 100 (Some "Done");
                              Worker.complete r ]) \/
       closing = [ Worker.progress 100 None;
                   Worker.error "No suitable parser found for this PDF." ] \/
       (exists m, closing = [ Worker.error (Adapter.failedToParse m) ])).
Proof.
  intros clock pdf fileName. unfold Worker.handleParse. cbv zeta.
  destruct (Adapter.canParse pdf fileName).
  - pose proof (parse_fractions clock pdf) as Hfr.
    pose proof (parse_throws_prefixed clock pdf) as Hthrow.
    destruct (Adapter.parse clock pdf) as [emitted outcome].
    cbn [fst snd] in *.
    exists (Worker.progress 10 (Some "Parsing with ICICI") ::
            map (fun e => Worker.progress
                            (inject_Z (Worker.scaled (Adapter.fraction e)))
                            (Some (Adapter.message e))) emitted).
    destruct outcome as [r|m].
    + exists [ Worker.progress 100 (Some "Done"); Worker.complete r ].
      split; [reflexivity|]. split; [|left; exists r; reflexivity].
      constructor; [exists "Parsing with ICICI"; reflexivity|].
      apply Forall_map. revert Hfr. apply Forall_impl.
      intros e [H0 H1]. exists (Adapter.message e).
      rewrite (scaled_ten _ H0 H1). reflexivity.
    + destruct (Hthrow m eq_refl) as [m' ->].
      exists [ Worker.error (Adapter.failedToParse m') ].
      split; [reflexivity|]. split; [|right; right; exists m'; reflexivity].
      constructor; [exists "Parsing with ICICI"; reflexivity|].
      apply Forall_map. revert Hfr. apply Forall_impl.
      intros e [H0 H1]. exists (Adapter.message e).
      rewrite (scaled_ten _ H0 H1). reflexivity.
  - exists [], [ Worker.progress 100 None;
                 Worker.error "No suitable parser found for this PDF." ].
    split; [reflexivity|]. split; [constructor|]. right. left. reflexivity.
Qed.

(** ** Further properties: the pipeline *)

Section PipelineFacts.

Import ML.
Local Open Scope Q_scope.

Lemma setAdd_In (x y : string) (s : list string) :
  In x (setAdd y s) -> x = y \/ In x s.
Proof.
  unfold setAdd. destruct (existsb (String.eqb y) s); [auto|].
  intros H. apply in_app_or in H. destruct H as [H | [H | []]]; auto.
Qed.

Lemma addIf_In (c : bool) (x y : string) (s : list string) :
  In x (addIf c y s) -> x = y \/ In x s.
Proof. destruct c; simpl; [apply setAdd_In | auto]. Qed.

Lemma fold_setAdd_In (x : string) (l : list string) :
  forall acc,
    In x (fold_left (fun s t => setAdd t s) l acc) -> In x l \/ In x acc.
Proof.
  induction l as [|t l IH]; intros acc H; simpl in *.
  - auto.
  - destruct (IH _ H) as [H1 | H1]; [auto|].
    apply setAdd_In in H1. destruct H1 as [-> | H1]; auto.
Qed.

Lemma generateEnhancedTags_NoDup (description merchant category_ : string)
    (amount : Q) (paymentMethod : string) :
  NoDup (generateEnhancedTags description merchant category_ amount
                              paymentMethod).
Proof.
  unfold generateEnhancedTags. cbv zeta.
  repeat apply addIf_NoDup. apply setAdd_NoDup, fold_setAdd_NoDup.
  constructor.
Qed.

Lemma generateEnhancedTags_nonempty (description merchant category_ : string)
    (amount : Q) (paymentMethod : string) :
  ~ In "" (generateEnhancedTags description merchant category_ amount
                                paymentMethod).
Proof.
  unfold generateEnhancedTags. cbv zeta. intros H.
  repeat (apply addIf_In in H; destruct H as [H | H]; [discriminate H|]).
  apply setAdd_In in H. destruct H as [H | H]; [discriminate H|].
  apply fold_setAdd_In in H. destruct H as [H | []].
  revert H. unfold Helpers.generateTags. apply nonempty_filter_spec.
Qed.

(** What every enrichment result satisfies. *)
Definition soundEnrichment (description : string)
    (e : MLTransactionEnrichment) : Prop :=
  wellFormed (e_confidence e) /\
  wellFormed (mp_confidence (e_merchant e)) /\
  wellFormed (cp_confidence (e_category e)) /\
  e_paymentMethod e = Helpers.determinePaymentMethod description /\
  e_notes e = Helpers.extractNotes description /\
  NoDup (e_tags e) /\ ~ In "" (e_tags e).

Lemma fallbackToRules_sound (description : string) (amount : Q)
    (type_ : Helpers.TxType) :
  soundEnrichment description (fallbackToRules description amount type_).
Proof.
  unfold soundEnrichment, fallbackToRules. cbv zeta.
  cbn [e_confidence e_merchant e_category e_paymentMethod e_notes e_tags].
  split; [apply createMLConfidence_wellFormed|].
  split; [apply createMLConfidence_wellFormed|].
  split; [apply createMLConfidence_wellFormed|].
  split; [reflexivity|]. split; [reflexivity|].
  unfold Helpers.generateTags. split.
  - apply NoDup_filter, strict_collectTags_NoDup.
  - apply nonempty_filter_spec.
Qed.

(** The accepted answer of the classifier: the pipeline consults it, it
    answers, and its confidence reaches the threshold. *)
Definition categoryAccepted (config : MLServiceConfig) (services : Services)
    (preprocessed : MLPreprocessedTransaction) : bool :=
  useML config && classifierReady services &&
  match classify services preprocessed with
  | Ok r => Qge_bool (cr_confidence r) (confidenceThreshold config)
  | Throw _ => false
  end.

(** The accepted answer of the merchant extractor. *)
Definition merchantAccepted (config : MLServiceConfig) (services : Services)
    (description : string) (amount : Q) : bool :=
  useML config && merchantExtractorReady services &&
  match extractMerchantML services description (Some amount) with
  | Ok r => Qge_bool (mr_confidence r) (confidenceThreshold config)
  | Throw _ => false
  end.

End PipelineFacts.

(** X16. When one of the three services is not ready, or the preprocessor
    throws, [enrichTransaction] returns the complete rule-based pass, whose
    overall confidence is 0.6 with the source "rules" whatever the merchant
    and the category are. *)
Theorem enrichTransaction_falls_back_to_rules :
  forall (config : ML.MLServiceConfig) (services : ML.Services)
         (description : string) (amount : Q) (type_ : Helpers.TxType),
    ML.isReady services = false \/
    (exists m, ML.preprocess services description amount type_ = Throw m) ->
    ML.enrichTransaction config services description amount type_ =
      Ok (ML.fallbackToRules description amount type_) /\
    (ML.score (ML.e_confidence
                 (ML.fallbackToRules description amount type_)) == 6 # 10)%Q /\
    ML.source_ (ML.e_confidence
                  (ML.fallbackToRules description amount type_)) = ML.rules.
Proof.
  intros config services description amount type_ H.
  split; [|split; reflexivity].
  unfold ML.enrichTransaction, ML.enrichBody.
  destruct (ML.isReady services); cbn [negb]; [|reflexivity].
  destruct H as [H | [m H]]; [discriminate H|].
  rewrite H. reflexivity.
Qed.

(** Witness for X16: a pipeline whose classifier is not ready. *)
Lemma enrichTransaction_falls_back_to_rules_witness :
  ML.enrichTransaction ML.DEFAULT_ML_CONFIG
    {| ML.preprocessorReady := true;
       ML.preprocess := fun _ _ _ => Throw "unused";
       ML.classifierReady := false;
       ML.classify := fun _ => Throw "unused";
       ML.merchantExtractorReady := true;
       ML.extractMerchantML := fun _ _ => Throw "unused" |}
    "UPI/NETFLIX/123" 199 Helpers.debit =
    Ok (ML.fallbackToRules "UPI/NETFLIX/123" 199 Helpers.debit) /\
  (ML.score (ML.e_confidence
               (ML.fallbackToRules "UPI/NETFLIX/123" 199 Helpers.debit))
   == 6 # 10)%Q /\
  ML.source_ (ML.e_confidence
                (ML.fallbackToRules "UPI/NETFLIX/123" 199 Helpers.debit))
  = ML.rules.
Proof.
  apply (enrichTransaction_falls_back_to_rules ML.DEFAULT_ML_CONFIG
           {| ML.preprocessorReady := true;
              ML.preprocess := fun _ _ _ => Throw "unused";
              ML.classifierReady := false;
              ML.classify := fun _ => Throw "unused";
              ML.merchantExtractorReady := true;
              ML.extractMerchantML := fun _ _ => Throw "unused" |}
           "UPI/NETFLIX/123" 199 Helpers.debit).
  left. reflexivity.
Defined.

(** X17. Whatever the configuration is and whatever the services return,
    also confidences outside of [0, 1], the result of [enrichTransaction]
    has its three confidences between 0 and 1, the payment method and the
    notes that the rules read from the description, and tags without
    duplicates and without the empty string. *)
Theorem enrichTransaction_result_is_sound :
  forall (config : ML.MLServiceConfig) (services : ML.Services)
         (description : string) (amount : Q) (type_ : Helpers.TxType),
    exists e,
      ML.enrichTransaction config services description amount type_ = Ok e /\
      soundEnrichment description e.
Proof.
  intros config services description amount type_.
  unfold ML.enrichTransaction, ML.enrichBody.
  destruct (negb (ML.isReady services)).
  - cbn [tryCatch]. eexists. split; [reflexivity|].
    apply fallbackToRules_sound.
  - destruct (ML.preprocess services description amount type_)
      as [preprocessed|m]; cbn [bind tryCatch].
    + eexists. split; [reflexivity|].
      unfold soundEnrichment.
      cbn [ML.e_confidence ML.e_merchant ML.e_category ML.e_paymentMethod
           ML.e_notes ML.e_tags].
      split; [apply createMLConfidence_wellFormed|].
      split; [apply pipeline_components_wellFormed; exact preprocessed|].
      split; [apply pipeline_components_wellFormed|].
      split; [reflexivity|]. split; [reflexivity|].
      split; [apply generateEnhancedTags_NoDup
             | apply generateEnhancedTags_nonempty].
    + eexists. split; [reflexivity|]. apply fallbackToRules_sound.
Qed.

(** X18. The source of a prediction is "ml" exactly when the pipeline
    consulted the service (learning is switched on and the service is
    ready), the service answered, and the confidence of its answer reaches
    the threshold of the configuration; in every other case the source is
    "rules".  This holds of the category and of the merchant. *)
Theorem ml_source_means_threshold_passed :
  forall (config : ML.MLServiceConfig) (services : ML.Services)
         (preprocessed : ML.MLPreprocessedTransaction)
         (description : string) (amount : Q),
    (ML.source_ (ML.cp_confidence
       (ML.classifyWithFallback config services preprocessed
                                description amount)) =
     if categoryAccepted config services preprocessed
     then ML.ml else ML.rules) /\
    (ML.source_ (ML.mp_confidence
       (ML.extractMerchantWithFallback config services description amount)) =
     if merchantAccepted config services description amount
     then ML.ml else ML.rules).
Proof.
  intros config services preprocessed description amount. split.
  - unfold ML.classifyWithFallback, ML.classifyAttempt, categoryAccepted,
      ML.shouldUseMlResult.
    cbn [ML.score].
    destruct (ML.useML config && ML.classifierReady services); cbn [andb].
    + destruct (ML.classify services preprocessed) as [r|m]; cbn [bind].
      * destruct (Qge_bool (ML.cr_confidence r)
                           (ML.confidenceThreshold config)).
        -- reflexivity.
        -- destruct (ML.fallbackToRules_ config); reflexivity.
      * destruct (ML.fallbackToRules_ config); reflexivity.
    + destruct (ML.fallbackToRules_ config); reflexivity.
  - unfold ML.extractMerchantWithFallback, ML.merchantAttempt,
      merchantAccepted, ML.shouldUseMlResult.
    cbn [ML.score].
    destruct (ML.useML config && ML.merchantExtractorReady services);
      cbn [andb].
    + destruct (ML.extractMerchantML services description (Some amount))
        as [r|m]; cbn [bind].
      * destruct (Qge_bool (ML.mr_confidence r)
                           (ML.confidenceThreshold config)).
        -- reflexivity.
        -- destruct (ML.fallbackToRules_ config); reflexivity.
      * destruct (ML.fallbackToRules_ config); reflexivity.
    + destruct (ML.fallbackToRules_ config); reflexivity.
Qed.

Section ExtractorConfidence.

Import ML.
Local Open Scope Q_scope.

Lemma addWhen_le (c : bool) (d x : Q) : 0 <= d -> x <= addWhen c d x.
Proof. intros H. unfold addWhen. destruct c; lra. Qed.

Lemma identifyMerchantTypeIn_nonneg (patterns : list MerchantTypePattern)
    (merchant t : string) (c : Q) :
  Forall (fun p => 0 <= mt_confidence p) patterns ->
  identifyMerchantTypeIn patterns merchant = Some (t, c) -> 0 <= c.
Proof.
  induction 1 as [|p rest Hp _ IH]; cbn [identifyMerchantTypeIn].
  - discriminate.
  - destruct (existsb _ (mt_keywords p)).
    + intros H. injection H as _ <-. exact Hp.
    + destruct (existsb _ (mt_suffixes p)).
      * intros H. injection H as _ <-. nra.
      * exact IH.
Qed.

Lemma merchantTypePatterns_nonneg :
  Forall (fun p => 0 <= mt_confidence p) merchantTypePatterns.
Proof. repeat (constructor; [discriminate|]). constructor. Qed.

Lemma calculatePatternConfidence_bounds (merchant : string) :
  7 # 10 <= calculatePatternConfidence merchant /\
  calculatePatternConfidence merchant <= 1.
Proof.
  unfold calculatePatternConfidence. cbv zeta. split; [|apply Q.le_min_l].
  apply Q.min_glb; [discriminate|].
  eapply Qle_trans; [|apply addWhen_le; discriminate].
  destruct (identifyMerchantType (JS.toLowerCase merchant))
    as [[t c]|] eqn:E.
  - apply (identifyMerchantTypeIn_nonneg _ _ _ _ merchantTypePatterns_nonneg)
      in E.
    apply Qle_trans with
      (addWhen (JS.includes merchant " ") (1 # 10)
         (addWhen
            (Regex.test
               (Regex.re "/^[A-Z][a-z]/"
                  (Regex.cat [Regex.Bol;
                              Regex.Cls false [Regex.CRange "A" "Z"];
                              Regex.Cls false [Regex.CRange "a" "z"]]))
               merchant) (5 # 100)
            (addWhen (5 <? String.length merchant)%nat (1 # 10) (7 # 10)))).
    + eapply Qle_trans; [|apply addWhen_le; discriminate].
      eapply Qle_trans; [|apply addWhen_le; discriminate].
      apply addWhen_le. discriminate.
    + nra.
  - eapply Qle_trans; [|apply addWhen_le; discriminate].
    eapply Qle_trans; [|apply addWhen_le; discriminate].
    apply addWhen_le. discriminate.
Qed.

End ExtractorConfidence.

(** The message of the error that the extractor throws. *)
Definition extractorError (m : string) : string :=
  ("[EnhancedMerchantExtractor:extractMerchant] " ++
   "Failed to extract merchant: " ++ m)%string.

(** What the extractor returns for the result of the patterns and the
    outcome of the language-processing path. *)
Definition extractorOutcome (patternResult : ML.MerchantResult)
    (mlOutcome : result ML.MerchantResult)
    (returned : result ML.MerchantResult) : Prop :=
  ((7 # 10 < ML.mr_confidence patternResult)%Q /\
   returned = Ok patternResult) \/
  ((ML.mr_confidence patternResult <= 7 # 10)%Q /\
   ((exists r, mlOutcome = Ok r /\ (6 # 10 < ML.mr_confidence r)%Q /\
               returned = Ok r) \/
    (exists r, mlOutcome = Ok r /\ (ML.mr_confidence r <= 6 # 10)%Q /\
               returned = Ok (ML.unknownMerchant (1 # 10) ML.byFallback)) \/
    (exists m, mlOutcome = Throw m /\
               returned = Throw (extractorError m)))).

Lemma enhanced_cases (patternResult : ML.MerchantResult)
    (mlOutcome : result ML.MerchantResult) :
  extractorOutcome patternResult mlOutcome
    (tryCatch
       (if Qgt_bool (ML.mr_confidence patternResult) (7 # 10)
        then Ok patternResult
        else
          mlResult <- mlOutcome ;;
          if Qgt_bool (ML.mr_confidence mlResult) (6 # 10) then Ok mlResult
          else Ok (ML.unknownMerchant (1 # 10) ML.byFallback))
       (fun m => Throw (extractorError m))).
Proof.
  unfold extractorOutcome.
  destruct (Qgt_bool (ML.mr_confidence patternResult) (7 # 10)) eqn:Ep;
    unfold Qgt_bool in Ep.
  - left. split; [apply Qlt_bool_true, Ep | reflexivity].
  - right. split; [apply Qlt_bool_false, Ep|].
    destruct mlOutcome as [r|m]; cbn [bind].
    + destruct (Qgt_bool (ML.mr_confidence r) (6 # 10)) eqn:Em;
        unfold Qgt_bool in Em; cbn [tryCatch].
      * left. exists r. split; [reflexivity|].
        split; [apply Qlt_bool_true, Em | reflexivity].
      * right. left. exists r. split; [reflexivity|].
        split; [apply Qlt_bool_false, Em | reflexivity].
    + right. right. exists m. split; reflexivity.
Qed.

(** X19. The confidence that the extractor computes for a pattern match lies
    between 0.7 and 1.  [EnhancedMerchantExtractor.extractMerchant] returns
    the result of the patterns when its confidence is above 0.7.  When it
    is not, it asks the language-processing path and returns that path's
    result when its confidence is above 0.6, "Unknown" with confidence 0.1
    and the method "fallback" when it is not, and throws its own error,
    which holds the message of the path, when the path throws.  Nothing
    else happens: the cases exclude each other. *)
Theorem extractor_confidence_levels :
  forall (extractWithML : string -> option Q -> result ML.MerchantResult)
         (description : string) (amount : option Q)
         (merchant : string),
    ((7 # 10 <= ML.calculatePatternConfidence merchant)%Q /\
     (ML.calculatePatternConfidence merchant <= 1)%Q) /\
    extractorOutcome
      (ML.extractWithPatterns description)
      (extractWithML description amount)
      (ML.extractMerchantEnhanced extractWithML description amount).
Proof.
  intros extractWithML description amount merchant.
  split; [apply calculatePatternConfidence_bounds|].
  apply (enhanced_cases (ML.extractWithPatterns description)
           (extractWithML description amount)).
Qed.

(** ** Further properties: the classifier *)

Section ClassifierFacts.

Import ML.
Import Classifier.
Local Open Scope Q_scope.

Definition confidenceOrder (a b : Scored) : Prop :=
  sc_confidence b <= sc_confidence a.

(** Every later entry has at most the confidence of an earlier one. *)
Fixpoint descending (l : list Scored) : Prop :=
  match l with
  | [] => True
  | a :: t => Forall (confidenceOrder a) t /\ descending t
  end.

Lemma insertScored_Permutation (a : Scored) (l : list Scored) :
  Permutation (insertScored a l) (a :: l).
Proof.
  induction l as [|b l IH]; simpl.
  - apply Permutation_refl.
  - destruct (Qle_bool (sc_confidence b - sc_confidence a) 0).
    + apply Permutation_refl.
    + eapply Permutation_trans; [apply perm_skip, IH | apply perm_swap].
Qed.

Lemma sortScored_Permutation (l : list Scored) :
  Permutation (sortScored l) l.
Proof.
  induction l as [|a l IH]; simpl.
  - constructor.
  - eapply Permutation_trans; [apply insertScored_Permutation|].
    apply perm_skip, IH.
Qed.

Lemma insertScored_descending (a : Scored) (l : list Scored) :
  descending l -> descending (insertScored a l).
Proof.
  induction l as [|b l IH]; simpl; intros H.
  - split; [constructor | exact I].
  - destruct H as [Hb Hl].
    destruct (Qle_bool (sc_confidence b - sc_confidence a) 0) eqn:E.
    + apply Qle_bool_iff in E.
      assert (confidenceOrder a b) as Hab by (unfold confidenceOrder; lra).
      split; [|split; assumption].
      constructor; [exact Hab|].
      revert Hb. apply Forall_impl. unfold confidenceOrder in *.
      intros c Hc. lra.
    + assert (confidenceOrder b a) as Hba.
      { unfold confidenceOrder.
        destruct (Qlt_le_dec (sc_confidence b) (sc_confidence a))
          as [Hlt|Hle]; [|exact Hle].
        exfalso. assert (Qle_bool (sc_confidence b - sc_confidence a) 0 = true)
          as Ht by (apply Qle_bool_iff; lra).
        congruence. }
      split; [|apply IH, Hl].
      apply (Permutation_Forall
               (Permutation_sym (insertScored_Permutation a l))).
      constructor; assumption.
Qed.

Lemma sortScored_descending (l : list Scored) : descending (sortScored l).
Proof.
  induction l as [|a l IH]; simpl.
  - exact I.
  - apply insertScored_descending, IH.
Qed.

Lemma In_firstn {A : Type} (n : nat) (l : list A) (x : A) :
  In x (firstn n l) -> In x l.
Proof.
  revert l. induction n as [|n IH]; intros [|a l]; simpl; try contradiction.
  intros [H | H]; [left; exact H | right; apply IH, H].
Qed.

Lemma lookupQ_In (table : list (string * Q)) (key : string) (v : Q) :
  lookupQ table key = Some v -> In v (map snd table).
Proof.
  unfold lookupQ.
  destruct (find _ table) as [p|] eqn:E; [|discriminate].
  intros H. injection H as <-. apply find_some in E. apply in_map, E.
Qed.

Lemma weightOf_pos (name : string) : 0 < weightOf name.
Proof.
  unfold weightOf.
  destruct (lookupQ featureWeights name) as [w|] eqn:E; [|reflexivity].
  destruct (JS.truthyNum w); [|reflexivity].
  apply lookupQ_In in E.
  assert (forallb (fun v => JSNum.Qlt_bool 0 v) (map snd featureWeights) = true)
    as H by (vm_compute; reflexivity).
  rewrite forallb_forall in H. apply Qlt_bool_true, H, E.
Qed.

Lemma addBonuses_ge (features_ : list (string * Q)) (names : list string) :
  forall s0, s0 <= addBonuses features_ names s0.
Proof.
  unfold addBonuses. induction names as [|f names IH]; intros s0; simpl.
  - lra.
  - eapply Qle_trans; [|apply IH].
    destruct (featureSet features_ f); [|lra].
    pose proof (weightOf_pos f). lra.
Qed.

Lemma clamp01_ge (lower s : Q) :
  lower <= 1 -> lower <= s -> lower <= clamp01 s.
Proof.
  intros H1 Hs. unfold clamp01.
  eapply Qle_trans; [|apply Q.le_max_r].
  apply Q.min_glb; assumption.
Qed.

(** The entry of the pattern table for "Entertainment". *)
Definition entertainment : CategoryPattern :=
  pat ["has_entertainment_keywords"; "is_round_amount"]
      ["has_person_name_pattern"]
      ["netflix"; "prime"; "movie"; "cinema"; "pvr"; "inox"; "spotify"]
      (7 # 10).

Lemma entertainment_in_table :
  In ("Entertainment"%string, entertainment) categoryPatterns.
Proof. right. left. reflexivity. Qed.

(** The score of "Entertainment" before the clamp is at least 0.58, and at
    least 0.7 for a transaction that does not look like a person's name. *)
Lemma entertainment_score (t : MLPreprocessedTransaction) :
  58 # 100 <= sc_confidence (scoreOf t "Entertainment" entertainment) /\
  (featureSet (features t) "has_person_name_pattern" = false ->
   7 # 10 <= sc_confidence (scoreOf t "Entertainment" entertainment)).
Proof.
  unfold scoreOf. cbv zeta. cbn [sc_confidence].
  set (k := List.length _).
  set (s1 := if (0 <? k)%nat then _ else _).
  assert (7 # 10 <= s1) as H1.
  { subst s1. cbn [baseScore entertainment pat].
    destruct (0 <? k)%nat; [|lra].
    assert (0 <= inject_Z (Z.of_nat k)) as Hk.
    { change 0 with (inject_Z 0). rewrite <- Zle_Qle. lia. }
    nra. }
  set (s2 := addBonuses (features t) (bonusFeatures entertainment) s1).
  assert (s1 <= s2) as H2 by apply addBonuses_ge.
  cbn [penaltyFeatures amountRange entertainment pat].
  unfold subPenalties. cbn [fold_left].
  assert (weightOf "has_person_name_pattern" == 12 # 100) as Hw
    by reflexivity.
  split.
  - apply clamp01_ge; [discriminate|].
    destruct (featureSet (features t) "has_person_name_pattern");
      destruct (match findMatchingRule t with
                | Some (c, _) => String.eqb c "Entertainment"
                | None => false
                end); lra.
  - intros Hp. rewrite Hp. apply clamp01_ge; [discriminate|].
    destruct (match findMatchingRule t with
              | Some (c, _) => String.eqb c "Entertainment"
              | None => false
              end); lra.
Qed.

Lemma scoreCategories_spec (t : MLPreprocessedTransaction) (s : Scored) :
  In s (scoreCategories t) <->
  (exists name p, In (name, p) categoryPatterns /\ s = scoreOf t name p) /\
  2 # 10 < sc_confidence s.
Proof.
  unfold scoreCategories. rewrite filter_In, in_map_iff.
  unfold Qgt_bool. rewrite Qlt_bool_true. split.
  - intros [[[name p] [Hs Hin]] Hc]. split; [|exact Hc].
    exists name, p. auto.
  - intros [[name [p [Hin Hs]]] Hc]. split; [|exact Hc].
    exists (name, p). auto.
Qed.

Lemma scoreOf_category (t : MLPreprocessedTransaction) (name : string)
    (p : CategoryPattern) :
  sc_category (scoreOf t name p) = name.
Proof. reflexivity. Qed.

Lemma scoreOf_le_1 (t : MLPreprocessedTransaction) (name : string)
    (p : CategoryPattern) :
  sc_confidence (scoreOf t name p) <= 1.
Proof. unfold scoreOf. cbv zeta. cbn [sc_confidence]. apply clamp01_bounds. Qed.

(** The names of the pattern table. *)
Definition categoryNames : list string := map fst categoryPatterns.

Definition scoredWell (t : MLPreprocessedTransaction) (s : Scored) : Prop :=
  In (sc_category s) categoryNames /\
  2 # 10 < sc_confidence s /\ sc_confidence s <= 1.

Lemma scoreCategories_scoredWell (t : MLPreprocessedTransaction) :
  Forall (scoredWell t) (scoreCategories t).
Proof.
  apply Forall_forall. intros s Hs. apply scoreCategories_spec in Hs.
  destruct Hs as [[name [p [Hin ->]]] Hc].
  split; [|split; [exact Hc | apply scoreOf_le_1]].
  rewrite scoreOf_category. unfold categoryNames.
  apply (in_map fst _ _ Hin).
Qed.

(** The sorted scores: not empty, descending, every entry well scored, and
    the first at least as confident as the entry for "Entertainment". *)
Lemma sorted_scores (t : MLPreprocessedTransaction) :
  exists top others,
    sortScored (scoreCategories t) = top :: others /\
    Forall (confidenceOrder top) others /\
    Forall (scoredWell t) (top :: others) /\
    sc_confidence (scoreOf t "Entertainment" entertainment)
      <= sc_confidence top.
Proof.
  assert (In (scoreOf t "Entertainment" entertainment) (scoreCategories t))
    as Hin.
  { apply scoreCategories_spec. split.
    - exists "Entertainment"%string, entertainment.
      split; [apply entertainment_in_table | reflexivity].
    - destruct (entertainment_score t) as [H _]. lra. }
  pose proof (sortScored_Permutation (scoreCategories t)) as Hperm.
  pose proof (sortScored_descending (scoreCategories t)) as Hdesc.
  pose proof (scoreCategories_scoredWell t) as Hwell.
  apply (Permutation_Forall (Permutation_sym Hperm)) in Hwell.
  apply (Permutation_in _ (Permutation_sym Hperm)) in Hin.
  destruct (sortScored (scoreCategories t)) as [|top others];
    [contradiction Hin|].
  exists top, others. destruct Hdesc as [Htop _].
  split; [reflexivity|]. split; [exact Htop|]. split; [exact Hwell|].
  destruct Hin as [<- | Hin]; [lra|].
  rewrite Forall_forall in Htop. apply (Htop _ Hin).
Qed.

(** What holds of an alternative that [classify] reports beside the
    category with the confidence [c]. *)
Definition goodAlternative (c : Q) (a : Alternative) : Prop :=
  In (alt_category a) categoryNames /\
  3 # 10 < alt_confidence a /\ alt_confidence a <= c.

Lemma classify_cases (t : MLPreprocessedTransaction) :
  In (cr_category (classify t)) categoryNames /\
  sc_confidence (scoreOf t "Entertainment" entertainment)
    <= cr_confidence (classify t) /\
  cr_confidence (classify t) <= 1 /\
  match cr_alternatives (classify t) with
  | Some alternatives =>
      alternatives <> [] /\ (List.length alternatives <= 3)%nat /\
      Forall (goodAlternative (cr_confidence (classify t))) alternatives
  | None => True
  end.
Proof.
  destruct (sorted_scores t) as [top [others [E [Htop [Hwell Hent]]]]].
  unfold classify. rewrite E. cbv zeta.
  cbn [cr_category cr_confidence cr_alternatives].
  inversion Hwell as [|? ? [Hname [_ Hle]] Hothers]; subst.
  split; [exact Hname|]. split; [exact Hent|]. split; [exact Hle|].
  set (alternatives := filter _ _).
  assert (Forall (goodAlternative (sc_confidence top)) alternatives) as Hgood.
  { subst alternatives. apply Forall_forall. intros a Ha.
    apply filter_In in Ha. destruct Ha as [Ha Hc].
    apply in_map_iff in Ha. destruct Ha as [s [<- Hs]].
    cbn [alt_category alt_confidence] in *.
    unfold Qgt_bool in Hc. apply Qlt_bool_true in Hc.
    apply In_firstn in Hs.
    rewrite Forall_forall in Hothers, Htop.
    destruct (Hothers _ Hs) as [Hn _].
    split; [exact Hn|]. split; [exact Hc | apply (Htop _ Hs)]. }
  assert (List.length alternatives <= 3)%nat as Hlen.
  { subst alternatives.
    eapply Nat.le_trans; [apply filter_length_le|].
    rewrite length_map. apply firstn_le_length. }
  destruct alternatives as [|a alternatives]; [exact I|].
  split; [discriminate|]. split; assumption.
Qed.

End ClassifierFacts.

(** X20. The classifier never gives its default answer "Others": the entry
    "Entertainment" of its table always scores at least 0.58 (base 0.7, one
    penalty of 0.12), so there is always a scored category.  The category
    returned is one of the eight names of the table, its confidence lies
    between 0.58 and 1, and the alternatives, if any, are at most three,
    each from the table, with a confidence above 0.3 and not above that of
    the category returned. *)
Theorem classify_never_defaults :
  forall t : ML.MLPreprocessedTransaction,
    In (ML.cr_category (Classifier.classify t)) categoryNames /\
    ML.cr_category (Classifier.classify t) <> "Others" /\
    (58 # 100 <= ML.cr_confidence (Classifier.classify t))%Q /\
    (ML.cr_confidence (Classifier.classify t) <= 1)%Q /\
    match ML.cr_alternatives (Classifier.classify t) with
    | Some alternatives =>
        alternatives <> [] /\ List.length alternatives <= 3 /\
        Forall (goodAlternative (ML.cr_confidence (Classifier.classify t)))
               alternatives
    | None => True
    end.
Proof.
  intros t. destruct (classify_cases t) as [Hname [Hent [Hle Halt]]].
  split; [exact Hname|]. split; [|split; [|split; [exact Hle | exact Halt]]].
  - intros E. rewrite E in Hname. vm_compute in Hname.
    repeat (destruct Hname as [Hname | Hname]; [discriminate Hname|]).
    exact Hname.
  - destruct (entertainment_score t) as [H _].
    eapply Qle_trans; [exact H | exact Hent].
Qed.

(** X21. With the default configuration (threshold 0.7) and the classifier
    of the repository as the pipeline's classifier, a transaction whose
    features do not say "person name" always gets the classifier's
    category: the confidence is at least 0.7, so the pipeline takes it with
    the source "ml" and does not ask the rules. *)
Theorem default_pipeline_takes_classifier_answer :
  forall (services : ML.Services)
         (preprocessed : ML.MLPreprocessedTransaction)
         (description : string) (amount : Q),
    ML.classifierReady services = true ->
    ML.classify services preprocessed =
      Ok (Classifier.classify preprocessed) ->
    Classifier.featureSet (ML.features preprocessed)
                          "has_person_name_pattern" = false ->
    let prediction :=
      ML.classifyWithFallback ML.DEFAULT_ML_CONFIG services preprocessed
                              description amount in
    ML.source_ (ML.cp_confidence prediction) = ML.ml /\
    ML.cp_category prediction =
      ML.cr_category (Classifier.classify preprocessed) /\
    ML.cp_category prediction <> "Others" /\
    (7 # 10 <= ML.score (ML.cp_confidence prediction))%Q.
Proof.
  intros services preprocessed description amount Hready Hclassify Hperson.
  destruct (classify_cases preprocessed) as [Hname [Hent [Hle _]]].
  destruct (entertainment_score preprocessed) as [_ H70].
  specialize (H70 Hperson).
  assert (7 # 10 <= ML.cr_confidence (Classifier.classify preprocessed))%Q
    as Hconf by (eapply Qle_trans; eassumption).
  cbv zeta.
  unfold ML.classifyWithFallback, ML.classifyAttempt.
  cbn [ML.useML ML.DEFAULT_ML_CONFIG ML.confidenceThreshold andb].
  rewrite Hready, Hclassify. cbn [bind].
  unfold ML.shouldUseMlResult, Qge_bool. cbn [ML.score].
  assert (Qle_bool (7 # 10)
            (ML.cr_confidence (Classifier.classify preprocessed)) = true)
    as -> by (apply Qle_bool_iff, Hconf).
  cbn [ML.cp_confidence ML.cp_category ML.createMLConfidence ML.source_
       ML.score].
  split; [reflexivity|]. split; [reflexivity|]. split.
  - intros E. rewrite E in Hname. vm_compute in Hname.
    repeat (destruct Hname as [Hname | Hname]; [discriminate Hname|]).
    exact Hname.
  - apply clamp01_ge; [discriminate | exact Hconf].
Qed.

(** A pipeline with the classifier of the repository; its preprocessor
    gives no token and no feature. *)
Definition servicesWithClassifier : ML.Services :=
  {| ML.preprocessorReady := true;
     ML.preprocess := fun description amount type_ =>
       Ok {| ML.originalDescription := description;
             ML.cleanedDescription := JS.toLowerCase description;
             ML.tokens := [];
             ML.features := [];
             ML.pp_amount := amount;
             ML.pp_type := type_ |};
     ML.classifierReady := true;
     ML.classify := fun p => Ok (Classifier.classify p);
     ML.merchantExtractorReady := true;
     ML.extractMerchantML :=
       ML.extractMerchantEnhanced
         (fun _ _ => Ok (ML.unknownMerchant (2 # 10) ML.byMl)) |}.

(** Witness for X21: a cash withdrawal, which holds no keyword of the
    classifier's table: the answer is "Entertainment", taken as "ml". *)
Lemma default_pipeline_takes_classifier_answer_witness :
  let preprocessed :=
    {| ML.originalDescription := "ATM CASH WITHDRAWAL";
       ML.cleanedDescription := "atm cash withdrawal";
       ML.tokens := [];
       ML.features := [];
       ML.pp_amount := 2000;
       ML.pp_type := Helpers.debit |} in
  let prediction :=
    ML.classifyWithFallback ML.DEFAULT_ML_CONFIG servicesWithClassifier
                            preprocessed "ATM CASH WITHDRAWAL" 2000 in
  ML.source_ (ML.cp_confidence prediction) = ML.ml /\
  ML.cp_category prediction =
    ML.cr_category (Classifier.classify preprocessed) /\
  ML.cp_category prediction <> "Others" /\
  (7 # 10 <= ML.score (ML.cp_confidence prediction))%Q.
Proof.
  exact (default_pipeline_takes_classifier_answer servicesWithClassifier
           {| ML.originalDescription := "ATM CASH WITHDRAWAL";
              ML.cleanedDescription := "atm cash withdrawal";
              ML.tokens := [];
              ML.features := [];
              ML.pp_amount := 2000;
              ML.pp_type := Helpers.debit |}
           "ATM CASH WITHDRAWAL" 2000 eq_refl eq_refl eq_refl).
Defined.

(** ** Further properties: the features *)

Section FeatureFacts.

Import Preprocessor.
Local Open Scope Q_scope.

Variable log10 : Q -> Q.

(** The flag that the classifier reads is the condition that set it. *)
Lemma featureSet_flag (b : bool) (name : string)
    (features_ : list (string * Q)) :
  Classifier.lookupQ features_ name = Some (flag b) ->
  Classifier.featureSet features_ name = b.
Proof.
  unfold Classifier.featureSet. intros ->. destruct b; reflexivity.
Qed.

Lemma small_flag (tokens_ : list string) (amount : Q) :
  Classifier.featureSet (extractFeatures log10 tokens_ amount)
                        "is_small_amount" = JSNum.Qlt_bool amount 100.
Proof. apply featureSet_flag. reflexivity. Qed.

Lemma medium_flag (tokens_ : list string) (amount : Q) :
  Classifier.featureSet (extractFeatures log10 tokens_ amount)
                        "is_medium_amount" =
  Qge_bool amount 100 && Qle_bool amount 5000.
Proof. apply featureSet_flag. reflexivity. Qed.

Lemma large_flag (tokens_ : list string) (amount : Q) :
  Classifier.featureSet (extractFeatures log10 tokens_ amount)
                        "is_large_amount" = Qgt_bool amount 5000.
Proof. apply featureSet_flag. reflexivity. Qed.

Lemma merchant_flag (tokens_ : list string) (amount : Q) :
  Classifier.featureSet (extractFeatures log10 tokens_ amount)
                        "has_merchant_indicators" =
  hasKeywords tokens_ merchantIndicators.
Proof. apply featureSet_flag. reflexivity. Qed.

Lemma person_flag (tokens_ : list string) (amount : Q) :
  Classifier.featureSet (extractFeatures log10 tokens_ amount)
                        "has_person_name_pattern" =
  looksLikePersonName tokens_.
Proof. apply featureSet_flag. reflexivity. Qed.

Lemma amount_bands (amount : Q) :
  let small := JSNum.Qlt_bool amount 100 in
  let medium := Qge_bool amount 100 && Qle_bool amount 5000 in
  let large := Qgt_bool amount 5000 in
  (small = true /\ medium = false /\ large = false) \/
  (small = false /\ medium = true /\ large = false) \/
  (small = false /\ medium = false /\ large = true).
Proof.
  cbv zeta. unfold Qge_bool, Qgt_bool.
  destruct (Qlt_le_dec amount 100) as [H1|H1];
    [|destruct (Qlt_le_dec 5000 amount) as [H2|H2]].
  - left. split; [apply Qlt_bool_true, H1|].
    split.
    + apply andb_false_iff. left.
      destruct (Qle_bool 100 amount) eqn:E; [|reflexivity].
      apply Qle_bool_iff in E. lra.
    + apply Qlt_bool_false. lra.
  - right. right. split; [apply Qlt_bool_false, H1|].
    split; [|apply Qlt_bool_true, H2].
    apply andb_false_iff. right.
    destruct (Qle_bool amount 5000) eqn:E; [|reflexivity].
    apply Qle_bool_iff in E. lra.
  - right. left. split; [apply Qlt_bool_false, H1|].
    split; [|apply Qlt_bool_false, H2].
    apply andb_true_iff. split; apply Qle_bool_iff; assumption.
Qed.

Lemma person_excludes_merchant (tokens_ : list string) :
  looksLikePersonName tokens_ = true ->
  hasKeywords tokens_ merchantIndicators = false /\
  (1 <= List.length tokens_ <= 3)%nat.
Proof.
  unfold looksLikePersonName.
  destruct ((List.length tokens_ =? 0)%nat || (3 <? List.length tokens_)%nat)
    eqn:E; [discriminate|].
  apply orb_false_iff in E. destruct E as [E0 E3].
  apply Nat.eqb_neq in E0. apply Nat.ltb_ge in E3.
  cbv zeta. intros H. apply andb_true_iff in H. destruct H as [H _].
  apply negb_true_iff in H. split; [exact H | lia].
Qed.

End FeatureFacts.

(** X22. In the features that the preprocessor extracts, exactly one of
    the three amount bands (small below 100, medium from 100 to 5000, large
    above 5000) is set, for every amount; and the person-name feature is
    set only for one to three tokens and never together with the
    merchant-indicator feature. *)
Theorem extracted_features_are_consistent :
  forall (log10 : Q -> Q) (tokens_ : list string) (amount : Q),
    let features_ := Preprocessor.extractFeatures log10 tokens_ amount in
    let small := Classifier.featureSet features_ "is_small_amount" in
    let medium := Classifier.featureSet features_ "is_medium_amount" in
    let large := Classifier.featureSet features_ "is_large_amount" in
    ((small = true /\ medium = false /\ large = false) \/
     (small = false /\ medium = true /\ large = false) \/
     (small = false /\ medium = false /\ large = true)) /\
    (Classifier.featureSet features_ "has_person_name_pattern" = false \/
     (Classifier.featureSet features_ "has_merchant_indicators" = false /\
      1 <= List.length tokens_ <= 3)).
Proof.
  intros log10 tokens_ amount. cbv zeta.
  rewrite small_flag, medium_flag, large_flag, merchant_flag, person_flag.
  split; [apply amount_bands|].
  destruct (Preprocessor.looksLikePersonName tokens_) eqn:E.
  - right. apply person_excludes_merchant, E.
  - left. reflexivity.
Qed.

(** ** Further properties: the conversion through the pipeline *)

Lemma enrichTransaction_returns (config : ML.MLServiceConfig)
    (services : ML.Services) (description : string) (amount : Q)
    (type_ : Helpers.TxType) :
  exists e,
    ML.enrichTransaction config services description amount type_ = Ok e.
Proof.
  unfold ML.enrichTransaction, ML.enrichBody.
  destruct (negb (ML.isReady services)); cbn [tryCatch];
    [eexists; reflexivity|].
  destruct (ML.preprocess services description amount type_);
    cbn [bind tryCatch]; eexists; reflexivity.
Qed.

(** What the conversion through the pipeline takes from the enrichment. *)
Definition enrichedFrom (e : ML.MLTransactionEnrichment)
    (out : Helpers.Transaction) : Prop :=
  Helpers.tx_category out = ML.cp_category (ML.e_category e) /\
  Helpers.tx_subcategory out = ML.cp_subcategory (ML.e_category e) /\
  Helpers.tx_merchant out =
    Some (ML.mp_normalizedMerchant (ML.e_merchant e)) /\
  Helpers.tx_paymentMethod out = ML.e_paymentMethod e /\
  Helpers.tx_isRecurring out = ML.e_isRecurring e /\
  Helpers.tx_tags out = ML.e_tags e /\
  Helpers.tx_notes out = ML.e_notes e.

Lemma convertOneML_cases (services : ML.Services) (now : JSDate.Date)
    (accountNumber bankName : string) (tx : Helpers.ParsedTransaction)
    (index : nat) :
  match HelpersML.convertOneML services now accountNumber bankName tx index
  with
  | Ok out =>
      Helpers.parseDate (Helpers.pt_date tx) = Ok (Helpers.tx_date out) /\
      exists e,
        ML.enrichTransaction ML.DEFAULT_ML_CONFIG services
          (Helpers.pt_description tx) (Helpers.pt_amount tx)
          (Helpers.tx_type out) = Ok e /\
        enrichedFrom e out
  | Throw m =>
      Helpers.parseDate (Helpers.pt_date tx) = Throw m
  end.
Proof.
  unfold HelpersML.convertOneML. cbv zeta.
  destruct (enrichTransaction_returns ML.DEFAULT_ML_CONFIG services
              (Helpers.pt_description tx) (Helpers.pt_amount tx)
              match Helpers.pt_type tx with
              | Helpers.DR => Helpers.debit
              | Helpers.CR => Helpers.credit
              end) as [e He].
  rewrite He. cbn [bind].
  destruct (Helpers.parseDate (Helpers.pt_date tx)) as [d|m] eqn:Ed;
    cbn [bind tryCatch].
  - cbn [Helpers.tx_date Helpers.tx_type]. split; [reflexivity|].
    exists e. split; [exact He|]. repeat split.
  - reflexivity.
Qed.

(** X23. In the conversion through the pipeline the rule-based branch of
    the [catch] block never gives a transaction.  A record whose date
    passes [parseDate] is built from the enrichment of the pipeline, which
    never throws; a record whose date does not pass makes the callback
    throw the error of [parseDate], in the [try] block and again in the
    [catch] block, so that the whole conversion rejects, as the conversion
    without the pipeline does. *)
Theorem ml_conversion_never_uses_its_catch_branch :
  forall (services : ML.Services) (clock : nat -> JSDate.Date)
         (now : JSDate.Date) (accountNumber bankName : string)
         (tx : Helpers.ParsedTransaction) (index : nat)
         (parsedTransactions : list Helpers.ParsedTransaction),
    match HelpersML.convertOneML services now accountNumber bankName tx index
    with
    | Ok out =>
        Helpers.parseDate (Helpers.pt_date tx) = Ok (Helpers.tx_date out) /\
        exists e,
          ML.enrichTransaction ML.DEFAULT_ML_CONFIG services
            (Helpers.pt_description tx) (Helpers.pt_amount tx)
            (Helpers.tx_type out) = Ok e /\
          enrichedFrom e out
    | Throw m =>
        Helpers.parseDate (Helpers.pt_date tx) = Throw m
    end /\
    match HelpersML.convertToTransactionInterfaceML
            services clock parsedTransactions accountNumber bankName with
    | Ok out =>
        forallb dateOk parsedTransactions = true /\
        List.length out = List.length parsedTransactions
    | Throw m =>
        forallb dateOk parsedTransactions = false /\ invalidDateMessage m
    end.
Proof.
  intros services clock now accountNumber bankName tx index txs.
  split; [apply convertOneML_cases|].
  unfold HelpersML.convertToTransactionInterfaceML. generalize 0.
  induction txs as [|tx' txs IH]; intros i; cbn [mapIdx forallb].
  - split; reflexivity.
  - pose proof (convertOneML_cases services (clock i) accountNumber bankName
                  tx' i) as H.
    destruct (HelpersML.convertOneML services (clock i) accountNumber
                                     bankName tx' i) as [y|m]; cbn [bind].
    + destruct H as [Hd _].
      assert (dateOk tx' = true) as -> by (unfold dateOk; rewrite Hd;
                                          reflexivity).
      cbn [andb]. specialize (IH (S i)).
      destruct (mapIdx _ (S i) txs) as [ys|m]; cbn [bind].
      * destruct IH as [Hall Hlen]. split; [exact Hall|].
        simpl. f_equal. exact Hlen.
      * exact IH.
    + assert (dateOk tx' = false) as -> by (unfold dateOk; rewrite H;
                                           reflexivity).
      split; [reflexivity|]. exists (Helpers.pt_date tx').
      apply parseDate_throws, H.
Qed.

(** ** Further properties: the choice of the parser *)

Section Needles.

Lemma startsWithChars_prefix (p q l : list ascii) :
  JS.startsWithChars (p ++ q) l = true -> JS.startsWithChars p l = true.
Proof.
  revert l. induction p as [|a p IH]; intros l; simpl.
  - destruct l; reflexivity.
  - destruct l as [|b l]; [discriminate|].
    rewrite !andb_true_iff. intros [Hab H]. split; [exact Hab|].
    apply IH, H.
Qed.

Lemma includesChars_prefix (p q l : list ascii) :
  JS.includesChars l (p ++ q) = true -> JS.includesChars l p = true.
Proof.
  induction l as [|c l IH]; simpl.
  - rewrite !orb_false_r. apply startsWithChars_prefix.
  - rewrite !orb_true_iff. intros [H | H].
    + left. eapply startsWithChars_prefix, H.
    + right. apply IH, H.
Qed.

(** A text that holds a needle holds every beginning of the needle. *)
Lemma includes_prefix (s p q : string) :
  JS.includes s (p ++ q) = true -> JS.includes s p = true.
Proof.
  unfold JS.includes. rewrite chars_append. apply includesChars_prefix.
Qed.

End Needles.

(** What the first page must mention when the file name does not say
    "icici". *)
Definition firstPageMentions (pdf : Adapter.Document) : bool :=
  match pdf with
  | Ok (items :: _) =>
      let text := JS.toLowerCase (Adapter.pageText items) in
      JS.includes text "icici" ||
      JS.includes text "industrial credit and investment corporation"
  | _ => false
  end.

(** X24. [canParse] accepts a file exactly when its name holds "icici" in
    any mix of upper and lower case, or the document loads, has a page,
    and the text of its first page holds "icici" or "industrial credit and
    investment corporation" in any case; the test for "icici bank" adds
    nothing to the test for "icici".  A name with "icici" is accepted also
    for a file that does not load. *)
Theorem canParse_characterised :
  forall (pdf : Adapter.Document) (fileName : string),
    Adapter.canParse pdf fileName =
    JS.includes (JS.toLowerCase fileName) "icici" || firstPageMentions pdf.
Proof.
  intros pdf fileName. unfold Adapter.canParse, firstPageMentions.
  destruct (JS.includes (JS.toLowerCase fileName) "icici"); [reflexivity|].
  cbn [orb]. destruct pdf as [[|items rest]|m]; try reflexivity.
  cbv zeta.
  destruct (JS.includes (JS.toLowerCase (Adapter.pageText items))
                        "icici bank") eqn:E; [|reflexivity].
  apply (includes_prefix _ "icici" " bank") in E. rewrite E. reflexivity.
Qed.
